(** * STYX: the belief-computation core, embedded and verified

    A shallow embedding of the Go packages [types], [time], [evidence],
    [state], [witness], [partition], [finality], [oracle] and [observer]
    of the STYX membership oracle, with the properties of its
    specification, and further properties of the code, stated over the
    embedded code.

    Numeric model.  A Go [float64] is modelled by an exact rational ([Q]):
    the arithmetic of the source is kept operation for operation, without
    rounding.  Decimal constants stand for their decimal value.  The one
    computation of the core that relies on IEEE special values, the ratio
    [float64(waitedMS) / float64(expectedMS)] of [NewTimeout] (a division
    by zero yields +Inf or NaN there), is modelled in binary64 with the
    primitive floats.  Unsigned 64-bit counters are integers ([Z]); the
    increments of the logical clock and of the generation counter wrap
    modulo 2^64 ([wrap64]), and so does the subtraction of durations
    ([observer.wrapInt64]); counts of reports, votes and list lengths are
    unbounded integers.

    Every other division of the modelled code has a non-zero divisor,
    except [age / halfLife] for an evidence set built with half-life 0:
    there the source computes NaN (age 0; [pow] then returns 1, as the
    model does) or +Inf (the loop of [pow] does not exit, and no belief is
    returned).  The loop of [pow] decrements a [float64]: it exits for
    exponents below 2^53, where the decrement is exact, and does not exit
    from 2^53 + 4 on; its product is a normal [float64] for fewer than
    1022 halvings and underflows to 0 after 1075.  The value of the decay
    is therefore stated for [age < 1022 * halfLife], and that it does not
    grow for [age < 2^53 * halfLife].  Statements about [ComputeBelief]
    are about the beliefs it returns.

    A [float64] argument that the source tests with [math.IsNaN] is
    modelled by [float64]: NaN or a number.  The properties of
    [Confidence.Equal] and of what [NewBelief] accepts are stated with a
    margin of one percent around the tolerance, which the rounding of the
    compared sum or difference cannot cross.

    Mutable objects behind pointers (the registry, the dead map, the
    detector) are modelled by explicit state passing: an operation takes
    the state and returns the new state with its result.  Locks are not
    modelled: each method body is one critical section. *)

From Stdlib Require Import ZArith QArith Qround Qabs Qminmax Qpower Lqa Lia List String Ascii.
From Stdlib Require Import Floats.
From Stdlib Require Import Rbase Rfunctions Rpower R_sqrt Qreals.
From Stdlib Require Lra.
From stdpp Require Import gmap.

Open Scope Q_scope.

(** ** Comparisons of the numeric model *)

(** A [float64] argument of a function that tests it with [math.IsNaN]:
    NaN or a number.  The infinities compare like numbers beyond every
    bound. *)
Inductive float64 : Type :=
| NaN
| Num (v : Q).

Definition Qltb (x y : Q) : bool := if Qlt_le_dec x y then true else false.

Notation "x <? y" := (Qltb x y) : Q_scope.
Notation "x >? y" := (Qltb y x) : Q_scope.

(** [math.Sqrt]: the square root has no exact rational model; it is
    computed from below on a grid of 2^-64 of the value's denominator, and
    exactly on squares of rationals.  Only its value at zero and its sign
    are used in the properties below. *)
Definition Qsqrt (x : Q) : Q :=
  Z.sqrt (Qnum x * Zpos (Qden x) * 2 ^ 128) # (Qden x * 2 ^ 64).

(** Unsigned 64-bit arithmetic wraps modulo 2^64. *)
Definition wrap64 (z : Z) : Z := z mod 2 ^ 64.
Definition maxUint64 : Z := 2 ^ 64 - 1.
Definition uint64 (z : Z) : Prop := (0 <= z <= maxUint64)%Z.

(** Spec side: the sum of a list of numbers. *)
Fixpoint Qsum (l : list Q) : Q :=
  match l with
  | [] => 0
  | x :: l' => x + Qsum l'
  end.

(** ** Results of fallible constructors *)

Inductive result (A E : Type) : Type :=
| Ok (a : A)
| Err (e : E).
Arguments Ok {A E} a.
Arguments Err {A E} e.

(** ** Package types *)

Module types.

(** [NodeID]: base identifier and generation counter (both uint64). *)
Record NodeID : Type := mkNodeID { Base : Z; Generation : Z }.

#[global] Instance NodeID_eq_dec : EqDecision NodeID.
Proof. solve_decision. Defined.

#[global] Instance NodeID_countable : Countable NodeID.
Proof.
  apply (inj_countable' (fun n => (Base n, Generation n))
                        (fun p => mkNodeID (fst p) (snd p))).
  intros [b g]. reflexivity.
Defined.

Definition NewNodeID (base : Z) : NodeID := mkNodeID base 0.

Inductive ConfidenceError : Type :=
| ErrConfidenceBelowMinimum
| ErrConfidenceAboveMaximum
| ErrConfidenceNaN
| ErrBeliefInvalidSum.

(** [Confidence]: a wrapped scalar; the constructor checks the bounds. *)
Record Confidence : Type := mkConfidence { value : Q }.

Definition NewConfidence (value : float64)
    : result Confidence ConfidenceError :=
  match value with
  | NaN => Err ErrConfidenceNaN
  | Num v =>
    if v <? 0.0 then Err ErrConfidenceBelowMinimum
    else if v >? 1.0 then Err ErrConfidenceAboveMaximum
    else Ok (mkConfidence v)
  end.

Definition ConfidenceZero : Confidence := mkConfidence 0.0.
Definition ConfidenceOne : Confidence := mkConfidence 1.0.
Definition Value (c : Confidence) : Q := value c.

Inductive BeliefState : Type := StateUnknown | StateAlive | StateDead.

#[global] Instance BeliefState_eq_dec : EqDecision BeliefState.
Proof. solve_decision. Defined.

Definition CertaintyThreshold : Q := 0.95.
Definition DominantMargin : Q := 0.1.
Definition BeliefSumEpsilon : Q := 1 # 1000000000.

Record Belief : Type := mkBelief {
  alive : Confidence;
  dead : Confidence;
  unknown : Confidence
}.

Definition NewBelief (a d u : Q) : result Belief ConfidenceError :=
  let sum := a + d + u in
  if Qabs (sum - 1.0) >? BeliefSumEpsilon then Err ErrBeliefInvalidSum
  else
    match NewConfidence (Num a) with
    | Err e => Err e
    | Ok aliveConf =>
      match NewConfidence (Num d) with
      | Err e => Err e
      | Ok deadConf =>
        match NewConfidence (Num u) with
        | Err e => Err e
        | Ok unknownConf => Ok (mkBelief aliveConf deadConf unknownConf)
        end
      end
    end.

Definition UnknownBelief : Belief :=
  mkBelief ConfidenceZero ConfidenceZero ConfidenceOne.

Definition Alive (b : Belief) : Confidence := alive b.
Definition Dead (b : Belief) : Confidence := dead b.
Definition Unknown (b : Belief) : Confidence := unknown b.

Definition IsCertainDead (b : Belief) : bool :=
  negb (Value (dead b) <? CertaintyThreshold).

Definition Dominant (b : Belief) : BeliefState :=
  let a := Value (alive b) in
  let d := Value (dead b) in
  let u := Value (unknown b) in
  if (a >? d + DominantMargin) && (a >? u + DominantMargin) then StateAlive
  else if (d >? a + DominantMargin) && (d >? u + DominantMargin) then StateDead
  else StateUnknown.

(** The zero value [Belief{}] of the Go struct. *)
Definition zeroBelief : Belief :=
  mkBelief (mkConfidence 0) (mkConfidence 0) (mkConfidence 0).

(** [MustBelief] panics when [NewBelief] fails.  It is only called on
    constants for which [NewBelief] succeeds; the panic branch is modelled
    by the zero value. *)
Definition MustBelief (a d u : Q) : Belief :=
  match NewBelief a d u with
  | Ok b => b
  | Err _ => zeroBelief
  end.

(** Spec side: a belief as [NewBelief] accepts it: three confidences
    whose sum is 1 within [BeliefSumEpsilon]. *)
Definition valid (b : Belief) : Prop :=
  0 <= Value (alive b) <= 1 /\ 0 <= Value (dead b) <= 1 /\
  0 <= Value (unknown b) <= 1 /\
  Qabs (Value (alive b) + Value (dead b) + Value (unknown b) - 1)
    <= BeliefSumEpsilon.

(** *** Further operations of the package *)

Definition WithGeneration (base generation : Z) : NodeID :=
  mkNodeID base generation.

Definition Rebirth (n : NodeID) : NodeID :=
  mkNodeID (Base n) (wrap64 (Generation n + 1)).

Definition IsRebirthOf (n other : NodeID) : bool :=
  (Base n =? Base other)%Z && (Generation other <? Generation n)%Z.

(** [NodeID.Equal]. *)
Definition EqualNodeID (n other : NodeID) : bool :=
  (Base n =? Base other)%Z && (Generation n =? Generation other)%Z.

Definition ConfidenceEpsilon : Q := 1 # 10000000000.

Definition ClampedConfidence (value : float64) : Confidence :=
  match value with
  | NaN => mkConfidence 0.0
  | Num v =>
    if v <? 0.0 then mkConfidence 0.0
    else if v >? 1.0 then mkConfidence 1.0
    else mkConfidence v
  end.

Definition IsZero (c : Confidence) : bool := value c <? ConfidenceEpsilon.
Definition IsOne (c : Confidence) : bool := 1.0 - value c <? ConfidenceEpsilon.

(** [Confidence.Equal] and [Confidence.Less]. *)
Definition EqualConfidence (c other : Confidence) : bool :=
  Qabs (value c - value other) <? ConfidenceEpsilon.

Definition Less (c other : Confidence) : bool :=
  if EqualConfidence c other then false else value c <? value other.

Definition CertainlyAlive : Belief :=
  mkBelief ConfidenceOne ConfidenceZero ConfidenceZero.
Definition CertainlyDead : Belief :=
  mkBelief ConfidenceZero ConfidenceOne ConfidenceZero.

Definition IsCertainAlive (b : Belief) : bool :=
  negb (Value (alive b) <? CertaintyThreshold).

Definition IsValid (b : Belief) : bool :=
  let sum := Value (alive b) + Value (dead b) + Value (unknown b) in
  Qabs (sum - 1.0) <? BeliefSumEpsilon.

(** [Belief.Equal]. *)
Definition EqualBelief (b other : Belief) : bool :=
  EqualConfidence (alive b) (alive other)
  && EqualConfidence (dead b) (dead other)
  && EqualConfidence (unknown b) (unknown other).

End types.

(** ** Package time *)

Module styxtime.

(** [LogicalTimestamp] is [uint64]. *)
Abbreviation LogicalTimestamp := Z (only parsing).

Definition AgeSince (t now : LogicalTimestamp) : Z :=
  if (now <? t)%Z then 0%Z else (now - t)%Z.

Definition Zero : Z := 0.

(** [Increment] and [Update] have a pointer receiver: they store the new
    value in the timestamp and return it; the model returns that value. *)
Definition Increment (t : LogicalTimestamp) : Z := wrap64 (t + 1).

Definition Update (t received : LogicalTimestamp) : Z :=
  let t := if (t <? received)%Z then received else t in
  Increment t.

Definition IsBefore (t other : LogicalTimestamp) : bool := (t <? other)%Z.
Definition IsAfter (t other : LogicalTimestamp) : bool := (other <? t)%Z.

End styxtime.

(** ** Package evidence *)

Module evidence.

Inductive EvidenceKind : Type :=
| KindDirectResponse
| KindTimeout
| KindWitnessReport
| KindCausalEvent
| KindSchedulingJitter
| KindNetworkInstability.

#[global] Instance EvidenceKind_eq_dec : EqDecision EvidenceKind.
Proof. solve_decision. Defined.

Record EvidenceDetails : Type := mkDetails {
  LatencyMS : Z;
  ExpectedMS : Z;
  WaitedMS : Z;
  EventID : Z;
  ObservedDelayMS : Z
}.

Record Evidence : Type := mkEvidence {
  Kind : EvidenceKind;
  Timestamp : styxtime.LogicalTimestamp;
  Weight : Q;
  Source : types.NodeID;
  Target : types.NodeID;
  Details : EvidenceDetails
}.

Definition DefaultHalfLife : Z := 100.

Record EvidenceSet : Type := mkEvidenceSet {
  evidence : list Evidence;
  halfLife : Z
}.

Definition NewEvidenceSet : EvidenceSet := mkEvidenceSet [] DefaultHalfLife.
Definition WithHalfLife (hl : Z) : EvidenceSet := mkEvidenceSet [] hl.

Definition Add (es : EvidenceSet) (e : Evidence) : EvidenceSet :=
  mkEvidenceSet (evidence es ++ [e]) (halfLife es).

Definition IsEmpty (es : EvidenceSet) : bool :=
  match evidence es with [] => true | _ => false end.

Definition NewDirectResponse (ts : styxtime.LogicalTimestamp) (latencyMS : Z)
    (source target : types.NodeID) : Evidence :=
  let weight :=
    if (100 <=? latencyMS)%Z && (latencyMS <? 1000)%Z then 0.8
    else if (1000 <=? latencyMS)%Z then 0.6
    else 1.0 in
  mkEvidence KindDirectResponse ts weight source target
    (mkDetails latencyMS 0 0 0 0).

(** Conversion [float64(n)] of an unsigned 64-bit integer: the nearest
    binary64 value, ties to even. *)
Definition float64_of_uint64 (n : Z) : float :=
  SF2Prim (binary_normalize prec emax n 0 false).

(** [float64(waitedMS) / float64(expectedMS)], an IEEE division: x/0 is
    +Inf for x > 0 and 0/0 is NaN. *)
Definition timeoutRatio (expectedMS waitedMS : Z) : float :=
  PrimFloat.div (float64_of_uint64 waitedMS) (float64_of_uint64 expectedMS).

Definition NewTimeout (ts : styxtime.LogicalTimestamp) (expectedMS waitedMS : Z)
    (source target : types.NodeID) : Evidence :=
  let ratio := timeoutRatio expectedMS waitedMS in
  let weight :=
    if PrimFloat.ltb 10.0%float ratio then 0.3
    else if PrimFloat.ltb 3.0%float ratio then 0.2
    else 0.1 in
  mkEvidence KindTimeout ts weight source target
    (mkDetails 0 expectedMS waitedMS 0 0).

Definition NewCausalEvent (ts : styxtime.LogicalTimestamp) (eventID : Z)
    (source target : types.NodeID) : Evidence :=
  mkEvidence KindCausalEvent ts 1.0 source target (mkDetails 0 0 0 eventID 0).

Definition NewSchedulingJitter (ts : styxtime.LogicalTimestamp) (delayMS : Z)
    (source target : types.NodeID) : Evidence :=
  let weight := if (1000 <? delayMS)%Z then 0.4 else 0.2 in
  mkEvidence KindSchedulingJitter ts weight source target
    (mkDetails 0 0 0 0 delayMS).

Definition SuggestsAlive (e : Evidence) : bool :=
  bool_decide (Kind e = KindDirectResponse) || bool_decide (Kind e = KindCausalEvent).

Definition SuggestsDead (e : Evidence) : bool :=
  bool_decide (Kind e = KindTimeout).

(** The loop [for exp >= 1 { result *= base; exp-- }] of [pow], run for at
    most [n] iterations; it returns the final [result] and [exp]. *)
Fixpoint pow_loop (n : nat) (base result exp : Q) : Q * Q :=
  match n with
  | O => (result, exp)
  | S n' =>
    if exp <? 1 then (result, exp)
    else pow_loop n' base (result * base) (exp - 1)
  end.

(** [pow]: the integer part of the exponent by repeated multiplication,
    the fractional part by linear interpolation.  The loop is given
    [floor exp] iterations, after which its guard is false
    ([pow_loop_exits]).  This is the source's loop for exponents below
    2^53, where the [float64] decrement [exp--] is exact; from 2^53 + 4 on
    the decrement leaves [exp] as it is and the source's loop does not
    exit, so that the value below stands for no result of the source.
    The source's product also underflows to 0 after 1075 halvings, where
    the value below is positive and smaller than 2^-1074; it is a normal
    [float64] for fewer than 1022 halvings. *)
Definition pow (base exp : Q) : Q :=
  if Qeq_dec exp 0 then 1
  else
    let '(result, exp') := pow_loop (Z.to_nat (Qfloor exp)) base 1.0 exp in
    if exp' >? 0 then result * (1 + exp' * (base - 1))
    else result.

Definition EffectiveWeight (e : Evidence) (now : styxtime.LogicalTimestamp)
    (hl : Z) : Q :=
  let age := styxtime.AgeSince (Timestamp e) now in
  let decayFactor := pow 0.5 (inject_Z age / inject_Z hl) in
  Weight e * decayFactor.

(** The accumulation loop of [ComputeBelief]: one step per record on the
    triple (aliveWeight, deadWeight, totalWeight). *)
Definition accumulate (now : styxtime.LogicalTimestamp) (hl : Z)
    (acc : Q * Q * Q) (e : Evidence) : Q * Q * Q :=
  let '(aliveWeight, deadWeight, totalWeight) := acc in
  let w := EffectiveWeight e now hl in
  let totalWeight := totalWeight + w in
  if SuggestsAlive e then (aliveWeight + w, deadWeight, totalWeight)
  else if SuggestsDead e then (aliveWeight, deadWeight + w, totalWeight)
  else (aliveWeight, deadWeight, totalWeight).

Definition ComputeBelief (es : EvidenceSet) (now : styxtime.LogicalTimestamp)
    : types.Belief :=
  if IsEmpty es then types.UnknownBelief
  else
    let '(aliveWeight, deadWeight, totalWeight) :=
      fold_left (accumulate now (halfLife es)) (evidence es) (0, 0, 0) in
    if totalWeight <? (1 # 10000000000) then types.UnknownBelief
    else
      let maxCertainty := Qmin (totalWeight / (totalWeight + 1.0)) 0.90 in
      let aliveRatio := aliveWeight / totalWeight in
      let deadRatio := deadWeight / totalWeight in
      let conflictFactor :=
        if (aliveWeight >? 0) && (deadWeight >? 0) then
          let balance := Qmin aliveWeight deadWeight / Qmax aliveWeight deadWeight in
          1.0 - balance * 0.5
        else 1.0 in
      let aliveConf := aliveRatio * maxCertainty * conflictFactor in
      let deadConf := deadRatio * maxCertainty * conflictFactor in
      let unknownConf := 1.0 - aliveConf - deadConf in
      let '(aliveConf, deadConf, unknownConf) :=
        if unknownConf <? 0.05 then
          let excess := 0.05 - unknownConf in
          (aliveConf - excess / 2, deadConf - excess / 2, 0.05)
        else (aliveConf, deadConf, unknownConf) in
      match types.NewBelief aliveConf deadConf unknownConf with
      | Ok belief => belief
      | Err _ => types.UnknownBelief
      end.

(** *** Further operations of the package *)

Definition Len (es : EvidenceSet) : Z := Z.of_nat (length (evidence es)).

Definition All (es : EvidenceSet) : list Evidence := evidence es.

(** The loop [if e.Timestamp > max { max = e.Timestamp }] from [max = 0]. *)
Definition latest (max : Z) (e : Evidence) : Z :=
  if (max <? Timestamp e)%Z then Timestamp e else max.

Definition LatestTimestamp (es : EvidenceSet) : Z :=
  fold_left latest (evidence es) 0%Z.

Definition ComputeBeliefNow (es : EvidenceSet) : types.Belief :=
  let max := fold_left latest (evidence es) 0%Z in
  ComputeBelief es max.

Definition AliveEvidence (es : EvidenceSet) : list Evidence :=
  fold_left (fun result e => if SuggestsAlive e then result ++ [e] else result)
    (evidence es) [].

Definition DeadEvidence (es : EvidenceSet) : list Evidence :=
  fold_left (fun result e => if SuggestsDead e then result ++ [e] else result)
    (evidence es) [].

(** Spec side: the records are all of kind Timeout or SchedulingJitter. *)
Definition silence_only (es : EvidenceSet) : Prop :=
  Forall (fun e => Kind e = KindTimeout \/ Kind e = KindSchedulingJitter)
    (evidence es).

(** Spec side: totalW, the total that the loop of [ComputeBelief]
    accumulates: the sum of the effective weights of the records. *)
Definition totalWeight (es : EvidenceSet) (now : styxtime.LogicalTimestamp)
    : Q :=
  snd (fold_left (accumulate now (halfLife es)) (evidence es) (0, 0, 0)).

(** Spec side: the effective weight as the specification states it,
    [Weight * 0.5^(age/halfLife)], with the power taken over the reals. *)
Definition realDecay (e : Evidence) (now : styxtime.LogicalTimestamp)
    (hl : Z) : R :=
  (Q2R (Weight e)
   * Rpower (1 / 2) (IZR (styxtime.AgeSince (Timestamp e) now) / IZR hl))%R.

End evidence.

(** ** Package state *)

Module state.

Record BeliefReasoning : Type := mkBeliefReasoning {
  ReasoningBelief : types.Belief;
  EvidenceCount : Z;
  AliveEvidenceCount : Z;
  DeadEvidenceCount : Z;
  LatestEvidence : Z
}.

(** [LocalBelief]: what one observer believes about one target; it owns
    its evidence set. *)
Record LocalBelief : Type := mkLocalBelief {
  target : types.NodeID;
  belief : types.Belief;
  evidenceSet : evidence.EvidenceSet;
  lastUpdated : Z
}.

Definition NewLocalBelief (target : types.NodeID) : LocalBelief :=
  mkLocalBelief target types.UnknownBelief evidence.NewEvidenceSet
    styxtime.Zero.

(** [RecordEvidence] returns the local belief after the call and the
    belief it returns. *)
Definition RecordEvidence (lb : LocalBelief) (e : evidence.Evidence)
    : LocalBelief * types.Belief :=
  let lastUpdated :=
    if (lastUpdated lb <? evidence.Timestamp e)%Z then evidence.Timestamp e
    else lastUpdated lb in
  let es := evidence.Add (evidenceSet lb) e in
  let belief := evidence.ComputeBelief es lastUpdated in
  (mkLocalBelief (target lb) belief es lastUpdated, belief).

Definition RecomputeAt (lb : LocalBelief) (now : Z) : LocalBelief :=
  mkLocalBelief (target lb) (evidence.ComputeBelief (evidenceSet lb) now)
    (evidenceSet lb) now.

Definition Reasoning (lb : LocalBelief) : BeliefReasoning :=
  mkBeliefReasoning (belief lb) (evidence.Len (evidenceSet lb))
    (Z.of_nat (length (evidence.AliveEvidence (evidenceSet lb))))
    (Z.of_nat (length (evidence.DeadEvidence (evidenceSet lb))))
    (evidence.LatestTimestamp (evidenceSet lb)).

Record BeliefQuery : Type := mkBeliefQuery {
  QueryTarget : types.NodeID;
  QueryBelief : types.Belief;
  QueryReasoning : BeliefReasoning;
  Observer : types.NodeID;
  QueryTime : Z
}.

(** [ObserverState]: the local beliefs by target,
    [map[types.NodeID]*LocalBelief], and the logical clock. *)
Record ObserverState : Type := mkObserverState {
  selfID : types.NodeID;
  beliefs : gmap types.NodeID LocalBelief;
  logicalClock : Z
}.

Definition NewObserverState (selfID : types.NodeID) : ObserverState :=
  mkObserverState selfID ∅ styxtime.Zero.

Definition Tick (os : ObserverState) : ObserverState * Z :=
  let t := styxtime.Increment (logicalClock os) in
  (mkObserverState (selfID os) (beliefs os) t, t).

Definition Receive (os : ObserverState) (receivedTS : Z) : ObserverState * Z :=
  let t := styxtime.Update (logicalClock os) receivedTS in
  (mkObserverState (selfID os) (beliefs os) t, t).

Definition ObserverRecordEvidence (os : ObserverState) (target : types.NodeID)
    (e : evidence.Evidence) : ObserverState * types.Belief :=
  let lb :=
    match beliefs os !! target with
    | Some lb => lb
    | None => NewLocalBelief target
    end in
  let '(lb, b) := RecordEvidence lb e in
  (mkObserverState (selfID os) (<[target := lb]> (beliefs os))
     (logicalClock os), b).

Definition Query (os : ObserverState) (target : types.NodeID)
    : option BeliefQuery :=
  match beliefs os !! target with
  | None => None
  | Some lb =>
    Some (mkBeliefQuery target (belief lb) (Reasoning lb) (selfID os)
            (logicalClock os))
  end.

Definition QueryOrUnknown (os : ObserverState) (target : types.NodeID)
    : BeliefQuery :=
  match Query os target with
  | Some q => q
  | None =>
    mkBeliefQuery target types.UnknownBelief
      (mkBeliefReasoning types.UnknownBelief 0 0 0 0) (selfID os)
      (logicalClock os)
  end.

(** The loops over the belief map.  Go leaves the iteration order of a map
    unspecified; the model lists the entries in the order of
    [map_to_list]. *)
Definition KnownNodes (os : ObserverState) : list types.NodeID :=
  fold_left (fun nodes entry => nodes ++ [entry.1])
    (map_to_list (beliefs os)) [].

Definition nodesWith (s : types.BeliefState) (os : ObserverState)
    : list types.NodeID :=
  fold_left (fun nodes (entry : types.NodeID * LocalBelief) =>
               if decide (types.Dominant (belief entry.2) = s)
               then nodes ++ [entry.1] else nodes)
    (map_to_list (beliefs os)) [].

Definition AliveNodes (os : ObserverState) : list types.NodeID :=
  nodesWith types.StateAlive os.
Definition DeadNodes (os : ObserverState) : list types.NodeID :=
  nodesWith types.StateDead os.
Definition UnknownNodes (os : ObserverState) : list types.NodeID :=
  nodesWith types.StateUnknown os.

Definition RecomputeBeliefs (os : ObserverState) : ObserverState :=
  mkObserverState (selfID os)
    ((fun lb => RecomputeAt lb (logicalClock os)) <$> beliefs os)
    (logicalClock os).

(** A local belief after recording a list of evidence in turn. *)
Definition recordAll (lb : LocalBelief) (es : list evidence.Evidence)
    : LocalBelief :=
  fold_left (fun lb e => (RecordEvidence lb e).1) es lb.

End state.

(** ** Package witness *)

Module witness.

(** [TrustScore] is a [float64]. *)
Definition MaxTrust : Q := 1.0.
Definition MinTrust : Q := 0.1.
Definition DefaultTrust : Q := 0.8.
Definition DecayRate : Q := 0.1.
Definition RecoveryRate : Q := 0.05.

Record WitnessRecord : Type := mkWitnessRecord {
  ID : types.NodeID;
  Trust : Q;
  CorrectReports : Z;
  WrongReports : Z;
  LastReport : types.Belief
}.

(** The registry: [map[types.NodeID]*WitnessRecord].  A record is only
    reached through the map; updating it in place is an update of the map
    at its key. *)
Abbreviation Registry := (gmap types.NodeID WitnessRecord).

Definition NewRegistry : Registry := ∅.

Definition newRecord (id : types.NodeID) : WitnessRecord :=
  mkWitnessRecord id DefaultTrust 0 0 types.zeroBelief.

Definition Register (r : Registry) (id : types.NodeID) : Registry :=
  match r !! id with
  | Some _ => r
  | None => <[id := newRecord id]> r
  end.

Definition GetTrust (r : Registry) (id : types.NodeID) : Q :=
  match r !! id with
  | Some w => Trust w
  | None => DefaultTrust
  end.

Definition getOrCreate (r : Registry) (id : types.NodeID)
    : Registry * WitnessRecord :=
  match r !! id with
  | Some w => (r, w)
  | None => let w := newRecord id in (<[id := w]> r, w)
  end.

Definition setTrust (w : WitnessRecord) (t : Q) : WitnessRecord :=
  mkWitnessRecord (ID w) t (CorrectReports w) (WrongReports w) (LastReport w).

Definition RecordCorrect (r : Registry) (id : types.NodeID) : Registry :=
  let '(r, w) := getOrCreate r id in
  let w := mkWitnessRecord (ID w) (Trust w) (CorrectReports w + 1)
                           (WrongReports w) (LastReport w) in
  let w := setTrust w (Trust w + RecoveryRate) in
  let w := if Trust w >? MaxTrust then setTrust w MaxTrust else w in
  <[id := w]> r.

Definition RecordWrong (r : Registry) (id : types.NodeID) : Registry :=
  let '(r, w) := getOrCreate r id in
  let w := mkWitnessRecord (ID w) (Trust w) (CorrectReports w)
                           (WrongReports w + 1) (LastReport w) in
  let w := setTrust w (Trust w - DecayRate) in
  let w := if Trust w <? MinTrust then setTrust w MinTrust else w in
  <[id := w]> r.

Definition RecordReport (r : Registry) (id : types.NodeID)
    (belief : types.Belief) : Registry :=
  let '(r, w) := getOrCreate r id in
  <[id := mkWitnessRecord (ID w) (Trust w) (CorrectReports w)
                          (WrongReports w) belief]> r.

Definition GetRecord (r : Registry) (id : types.NodeID) : option WitnessRecord :=
  r !! id.

Definition AllWitnesses (r : Registry) : list types.NodeID :=
  (map_to_list r).*1.

(** The mutating and reading operations of the registry, as a trace
    alphabet. *)
Inductive RegistryOp : Type :=
| OpRegister (id : types.NodeID)
| OpRecordCorrect (id : types.NodeID)
| OpRecordWrong (id : types.NodeID)
| OpRecordReport (id : types.NodeID) (belief : types.Belief)
| OpGetTrust (id : types.NodeID)
| OpGetRecord (id : types.NodeID)
| OpAllWitnesses.

Definition applyOp (r : Registry) (op : RegistryOp) : Registry :=
  match op with
  | OpRegister id => Register r id
  | OpRecordCorrect id => RecordCorrect r id
  | OpRecordWrong id => RecordWrong r id
  | OpRecordReport id belief => RecordReport r id belief
  | OpGetTrust _ | OpGetRecord _ | OpAllWitnesses => r
  end.

Definition run (ops : list RegistryOp) (r : Registry) : Registry :=
  fold_left applyOp ops r.

(** Spec side: the witness an operation writes to, if any. *)
Definition opTarget (op : RegistryOp) : option types.NodeID :=
  match op with
  | OpRegister id | OpRecordCorrect id | OpRecordWrong id
  | OpRecordReport id _ => Some id
  | OpGetTrust _ | OpGetRecord _ | OpAllWitnesses => None
  end.

(** Spec side: every stored record has its trust within
    [MinTrust, MaxTrust]. *)
Definition trust_bounded (r : Registry) : Prop :=
  forall id w, r !! id = Some w -> MinTrust <= Trust w <= MaxTrust.

(** [WitnessReport]; its optional trust-at-time-of-report field is named
    [ReportTrust] here ([Trust] is the registry record's field). *)
Record WitnessReport : Type := mkWitnessReport {
  Witness : types.NodeID;
  Target : types.NodeID;
  Belief : types.Belief;
  ReportTrust : Q
}.

(** [AggregateResult]; its belief field is named [ResultBelief] here. *)
Record AggregateResult : Type := mkAggregateResult {
  ResultBelief : types.Belief;
  Disagreement : Q;
  WitnessCount : Z;
  Reports : list WitnessReport
}.

Definition len {A : Type} (l : list A) : Z := Z.of_nat (length l).

(** The loop of [Aggregate] on (totalWeight, aliveSum, deadSum,
    unknownSum); the aggregator reads trust from its registry. *)
Definition weigh (reg : Registry) (acc : Q * Q * Q * Q) (r : WitnessReport)
    : Q * Q * Q * Q :=
  let '(totalWeight, aliveSum, deadSum, unknownSum) := acc in
  let trust := GetTrust reg (Witness r) in
  (totalWeight + trust,
   aliveSum + types.Value (types.Alive (Belief r)) * trust,
   deadSum + types.Value (types.Dead (Belief r)) * trust,
   unknownSum + types.Value (types.Unknown (Belief r)) * trust).

Definition calculateDisagreement (reports : list WitnessReport)
    (avgAlive avgDead : Q) : Q :=
  if (len reports <? 2)%Z then 0
  else
    let variance :=
      fold_left (fun variance r =>
        let diffAlive := types.Value (types.Alive (Belief r)) - avgAlive in
        let diffDead := types.Value (types.Dead (Belief r)) - avgDead in
        variance + (diffAlive * diffAlive + diffDead * diffDead))
        reports 0 in
    let variance := variance / inject_Z (len reports) in
    Qmin (Qsqrt variance) 1.0.

Definition detectCorrelation (reports : list WitnessReport) : Q :=
  match reports with
  | [] | [_] => 0
  | r0 :: rest =>
    let first := Belief r0 in
    let totalDiff :=
      fold_left (fun totalDiff r =>
        let b := Belief r in
        let diffAlive :=
          Qabs (types.Value (types.Alive first) - types.Value (types.Alive b)) in
        let diffDead :=
          Qabs (types.Value (types.Dead first) - types.Value (types.Dead b)) in
        totalDiff + (diffAlive + diffDead))
        rest 0 in
    let avgDiff := totalDiff / inject_Z (len reports - 1) in
    1.0 - Qmin (avgDiff * 2) 1.0
  end.

Definition Aggregate (reg : Registry) (reports : list WitnessReport)
    : AggregateResult :=
  match reports with
  | [] => mkAggregateResult types.UnknownBelief 0 0 []
  | [r] => mkAggregateResult (Belief r) 0 1 reports
  | _ =>
    let '(totalWeight, aliveSum, deadSum, unknownSum) :=
      fold_left (weigh reg) reports (0, 0, 0, 0) in
    if totalWeight <? 0.001 then
      mkAggregateResult types.UnknownBelief 0 (len reports) reports
    else
      let avgAlive := aliveSum / totalWeight in
      let avgDead := deadSum / totalWeight in
      let avgUnknown := unknownSum / totalWeight in
      let disagreement := calculateDisagreement reports avgAlive avgDead in
      let correlation := detectCorrelation reports in
      let '(avgAlive, avgDead, avgUnknown) :=
        if correlation >? 0.9 then
          let factor := 0.7 in
          let avgAlive := avgAlive * factor in
          let avgDead := avgDead * factor in
          (avgAlive, avgDead, 1.0 - avgAlive - avgDead)
        else (avgAlive, avgDead, avgUnknown) in
      let '(avgAlive, avgDead, avgUnknown) :=
        if disagreement >? 0.3 then
          let reduction := disagreement * 0.5 in
          let avgAlive := avgAlive * (1 - reduction) in
          let avgDead := avgDead * (1 - reduction) in
          (avgAlive, avgDead, 1.0 - avgAlive - avgDead)
        else (avgAlive, avgDead, avgUnknown) in
      let '(avgAlive, avgDead, avgUnknown) :=
        if avgUnknown <? 0.05 then
          let avgUnknown := 0.05 in
          let excess := 0.05 - (1.0 - avgAlive - avgDead) in
          (avgAlive - excess / 2, avgDead - excess / 2, avgUnknown)
        else (avgAlive, avgDead, avgUnknown) in
      let belief :=
        match types.NewBelief avgAlive avgDead avgUnknown with
        | Ok belief => belief
        | Err _ => types.UnknownBelief
        end in
      mkAggregateResult belief disagreement (len reports) reports
  end.

(** Spec side: the trust and the masses of a report. *)
Definition trustOf (reg : Registry) (r : WitnessReport) : Q :=
  GetTrust reg (Witness r).
Definition aliveOf (r : WitnessReport) : Q := types.Value (types.Alive (Belief r)).
Definition deadOf (r : WitnessReport) : Q := types.Value (types.Dead (Belief r)).
Definition unknownOf (r : WitnessReport) : Q :=
  types.Value (types.Unknown (Belief r)).

(** Spec side: the trust-weighted average of one mass of the reports,
    [sum (trust_i * x_i) / sum trust_i]. *)
Definition weightedAverage (reg : Registry) (mass : WitnessReport -> Q)
    (reports : list WitnessReport) : Q :=
  Qsum (map (fun r => trustOf reg r * mass r) reports)
  / Qsum (map (trustOf reg) reports).

(** Spec side: the mean, over the reports after the first, of the
    absolute differences of alive and dead mass from the first report. *)
Definition meanAbsDiffFromFirst (reports : list WitnessReport) : Q :=
  match reports with
  | [] => 0
  | r0 :: rest =>
    Qsum (map (fun r =>
            Qabs (types.Value (types.Alive (Belief r0))
                  - types.Value (types.Alive (Belief r)))
            + Qabs (types.Value (types.Dead (Belief r0))
                    - types.Value (types.Dead (Belief r)))) rest)
    / inject_Z (Z.of_nat (length rest))
  end.

End witness.

(** ** Package partition *)

Module partition.

Inductive PartitionState : Type :=
| NoPartition
| SuspectedPartition
| ConfirmedPartition.

Record WitnessGroup : Type := mkWitnessGroup {
  Witnesses : list types.NodeID;
  Beliefs : gmap types.NodeID types.Belief
}.

Record SplitReality : Type := mkSplitReality {
  Groups : list WitnessGroup;
  Disagreement : Q;
  Ambiguous : list types.NodeID
}.

Record Detector : Type := mkDetector {
  state : PartitionState;
  lastSplit : option SplitReality;
  disagreementThreshold : Q
}.

Definition NewDetector : Detector := mkDetector NoPartition None 0.4.

Definition min (a b : Z) : Z := if (a <? b)%Z then a else b.

(** The vote-counting loop on (aliveVotes, deadVotes, unknownVotes). *)
Definition vote (acc : Z * Z * Z) (r : witness.WitnessReport) : Z * Z * Z :=
  let '(aliveVotes, deadVotes, unknownVotes) := acc in
  match types.Dominant (witness.Belief r) with
  | types.StateAlive => (aliveVotes + 1, deadVotes, unknownVotes)%Z
  | types.StateDead => (aliveVotes, deadVotes + 1, unknownVotes)%Z
  | types.StateUnknown => (aliveVotes, deadVotes, unknownVotes + 1)%Z
  end.

(** The group-building loop on (aliveGroup, deadGroup). *)
Definition assign (target : types.NodeID) (acc : WitnessGroup * WitnessGroup)
    (r : witness.WitnessReport) : WitnessGroup * WitnessGroup :=
  let '(aliveGroup, deadGroup) := acc in
  match types.Dominant (witness.Belief r) with
  | types.StateAlive =>
    (mkWitnessGroup (Witnesses aliveGroup ++ [witness.Witness r])
                    (<[target := witness.Belief r]> (Beliefs aliveGroup)),
     deadGroup)
  | types.StateDead =>
    (aliveGroup,
     mkWitnessGroup (Witnesses deadGroup ++ [witness.Witness r])
                    (<[target := witness.Belief r]> (Beliefs deadGroup)))
  | types.StateUnknown => (aliveGroup, deadGroup)
  end.

(** [Analyze] returns the detector after the call with its two results. *)
Definition Analyze (d : Detector) (reports : list witness.WitnessReport)
    (target : types.NodeID)
    : Detector * (PartitionState * option SplitReality) :=
  if (witness.len reports <? 2)%Z then
    (mkDetector NoPartition (lastSplit d) (disagreementThreshold d),
     (NoPartition, None))
  else
    let '(aliveVotes, deadVotes, unknownVotes) :=
      fold_left vote reports (0, 0, 0)%Z in
    let total := witness.len reports in
    if (0 <? aliveVotes)%Z && (0 <? deadVotes)%Z then
      let disagreement := inject_Z (min aliveVotes deadVotes) / inject_Z total in
      if disagreement >? disagreementThreshold d then
        let '(aliveGroup, deadGroup) :=
          fold_left (assign target) reports
            (mkWitnessGroup [] ∅, mkWitnessGroup [] ∅) in
        let split :=
          mkSplitReality [aliveGroup; deadGroup] disagreement [target] in
        (mkDetector ConfirmedPartition (Some split) (disagreementThreshold d),
         (ConfirmedPartition, Some split))
      else
        (mkDetector SuspectedPartition (lastSplit d) (disagreementThreshold d),
         (SuspectedPartition, None))
    else if inject_Z unknownVotes / inject_Z total >? 0.5 then
      (mkDetector SuspectedPartition (lastSplit d) (disagreementThreshold d),
       (SuspectedPartition, None))
    else
      (mkDetector NoPartition (lastSplit d) (disagreementThreshold d),
       (NoPartition, None)).

Definition GetState (d : Detector) : PartitionState := state d.
Definition GetLastSplit (d : Detector) : option SplitReality := lastSplit d.

Definition ShouldRefuseAnswer (d : Detector) : bool :=
  match state d with ConfirmedPartition => true | _ => false end.

(** Spec side: the number of reports whose dominant state is [s]. *)
Definition votes (s : types.BeliefState) (reports : list witness.WitnessReport)
    : Z :=
  witness.len
    (filter (fun r => types.Dominant (witness.Belief r) = s) reports).

(** Spec side: the classification of section 4.5, on the vote counts. *)
Definition classify (reports : list witness.WitnessReport) : PartitionState :=
  let aliveVotes := votes types.StateAlive reports in
  let deadVotes := votes types.StateDead reports in
  let unknownVotes := votes types.StateUnknown reports in
  let total := witness.len reports in
  if (total <? 2)%Z then NoPartition
  else if (0 <? aliveVotes)%Z && (0 <? deadVotes)%Z then
    if inject_Z (Z.min aliveVotes deadVotes) / inject_Z total >? 0.4
    then ConfirmedPartition else SuspectedPartition
  else if inject_Z unknownVotes / inject_Z total >? 0.5 then SuspectedPartition
  else NoPartition.

End partition.

(** ** Package finality *)

Module finality.

Inductive error : Type :=
| ErrAlreadyDead
| ErrInsufficientEvidence
| ErrSilenceOnly
| ErrResurrection.

Definition MinDeadConfidence : Q := 0.85.
Definition MinWitnesses : Z := 3.
Definition MaxDisagreement : Q := 0.2.

Record DeathRecord : Type := mkDeathRecord {
  NodeID : types.NodeID;
  FinalBelief : types.Belief;
  Witnesses : list types.NodeID;
  Reason : string
}.

(** The engine: its dead map [map[types.NodeID]*DeathRecord].  The
    registry pointer it also holds is never dereferenced by its methods
    and is left out. *)
Record Engine : Type := mkEngine {
  dead : gmap types.NodeID DeathRecord
}.

Definition NewEngine : Engine := mkEngine ∅.

Definition IsDead (e : Engine) (id : types.NodeID) : bool :=
  match dead e !! id with Some _ => true | None => false end.

Definition GetDeathRecord (e : Engine) (id : types.NodeID)
    : option DeathRecord :=
  dead e !! id.

Definition calculateDisagreement (reports : list witness.WitnessReport) : Q :=
  if (witness.len reports <? 2)%Z then 0
  else
    let sumDead :=
      fold_left (fun sumDead r =>
        sumDead + types.Value (types.Dead (witness.Belief r))) reports 0 in
    let avgDead := sumDead / inject_Z (witness.len reports) in
    let variance :=
      fold_left (fun variance r =>
        let diff := types.Value (types.Dead (witness.Belief r)) - avgDead in
        variance + diff * diff) reports 0 in
    variance / inject_Z (witness.len reports).

(** [DeclareDeath] returns the engine after the call and the error
    ([None] is Go's [nil]). *)
Definition DeclareDeath (e : Engine) (nodeID : types.NodeID)
    (aggregatedBelief : types.Belief)
    (witnessReports : list witness.WitnessReport)
    (hasNonTimeoutEvidence : bool) : Engine * option error :=
  match dead e !! nodeID with
  | Some _ => (e, Some ErrAlreadyDead)
  | None =>
    if types.Value (types.Dead aggregatedBelief) <? MinDeadConfidence then
      (e, Some ErrInsufficientEvidence)
    else if (witness.len witnessReports <? MinWitnesses)%Z then
      (e, Some ErrInsufficientEvidence)
    else if negb hasNonTimeoutEvidence then
      (e, Some ErrSilenceOnly)
    else
      let disagreement := calculateDisagreement witnessReports in
      if disagreement >? MaxDisagreement then
        (e, Some ErrInsufficientEvidence)
      else
        let witnesses := map witness.Witness witnessReports in
        (mkEngine
           (<[nodeID := mkDeathRecord nodeID aggregatedBelief witnesses
                "overwhelming evidence from multiple witnesses"]> (dead e)),
         None)
  end.

Definition AttemptResurrection (e : Engine) (id : types.NodeID)
    : option error :=
  match dead e !! id with
  | Some _ => Some ErrResurrection
  | None => None
  end.

Definition AllDead (e : Engine) : list types.NodeID :=
  (map_to_list (dead e)).*1.

(** Every method of the engine, as a trace alphabet. *)
Inductive EngineOp : Type :=
| OpIsDead (id : types.NodeID)
| OpGetDeathRecord (id : types.NodeID)
| OpDeclareDeath (nodeID : types.NodeID) (aggregatedBelief : types.Belief)
    (witnessReports : list witness.WitnessReport)
    (hasNonTimeoutEvidence : bool)
| OpAttemptResurrection (id : types.NodeID)
| OpAllDead.

(** The engine after one method call. *)
Definition applyOp (e : Engine) (op : EngineOp) : Engine :=
  match op with
  | OpDeclareDeath nodeID belief reports flag =>
    fst (DeclareDeath e nodeID belief reports flag)
  | OpIsDead _ | OpGetDeathRecord _ | OpAttemptResurrection _ | OpAllDead => e
  end.

Definition run (ops : list EngineOp) (e : Engine) : Engine :=
  fold_left applyOp ops e.

(** Spec side: a death record filed under [k] that carries what a
    declaration requires. *)
Definition justified (k : types.NodeID) (r : DeathRecord) : Prop :=
  NodeID r = k /\
  MinDeadConfidence <= types.Value (types.Dead (FinalBelief r)) /\
  (MinWitnesses <= witness.len (Witnesses r))%Z /\
  Reason r = "overwhelming evidence from multiple witnesses"%string.

(** Spec side: the variance of the reports' dead masses. *)
Definition deadMasses (reports : list witness.WitnessReport) : list Q :=
  map (fun r => types.Value (types.Dead (witness.Belief r))) reports.

Definition variance (l : list Q) : Q :=
  let n := inject_Z (Z.of_nat (length l)) in
  let mean := Qsum l / n in
  Qsum (map (fun x => (x - mean) * (x - mean)) l) / n.

End finality.

(** ** Package oracle *)

Module oracle.

Record QueryResult : Type := mkQueryResult {
  Target : types.NodeID;
  Belief : types.Belief;
  Refused : bool;
  RefusalReason : string;
  Dead : bool;
  WitnessCount : Z;
  Disagreement : Q;
  PartitionState : partition.PartitionState;
  Evidence : list string
}.

Record RequiredConfidence : Type := mkRequiredConfidence {
  MinAlive : Q;
  MinDead : Q;
  MaxUnknown : Q
}.

Definition DefaultRequirement : RequiredConfidence :=
  mkRequiredConfidence 0.0 0.0 1.0.

Definition StrictRequirement : RequiredConfidence :=
  mkRequiredConfidence 0.7 0.7 0.3.

(** The oracle owns one registry, which its aggregator reads, the
    finality engine, the partition detector and the per-target report
    lists. *)
Record Oracle : Type := mkOracle {
  selfID : types.NodeID;
  registry : witness.Registry;
  finalityEngine : finality.Engine;
  detector : partition.Detector;
  reports : gmap types.NodeID (list witness.WitnessReport)
}.

Definition New (selfID : types.NodeID) : Oracle :=
  mkOracle selfID witness.NewRegistry finality.NewEngine
    partition.NewDetector ∅.

Definition RegisterWitness (o : Oracle) (id : types.NodeID) : Oracle :=
  mkOracle (selfID o) (witness.Register (registry o) id) (finalityEngine o)
    (detector o) (reports o).

Definition ReceiveReport (o : Oracle) (witnessID target : types.NodeID)
    (belief : types.Belief) : Oracle :=
  let reg := witness.Register (registry o) witnessID in
  let report := witness.mkWitnessReport witnessID target belief 0 in
  let old := default [] (reports o !! target) in
  mkOracle (selfID o) reg (finalityEngine o) (detector o)
    (<[target := (old ++ [report])%list]> (reports o)).

(** The digit loop of [itoa], run for at most [fuel] iterations. *)
Fixpoint itoa_loop (fuel : nat) (n : Z) (result : string) : string :=
  match fuel with
  | O => result
  | S fuel' =>
    if (0 <? n)%Z then
      itoa_loop fuel' (n / 10)%Z
        (String (ascii_of_nat (48 + Z.to_nat (n mod 10))) result)
    else result
  end.

Definition itoa (n : Z) : string :=
  if (n =? 0)%Z then "0"%string else itoa_loop (Z.to_nat n) n ""%string.

(** [QueryWithRequirement] returns the oracle after the call (the
    detector records its last classification) and the result. *)
Definition QueryWithRequirement (o : Oracle) (target : types.NodeID)
    (req : RequiredConfidence) : Oracle * QueryResult :=
  if finality.IsDead (finalityEngine o) target then
    (o, mkQueryResult target (types.MustBelief 0 1 0) false ""%string true 0 0
          partition.NoPartition ["finality: node declared dead"%string])
  else
    let reports := default [] (reports o !! target) in
    let count := witness.len reports in
    if (count =? 0)%Z then
      (o, mkQueryResult target types.UnknownBelief false ""%string false count 0
            partition.NoPartition ["no witness reports available"%string])
    else
      let '(d, (pState, split)) :=
        partition.Analyze (detector o) reports target in
      let o := mkOracle (selfID o) (registry o) (finalityEngine o) d
                 (oracle.reports o) in
      match pState with
      | partition.ConfirmedPartition =>
        let disagreement :=
          match split with
          | Some sp => partition.Disagreement sp
          | None => 0
          end in
        (o, mkQueryResult target types.UnknownBelief true
              "network partition detected - witnesses disagree"%string false count
              disagreement pState ["partition: witnesses split into groups"%string])
      | _ =>
        let aggResult := witness.Aggregate (registry o) reports in
        let belief := witness.ResultBelief aggResult in
        let disagreement := witness.Disagreement aggResult in
        let alive := types.Value (types.Alive belief) in
        let dead := types.Value (types.Dead belief) in
        let refuseConfidence :=
          (o, mkQueryResult target belief true
                "insufficient confidence to meet requirements"%string false count
                disagreement pState ["confidence below threshold"%string]) in
        let continue :=
          if types.Value (types.Unknown belief) >? MaxUnknown req then
            (o, mkQueryResult target belief true "uncertainty too high"%string false
                  count disagreement pState ["unknown exceeds threshold"%string])
          else
            let evidence :=
              [("aggregated " ++ itoa count ++ " witness reports")%string] in
            let evidence :=
              if disagreement >? 0.1
              then (evidence ++ ["some witness disagreement detected"%string])%list
              else evidence in
            (o, mkQueryResult target belief false ""%string false count
                  disagreement pState evidence) in
        if (alive >? 0) && (alive <? MinAlive req) then
          if (dead >? 0) && (dead <? MinDead req) then refuseConfidence
          else continue
        else continue
      end.

Definition Query (o : Oracle) (target : types.NodeID) : Oracle * QueryResult :=
  QueryWithRequirement o target DefaultRequirement.

Inductive error : Type :=
| ErrRefused
| ErrDead.

(** [MustQuery] panics with [ErrRefused] or [ErrDead]; the panic is
    modelled by [Err]. *)
Definition MustQuery (o : Oracle) (target : types.NodeID)
    : Oracle * result types.Belief error :=
  let '(o, res) := Query o target in
  if Refused res then (o, Err ErrRefused)
  else if Dead res then (o, Err ErrDead)
  else (o, Ok (Belief res)).

(** Every exported method of the oracle, as a trace alphabet. *)
Inductive OracleOp : Type :=
| OpRegisterWitness (id : types.NodeID)
| OpReceiveReport (witnessID target : types.NodeID) (belief : types.Belief)
| OpQuery (target : types.NodeID)
| OpQueryWithRequirement (target : types.NodeID) (req : RequiredConfidence)
| OpMustQuery (target : types.NodeID).

(** The oracle after one method call. *)
Definition applyOp (o : Oracle) (op : OracleOp) : Oracle :=
  match op with
  | OpRegisterWitness id => RegisterWitness o id
  | OpReceiveReport witnessID target belief =>
    ReceiveReport o witnessID target belief
  | OpQuery target => fst (Query o target)
  | OpQueryWithRequirement target req => fst (QueryWithRequirement o target req)
  | OpMustQuery target => fst (MustQuery o target)
  end.

Definition run (ops : list OracleOp) (o : Oracle) : Oracle :=
  fold_left applyOp ops o.

(** Spec side: the reports about [target] that a trace hands to the
    oracle, in the order of the calls. *)
Definition received (target : types.NodeID) (ops : list OracleOp)
    : list witness.WitnessReport :=
  omap (fun op =>
          match op with
          | OpReceiveReport witnessID t belief =>
            if decide (t = target)
            then Some (witness.mkWitnessReport witnessID t belief 0)
            else None
          | _ => None
          end) ops.

(** Spec side: the reports the oracle holds about [target]. *)
Definition reportsAbout (o : Oracle) (target : types.NodeID)
    : list witness.WitnessReport :=
  default [] (reports o !! target).

(** Spec side: the value of a string of decimal digits, read from the
    left with [v] as the value read so far. *)
Fixpoint decimal (s : string) (v : Z) : Z :=
  match s with
  | EmptyString => v
  | String c s' => decimal s' (v * 10 + (Z.of_nat (nat_of_ascii c) - 48))%Z
  end.

(** Spec side: every character is one of '0' .. '9'. *)
Fixpoint allDigits (s : string) : bool :=
  match s with
  | EmptyString => true
  | String c s' =>
    (48 <=? nat_of_ascii c)%nat && (nat_of_ascii c <=? 57)%nat && allDigits s'
  end.

End oracle.

(** ** Package observer *)

Module observer.

(** [time.Duration] is a signed 64-bit count of nanoseconds; its
    arithmetic wraps modulo 2^64. *)
Definition wrapInt64 (z : Z) : Z := ((z + 2 ^ 63) mod 2 ^ 64 - 2 ^ 63)%Z.

(** [JitterTracker]: the window of jitter ratios, oldest first. *)
Record JitterTracker : Type := mkJitterTracker {
  samples : list Q;
  windowSize : Z
}.

Definition NewJitterTracker (windowSize : Z) : JitterTracker :=
  let windowSize := if (windowSize <? 1)%Z then 100%Z else windowSize in
  mkJitterTracker [] windowSize.

(** [RecordSample]; [None] is the run-time panic of the slice expression
    [jt.samples[1:]] on an empty slice. *)
Definition RecordSample (jt : JitterTracker) (expected actual : Z)
    : option JitterTracker :=
  if (expected <=? 0)%Z then Some jt
  else
    let ratio :=
      inject_Z (wrapInt64 (actual - expected)) / inject_Z expected in
    let ratio := if ratio <? 0 then 0 else ratio in
    if (windowSize jt <=? witness.len (samples jt))%Z then
      match samples jt with
      | [] => None
      | _ :: rest => Some (mkJitterTracker (rest ++ [ratio]) (windowSize jt))
      end
    else Some (mkJitterTracker (samples jt ++ [ratio]) (windowSize jt)).

(** The loop of [GetJitterFactor] on (sum, maxJitter). *)
Definition scan (acc : Q * Q) (s : Q) : Q * Q :=
  let '(sum, maxJitter) := acc in
  (sum + s, if s >? maxJitter then s else maxJitter).

Definition GetJitterFactor (jt : JitterTracker) : Q :=
  if (witness.len (samples jt) =? 0)%Z then 1.0
  else
    let '(sum, maxJitter) := fold_left scan (samples jt) (0, 0) in
    let mean := sum / inject_Z (witness.len (samples jt)) in
    if maxJitter >? 2.0 then 0.1
    else if mean >? 0.5 then 0.2
    else if mean >? 0.2 then 0.5
    else 1.0 - (mean * 2.5).

Definition IsJittery (jt : JitterTracker) : bool :=
  GetJitterFactor jt <? 0.8.

Definition NewJitterAwareTimeout (ts : styxtime.LogicalTimestamp)
    (expectedMS waitedMS : Z) (jitterFactor : Q)
    (source target : types.NodeID) : evidence.Evidence :=
  let ev := evidence.NewTimeout ts expectedMS waitedMS source target in
  let weight := evidence.Weight ev * jitterFactor in
  let weight := if weight >? 0.3 then 0.3 else weight in
  evidence.mkEvidence (evidence.Kind ev) (evidence.Timestamp ev) weight
    (evidence.Source ev) (evidence.Target ev) (evidence.Details ev).

(** [ResponseEntropy]: the window of response latencies, oldest first. *)
Record ResponseEntropy : Type := mkResponseEntropy {
  latencies : list Z;
  entropyWindowSize : Z
}.

Definition NewResponseEntropy (windowSize : Z) : ResponseEntropy :=
  let windowSize := if (windowSize <? 1)%Z then 100%Z else windowSize in
  mkResponseEntropy [] windowSize.

(** [AddSample]; [None] is the panic of [re.latencies[1:]] on an empty
    slice. *)
Definition AddSample (re : ResponseEntropy) (latency : Z)
    : option ResponseEntropy :=
  if (entropyWindowSize re <=? witness.len (latencies re))%Z then
    match latencies re with
    | [] => None
    | _ :: rest =>
      Some (mkResponseEntropy (rest ++ [latency]) (entropyWindowSize re))
    end
  else Some (mkResponseEntropy (latencies re ++ [latency]) (entropyWindowSize re)).

Definition Entropy (re : ResponseEntropy) : Q :=
  let n := witness.len (latencies re) in
  if (n <? 2)%Z then 0.5
  else
    let sum := fold_left (fun sum lat => sum + inject_Z lat) (latencies re) 0 in
    let mean := sum / inject_Z n in
    if Qeq_bool mean 0 then 0.5
    else
      let variance :=
        fold_left (fun variance lat =>
                     let diff := inject_Z lat - mean in
                     variance + diff * diff) (latencies re) 0 in
      let variance := variance / inject_Z n in
      let stddev := Qsqrt variance in
      let cv := stddev / mean in
      Qmin cv 1.0.

Definition ConfidenceFactor (re : ResponseEntropy) : Q :=
  let entropy := Entropy re in
  1.0 - (entropy * 0.5).

Definition IsErratic (re : ResponseEntropy) : bool :=
  Entropy re >? 0.5.

(** A tracker after recording a list of (expected, actual) pairs in
    turn; [None] as soon as one call panics. *)
Definition recordSamples (jt : JitterTracker) (l : list (Z * Z))
    : option JitterTracker :=
  fold_left (fun acc (p : Z * Z) =>
               match acc with
               | Some jt => RecordSample jt p.1 p.2
               | None => None
               end) l (Some jt).

(** Spec side: the jitter ratio of a sample, [max(0, (actual - expected)
    / expected)], and the window a tracker is created with. *)
Definition sampleRatio (p : Z * Z) : Q :=
  let ratio := inject_Z (wrapInt64 (p.2 - p.1)) / inject_Z p.1 in
  if ratio <? 0 then 0 else ratio.

Definition effectiveWindow (windowSize : Z) : Z :=
  if (windowSize <? 1)%Z then 100%Z else windowSize.

(** Spec side: the last [n] elements of a list. *)
Definition lastn {A : Type} (n : nat) (l : list A) : list A :=
  drop (length l - n) l.

End observer.

(** ** Fixtures of the repository's tests *)

Module fixtures.

(** [makeWitnesses n] of the finality tests: witnesses 1..n, each with the
    belief (0.05, 0.90, 0.05). *)
Definition makeWitnesses (n : nat) : list witness.WitnessReport :=
  map (fun i =>
         witness.mkWitnessReport (types.NewNodeID (Z.of_nat i + 1))
           (types.mkNodeID 0 0) (types.MustBelief 0.05 0.90 0.05) 0)
      (seq 0 n).

Definition target : types.NodeID := types.NewNodeID 99.
Definition highBelief : types.Belief := types.MustBelief 0.02 0.95 0.03.

(** An oracle that received, from each witness of [ids] in turn, the same
    belief about [target]. *)
Definition receiveAll (ids : list Z) (belief : types.Belief) : oracle.Oracle :=
  fold_left (fun o i => oracle.ReceiveReport o (types.NewNodeID i) target belief)
    ids (oracle.New (types.NewNodeID 1)).

(** [TestCorrelatedWitnesses]: ten witnesses report (0.95, 0.03, 0.02). *)
Definition correlatedOracle : oracle.Oracle :=
  receiveAll [1; 2; 3; 4; 5; 6; 7; 8; 9; 10]%Z (types.MustBelief 0.95 0.03 0.02).

End fixtures.

(** * Properties *)

(** ** Numeric comparisons *)

Lemma Qltb_true (x y : Q) : (x <? y) = true <-> x < y.
Proof. unfold Qltb. destruct (Qlt_le_dec x y); split; intros; try easy; lra. Qed.

Lemma Qltb_false (x y : Q) : (x <? y) = false <-> y <= x.
Proof. unfold Qltb. destruct (Qlt_le_dec x y); split; intros; try easy; lra. Qed.

(** Case analysis on every comparison of the goal, turning each outcome
    into an order fact usable by [lra]. *)
Ltac case_Qltb :=
  repeat match goal with
  | |- context [Qltb ?a ?b] =>
    let H := fresh "Hcmp" in
    destruct (Qltb a b) eqn:H;
    [apply Qltb_true in H | apply Qltb_false in H]
  end.

(** ** Evidence: decay *)

Lemma pow_loop_exact (base : Q) (n : nat) :
  ~ base == 0 ->
  forall result exp,
    inject_Z (Z.of_nat n) <= exp ->
    fst (evidence.pow_loop n base result exp) == result * base ^ Z.of_nat n /\
    snd (evidence.pow_loop n base result exp) == exp - inject_Z (Z.of_nat n).
Proof.
  intros Hb. induction n as [|n IH]; intros result exp Hle.
  - cbn [evidence.pow_loop fst snd]. change (inject_Z (Z.of_nat 0)) with 0.
    change (base ^ Z.of_nat 0) with 1. split; ring.
  - rewrite Nat2Z.inj_succ in *. unfold Z.succ in *. rewrite inject_Z_plus in Hle.
    assert (H0 : 0 <= inject_Z (Z.of_nat n)).
    { rewrite <- (Zle_Qle 0). lia. }
    change (inject_Z 1) with 1 in Hle.
    cbn [evidence.pow_loop]. destruct (exp <? 1) eqn:Hc.
    + apply Qltb_true in Hc. lra.
    + destruct (IH (result * base) (exp - 1)) as [Hf Hs]; [lra|].
      rewrite Hf, Hs. rewrite Qpower_plus by exact Hb.
      rewrite inject_Z_plus. change (inject_Z 1) with 1.
      split; [|ring]. change (base ^ 1) with base. ring.
Qed.

(** The loop of [pow], given [floor exp] iterations, stops because its
    guard [exp >= 1] has become false. *)
Lemma pow_loop_exits (base : Q) (n : nat) :
  forall result exp,
    exp < inject_Z (Z.of_nat n) + 1 ->
    snd (evidence.pow_loop n base result exp) < 1.
Proof.
  induction n as [|n IH]; intros result exp Hlt.
  - cbn [evidence.pow_loop snd]. change (inject_Z (Z.of_nat 0)) with 0 in Hlt. lra.
  - cbn [evidence.pow_loop]. destruct (exp <? 1) eqn:Hc.
    + apply Qltb_true in Hc. exact Hc.
    + apply IH. rewrite Nat2Z.inj_succ in Hlt. unfold Z.succ in Hlt.
      rewrite inject_Z_plus in Hlt. change (inject_Z 1) with 1 in Hlt. lra.
Qed.

Lemma pow_loop_nonneg (base : Q) (n : nat) :
  0 <= base ->
  forall result exp, 0 <= result -> 0 <= fst (evidence.pow_loop n base result exp).
Proof.
  intros Hb. induction n as [|n IH]; intros result exp Hr; [exact Hr|].
  cbn [evidence.pow_loop]. destruct (exp <? 1); [exact Hr|].
  apply IH. apply Qmult_le_0_compat; assumption.
Qed.

Lemma floor_fuel (x : Q) : x < inject_Z (Z.of_nat (Z.to_nat (Qfloor x))) + 1.
Proof.
  pose proof (Qlt_floor x) as H. rewrite inject_Z_plus in H.
  change (inject_Z 1) with 1 in H.
  assert (inject_Z (Qfloor x) <= inject_Z (Z.of_nat (Z.to_nat (Qfloor x)))).
  { rewrite <- Zle_Qle. lia. }
  lra.
Qed.

Lemma pow_half_nonneg (x : Q) : 0 <= evidence.pow 0.5 x.
Proof.
  unfold evidence.pow. destruct (Qeq_dec x 0); [lra|].
  pose proof (pow_loop_exits 0.5 (Z.to_nat (Qfloor x)) 1.0 x (floor_fuel x)) as Hx.
  pose proof (pow_loop_nonneg 0.5 (Z.to_nat (Qfloor x)) ltac:(lra) 1.0 x ltac:(lra)) as Hr.
  destruct (evidence.pow_loop (Z.to_nat (Qfloor x)) 0.5 1.0 x) as [r x']. simpl in *.
  destruct (x' >? 0) eqn:Hc; [|exact Hr].
  apply Qltb_true in Hc. apply Qmult_le_0_compat; [exact Hr | lra].
Qed.

Lemma AgeSince_nonneg (t now : styxtime.LogicalTimestamp) :
  (0 <= styxtime.AgeSince t now)%Z.
Proof. unfold styxtime.AgeSince. destruct (Z.ltb_spec now t); lia. Qed.

(** What [pow 0.5] computes on a quotient of integers: the halving is exact
    on the integer part of the quotient and linear on the remainder. *)
Lemma pow_half_quotient (a h : Z) :
  (0 <= a)%Z -> (0 < h)%Z ->
  evidence.pow 0.5 (inject_Z a / inject_Z h) ==
  0.5 ^ (a / h) * (1 - inject_Z (a mod h) / (2 * inject_Z h)).
Proof.
  intros Ha Hh.
  assert (Hhq : 0 < inject_Z h) by (rewrite <- (Zlt_Qlt 0); exact Hh).
  assert (Hdiv : (0 <= a / h)%Z) by (apply Z.div_pos; lia).
  assert (Hmod : (0 <= a mod h < h)%Z) by (apply Z.mod_pos_bound; lia).
  assert (Hmq : 0 <= inject_Z (a mod h)) by (rewrite <- (Zle_Qle 0); lia).
  assert (Hsplit : inject_Z a == inject_Z h * inject_Z (a / h) + inject_Z (a mod h)).
  { rewrite <- inject_Z_mult, <- inject_Z_plus. rewrite <- Z.div_mod by lia. reflexivity. }
  unfold evidence.pow. set (x := inject_Z a / inject_Z h).
  assert (Hfl : Qfloor x = (a / h)%Z) by (symmetry; apply Zdiv_Qdiv).
  assert (Hx : x == inject_Z (a / h) + inject_Z (a mod h) / inject_Z h).
  { unfold x. rewrite Hsplit. field. lra. }
  assert (Hfrac : 0 <= inject_Z (a mod h) / inject_Z h).
  { apply Qle_shift_div_l; [exact Hhq | lra]. }
  destruct (Qeq_dec x 0) as [Hz|Hnz].
  - assert (Hq0 : (a / h = 0)%Z).
    { rewrite <- Hfl. rewrite (Qfloor_comp _ _ Hz). reflexivity. }
    rewrite Hq0 in *. change (inject_Z 0) with 0 in Hx.
    assert (Hm0 : inject_Z (a mod h) / inject_Z h == 0) by lra.
    change (0.5 ^ 0) with 1.
    assert (Hgoal : inject_Z (a mod h) / (2 * inject_Z h) ==
                    (inject_Z (a mod h) / inject_Z h) / 2) by (field; lra).
    rewrite Hgoal, Hm0. reflexivity.
  - rewrite Hfl.
    destruct (pow_loop_exact 0.5 (Z.to_nat (a / h)) ltac:(lra) 1.0 x) as [Hr Hs].
    { rewrite Z2Nat.id by exact Hdiv. rewrite <- Hfl. apply Qfloor_le. }
    rewrite Z2Nat.id in Hr, Hs by exact Hdiv.
    destruct (evidence.pow_loop (Z.to_nat (a / h)) 0.5 1.0 x) as [r x'].
    cbn [fst snd] in Hr, Hs.
    assert (Hx' : x' == inject_Z (a mod h) / inject_Z h) by lra.
    destruct (x' >? 0) eqn:Hc.
    + rewrite Hr, Hx'. field. lra.
    + apply Qltb_false in Hc.
      assert (Hm0 : inject_Z (a mod h) / inject_Z h == 0) by lra.
      assert (Hgoal : inject_Z (a mod h) / (2 * inject_Z h) ==
                      (inject_Z (a mod h) / inject_Z h) / 2) by (field; lra).
      rewrite Hr, Hgoal, Hm0. field.
Qed.


(** ** Beliefs *)

Lemma NewConfidence_Ok (v : Q) (c : types.Confidence) :
  types.NewConfidence (Num v) = Ok c -> c = types.mkConfidence v /\ 0 <= v <= 1.
Proof.
  unfold types.NewConfidence. case_Qltb; intros H; inversion H.
  split; [reflexivity | lra].
Qed.

Lemma NewBelief_Ok (a d u : Q) (b : types.Belief) :
  types.NewBelief a d u = Ok b ->
  b = types.mkBelief (types.mkConfidence a) (types.mkConfidence d) (types.mkConfidence u) /\
  0 <= a <= 1 /\ 0 <= d <= 1 /\ 0 <= u <= 1 /\
  Qabs (a + d + u - 1) <= types.BeliefSumEpsilon.
Proof.
  unfold types.NewBelief.
  destruct (Qabs (a + d + u - 1.0) >? types.BeliefSumEpsilon) eqn:Hs; [discriminate|].
  apply Qltb_false in Hs.
  destruct (types.NewConfidence (Num a)) as [ca|] eqn:Ha; [|discriminate].
  destruct (types.NewConfidence (Num d)) as [cd|] eqn:Hd; [|discriminate].
  destruct (types.NewConfidence (Num u)) as [cu|] eqn:Hu; [|discriminate].
  apply NewConfidence_Ok in Ha, Hd, Hu.
  destruct Ha as [-> Ha], Hd as [-> Hd], Hu as [-> Hu].
  intros H. inversion H. repeat split; try tauto.
  assert (E : a + d + u - 1 == a + d + u - 1.0) by lra.
  rewrite E. exact Hs.
Qed.

(** What [NewBelief] accepts is a valid belief. *)
Lemma NewBelief_valid (a d u : Q) (b : types.Belief) :
  types.NewBelief a d u = Ok b -> types.valid b.
Proof.
  intros H. apply NewBelief_Ok in H. destruct H as (-> & Ha & Hd & Hu & Hs).
  unfold types.valid. cbn. tauto.
Qed.

(** A triple of confidences that sums to one exactly is accepted. *)
Lemma NewBelief_exact (a d u : Q) :
  0 <= a <= 1 -> 0 <= d <= 1 -> 0 <= u <= 1 -> a + d + u == 1 ->
  types.NewBelief a d u =
  Ok (types.mkBelief (types.mkConfidence a) (types.mkConfidence d) (types.mkConfidence u)).
Proof.
  intros Ha Hd Hu Hs. unfold types.NewBelief, types.NewConfidence.
  assert (E : Qabs (a + d + u - 1.0) == 0).
  { assert (E0 : a + d + u - 1.0 == 0) by lra. rewrite E0. reflexivity. }
  destruct (Qabs (a + d + u - 1.0) >? types.BeliefSumEpsilon) eqn:Hc.
  { apply Qltb_true in Hc. unfold types.BeliefSumEpsilon in Hc. lra. }
  case_Qltb; try lra. reflexivity.
Qed.

(** ** Evidence: the computed belief *)

(** [C5] Unknown floor.  For every non-empty evidence set and every logical
    time, the belief returned by [ComputeBelief] has unknown mass at least
    0.05. *)
Theorem ComputeBelief_unknown_floor (es : evidence.EvidenceSet)
    (now : styxtime.LogicalTimestamp) :
  evidence.evidence es <> [] ->
  0.05 <= types.Value (types.Unknown (evidence.ComputeBelief es now)).
Proof.
  intros _. unfold evidence.ComputeBelief.
  destruct (evidence.IsEmpty es); [cbn; lra|].
  destruct (fold_left _ _ _) as [[aliveWeight deadWeight] totalWeight].
  destruct (totalWeight <? _); [cbn; lra|].
  match goal with
  | |- context [if ?c then _ else _] => destruct c eqn:Hfloor
  end.
  - destruct (types.NewBelief _ _ 0.05) as [b|] eqn:Hb; [|cbn; lra].
    apply NewBelief_Ok in Hb. destruct Hb as [-> _]. cbn. lra.
  - apply Qltb_false in Hfloor.
    destruct (types.NewBelief _ _ _) as [b|] eqn:Hb; [|cbn; lra].
    apply NewBelief_Ok in Hb. destruct Hb as [-> _]. cbn. exact Hfloor.
Qed.

Lemma ComputeBelief_unknown_floor_witness :
  0.05 <= types.Value (types.Unknown (evidence.ComputeBelief
    (evidence.Add evidence.NewEvidenceSet
       (evidence.NewTimeout 1 100 5000 (types.NewNodeID 1) (types.NewNodeID 2))) 1)).
Proof. apply ComputeBelief_unknown_floor. cbn. discriminate. Defined.

Lemma EffectiveWeight_nonneg (e : evidence.Evidence)
    (now : styxtime.LogicalTimestamp) (hl : Z) :
  0 <= evidence.Weight e -> 0 <= evidence.EffectiveWeight e now hl.
Proof.
  intros Hw. unfold evidence.EffectiveWeight.
  apply Qmult_le_0_compat; [exact Hw | apply pow_half_nonneg].
Qed.

(** The accumulation loop keeps the weights non-negative, with alive and
    dead together at most the total. *)
Lemma accumulate_nonneg (now : styxtime.LogicalTimestamp) (hl : Z)
    (l : list evidence.Evidence) :
  Forall (fun e => 0 <= evidence.Weight e) l ->
  forall a0 d0 t0, 0 <= a0 -> 0 <= d0 -> a0 + d0 <= t0 ->
  let res := fold_left (evidence.accumulate now hl) l (a0, d0, t0) in
  0 <= res.1.1 /\ 0 <= res.1.2 /\ res.1.1 + res.1.2 <= res.2.
Proof.
  induction 1 as [|e l Hw _ IH]; intros a0 d0 t0 Ha Hd Ht.
  - cbn. auto.
  - pose proof (EffectiveWeight_nonneg e now hl Hw) as Hew.
    cbn [fold_left].
    assert (Hstep : exists a1 d1 t1,
              evidence.accumulate now hl (a0, d0, t0) e = (a1, d1, t1) /\
              0 <= a1 /\ 0 <= d1 /\ a1 + d1 <= t1).
    { unfold evidence.accumulate.
      destruct (evidence.SuggestsAlive e); [|destruct (evidence.SuggestsDead e)];
        eexists _, _, _; (split; [reflexivity|]); repeat split; lra. }
    destruct Hstep as (a1 & d1 & t1 & -> & ? & ? & ?). apply IH; assumption.
Qed.

(** The total of the accumulation loop is the sum of the effective
    weights. *)
Lemma accumulate_total (now : styxtime.LogicalTimestamp) (hl : Z)
    (l : list evidence.Evidence) :
  forall a0 d0 t0,
    (fold_left (evidence.accumulate now hl) l (a0, d0, t0)).2
    == t0 + Qsum (map (fun e => evidence.EffectiveWeight e now hl) l).
Proof.
  induction l as [|e l IH]; intros a0 d0 t0; cbn [fold_left map Qsum].
  - cbn [snd]. ring.
  - assert (Hstep : exists a1 d1,
              evidence.accumulate now hl (a0, d0, t0) e
              = (a1, d1, t0 + evidence.EffectiveWeight e now hl)).
    { unfold evidence.accumulate.
      destruct (evidence.SuggestsAlive e); [|destruct (evidence.SuggestsDead e)];
        eexists _, _; reflexivity. }
    destruct Hstep as (a1 & d1 & ->). rewrite IH. ring.
Qed.

Lemma totalWeight_sum (es : evidence.EvidenceSet)
    (now : styxtime.LogicalTimestamp) :
  evidence.totalWeight es now ==
    Qsum (map (fun e => evidence.EffectiveWeight e now (evidence.halfLife es))
            (evidence.evidence es)).
Proof. unfold evidence.totalWeight. rewrite accumulate_total. ring. Qed.

(** Over timeouts and jitter the accumulation loop leaves [aliveWeight]
    at zero. *)
Lemma accumulate_silence (now : styxtime.LogicalTimestamp) (hl : Z)
    (l : list evidence.Evidence) :
  Forall (fun e => evidence.Kind e = evidence.KindTimeout
                   \/ evidence.Kind e = evidence.KindSchedulingJitter) l ->
  forall d0 t0,
    (fold_left (evidence.accumulate now hl) l (0, d0, t0)).1.1 = 0.
Proof.
  induction 1 as [|e l Hk _ IH]; intros d0 t0; [reflexivity|].
  cbn [fold_left]. unfold evidence.accumulate at 2.
  unfold evidence.SuggestsAlive, evidence.SuggestsDead.
  destruct Hk as [Hk|Hk]; rewrite Hk; cbn [bool_decide decide_rel orb];
    repeat (case_bool_decide; try discriminate); cbn [orb];
    apply IH.
Qed.

(** [C6, as amended] The cap on certainty, and silence.  For an evidence
    set whose weights are non-negative, and every logical time, the alive
    mass and the dead mass of the computed belief are at most
    [min(totalW / (totalW + 1), 0.90)], where [totalW] is the total of
    the effective weights that [ComputeBelief] accumulates.  When
    moreover all records are timeouts and scheduling jitter, the alive
    mass is 0 and the dead mass is below 0.95: the belief is not certain
    of death. *)
Theorem ComputeBelief_silence_not_death (es : evidence.EvidenceSet)
    (now : styxtime.LogicalTimestamp) :
  Forall (fun e => 0 <= evidence.Weight e) (evidence.evidence es) ->
  let b := evidence.ComputeBelief es now in
  let totalW := evidence.totalWeight es now in
  let cap := Qmin (totalW / (totalW + 1)) 0.90 in
  (types.Value (types.Alive b) <= cap /\
   types.Value (types.Dead b) <= cap /\ cap <= 0.90) /\
  (evidence.silence_only es ->
   types.Value (types.Alive b) == 0 /\
   types.Value (types.Dead b) < 0.95 /\
   types.IsCertainDead b = false).
Proof.
  intros Hnn. cbv zeta.
  pose proof (accumulate_nonneg now (evidence.halfLife es) _ Hnn 0 0 0
                ltac:(lra) ltac:(lra) ltac:(lra)) as Hacc. cbv zeta in Hacc.
  assert (Hsil : evidence.silence_only es ->
            (fold_left (evidence.accumulate now (evidence.halfLife es))
               (evidence.evidence es) (0, 0, 0)).1.1 = 0)
    by (intros Hs; apply accumulate_silence, Hs).
  assert (Hcert : forall (b : types.Belief) (cap : Q),
            cap <= 0.90 -> types.Value (types.Dead b) <= cap ->
            types.Value (types.Dead b) < 0.95 /\ types.IsCertainDead b = false).
  { intros b cap Hc Hb.
    unfold types.IsCertainDead, types.Dead, types.CertaintyThreshold in *.
    split; [lra|]. case_Qltb; [reflexivity | lra]. }
  unfold evidence.ComputeBelief, evidence.totalWeight.
  destruct (fold_left _ _ _) as [[a d] t]. cbn [fst snd] in *.
  destruct Hacc as (Ha & Hd & Hadt).
  assert (Hcap : 0 <= Qmin (t / (t + 1)) 0.90 <= 0.90).
  { split; [|apply Q.le_min_r].
    apply Q.min_glb; [|lra]. apply Qle_shift_div_l; lra. }
  assert (Hunknown :
    (types.Value (types.Alive types.UnknownBelief) <= Qmin (t / (t + 1)) 0.90 /\
     types.Value (types.Dead types.UnknownBelief) <= Qmin (t / (t + 1)) 0.90 /\
     Qmin (t / (t + 1)) 0.90 <= 0.90) /\
    (evidence.silence_only es ->
     types.Value (types.Alive types.UnknownBelief) == 0 /\
     types.Value (types.Dead types.UnknownBelief) < 0.95 /\
     types.IsCertainDead types.UnknownBelief = false)).
  { split; [cbn; lra|]. intros _. split; [reflexivity|].
    apply (Hcert _ (Qmin (t / (t + 1)) 0.90)); [lra | cbn; lra]. }
  destruct (evidence.IsEmpty es); [exact Hunknown|].
  destruct (t <? _) eqn:Ht; [exact Hunknown|].
  apply Qltb_false in Ht.
  assert (Htpos : 0 < t) by lra.
  assert (Hcapeq : Qmin (t / (t + 1.0)) 0.90 == Qmin (t / (t + 1)) 0.90).
  { assert (H1 : 1.0 == 1) by reflexivity. rewrite H1. reflexivity. }
  set (maxCertainty := Qmin (t / (t + 1.0)) 0.90) in *.
  set (conflictFactor := if (a >? 0) && (d >? 0) then _ else _).
  assert (Hcf : 0 <= conflictFactor <= 1).
  { unfold conflictFactor.
    destruct (a >? 0) eqn:Hap; [apply Qltb_true in Hap | cbn [andb]; lra].
    destruct (d >? 0) eqn:Hdp; [apply Qltb_true in Hdp | cbn [andb]; lra].
    cbn [andb].
    assert (Hmx : 0 < Qmax a d).
    { apply Qlt_le_trans with (y := a); [exact Hap | apply Q.le_max_l]. }
    assert (Hmn : 0 <= Qmin a d) by (apply Q.min_glb; lra).
    assert (Hle : Qmin a d <= Qmax a d).
    { apply Qle_trans with (y := a); [apply Q.le_min_l | apply Q.le_max_l]. }
    assert (Hb0 : 0 <= Qmin a d / Qmax a d) by (apply Qle_shift_div_l; lra).
    assert (Hb1 : Qmin a d / Qmax a d <= 1) by (apply Qle_shift_div_r; lra).
    lra. }
  assert (Hra : 0 <= a / t <= 1).
  { split; [apply Qle_shift_div_l; lra | apply Qle_shift_div_r; lra]. }
  assert (Hrd : 0 <= d / t <= 1).
  { split; [apply Qle_shift_div_l; lra | apply Qle_shift_div_r; lra]. }
  assert (Hrs : a / t + d / t <= 1).
  { assert (E : a / t + d / t == (a + d) / t) by (field; lra).
    rewrite E. apply Qle_shift_div_r; lra. }
  assert (Hzero : a = 0 -> a / t * maxCertainty * conflictFactor == 0).
  { intros ->. unfold Qdiv. ring. }
  set (ra := a / t) in *. set (rd := d / t) in *.
  assert (Hmc : 0 <= maxCertainty <= 0.90) by lra.
  assert (Hm : 0 <= maxCertainty * conflictFactor <= maxCertainty) by nra.
  assert (HA : ra * maxCertainty * conflictFactor
               == ra * (maxCertainty * conflictFactor)) by ring.
  assert (HD : rd * maxCertainty * conflictFactor
               == rd * (maxCertainty * conflictFactor)) by ring.
  set (m := maxCertainty * conflictFactor) in *.
  assert (Ha1 : 0 <= ra * m <= maxCertainty) by nra.
  assert (Hd1 : 0 <= rd * m <= maxCertainty) by nra.
  assert (Hs1 : ra * m + rd * m <= 0.90) by nra.
  set (aliveConf := ra * maxCertainty * conflictFactor) in *.
  set (deadConf := rd * maxCertainty * conflictFactor) in *.
  destruct (1.0 - aliveConf - deadConf <? 0.05) eqn:Hfloor.
  { apply Qltb_true in Hfloor. lra. }
  destruct (types.NewBelief _ _ _) as [b|] eqn:Hb; [|exact Hunknown].
  apply NewBelief_Ok in Hb. destruct Hb as [-> _].
  split; [cbn; lra|]. intros Hs.
  split; [cbn; apply Hzero, Hsil, Hs|].
  apply (Hcert _ (Qmin (t / (t + 1)) 0.90)); [lra | cbn; lra].
Qed.

(** The factories for timeouts and jitter build records of these kinds
    with non-negative weights. *)
Lemma factories_build_silence_records (ts : styxtime.LogicalTimestamp)
    (expectedMS waitedMS delayMS : Z) (source target : types.NodeID) :
  let timeout := evidence.NewTimeout ts expectedMS waitedMS source target in
  let jitter := evidence.NewSchedulingJitter ts delayMS source target in
  evidence.Kind timeout = evidence.KindTimeout /\
  0 <= evidence.Weight timeout /\
  evidence.Kind jitter = evidence.KindSchedulingJitter /\
  0 <= evidence.Weight jitter.
Proof.
  unfold evidence.NewTimeout, evidence.NewSchedulingJitter.
  cbn [evidence.Kind evidence.Weight].
  repeat split.
  - destruct (PrimFloat.ltb 10.0 _); [lra|]. destruct (PrimFloat.ltb 3.0 _); lra.
  - destruct (1000 <? delayMS)%Z; lra.
Qed.

Lemma ComputeBelief_silence_not_death_witness :
  types.Value (types.Dead (evidence.ComputeBelief
    (evidence.Add (evidence.Add evidence.NewEvidenceSet
       (evidence.NewTimeout 1 100 10000 (types.NewNodeID 1) (types.NewNodeID 2)))
       (evidence.NewSchedulingJitter 2 5000 (types.NewNodeID 1) (types.NewNodeID 2))) 2))
  < 0.95.
Proof.
  refine (proj1 (proj2 (proj2 (ComputeBelief_silence_not_death _ 2 _) _))).
  - repeat constructor; vm_compute; discriminate.
  - unfold evidence.silence_only. vm_compute.
    repeat (apply Forall_cons || apply Forall_nil); auto.
Defined.

(** [C6, as stated] fails without the condition on the weights, which
    [Add] does not check: a timeout of weight 1.9 and scheduling jitter of
    weight -0.9, both of age 0, total 1.0, so that the dead ratio is 1.9
    and the cap 0.5: the dead mass is 0.95 and the belief is certain of
    death. *)
Lemma ComputeBelief_silence_negative_weight :
  let es :=
    evidence.Add
      (evidence.Add evidence.NewEvidenceSet
         (evidence.mkEvidence evidence.KindTimeout 0 1.9 (types.NewNodeID 1)
            (types.NewNodeID 2) (evidence.mkDetails 0 100 5000 0 0)))
      (evidence.mkEvidence evidence.KindSchedulingJitter 0 (- 0.9)
         (types.NewNodeID 1) (types.NewNodeID 2)
         (evidence.mkDetails 0 0 0 0 500)) in
  evidence.silence_only es /\
  types.Value (types.Dead (evidence.ComputeBelief es 0)) == 0.95 /\
  ~ types.Value (types.Dead (evidence.ComputeBelief es 0)) < 0.95 /\
  types.IsCertainDead (evidence.ComputeBelief es 0) = true.
Proof.
  cbv zeta. split.
  { unfold evidence.silence_only. vm_compute.
    repeat (apply Forall_cons || apply Forall_nil); auto. }
  split; [reflexivity|]. split; [|reflexivity].
  intros H. vm_compute in H. discriminate.
Qed.

(** ** Evidence: decay with age *)

(** [C4, as amended] The effective weight halves exactly once per whole
    half-life and is interpolated linearly in between: with
    [age = max(0, now - Timestamp)], [q = age div halfLife] and
    [r = age mod halfLife], it is [Weight * 0.5^q * (1 - r/(2*halfLife))].
    It coincides with [Weight * 0.5^(age/halfLife)] when [halfLife] divides
    [age]; at [age = halfLife/2] the decay factor is 0.75.  The statement
    is made for [age < 1022 * halfLife], the range in which the decay
    factor of the source is a normal [float64]: beyond it the source's
    product loses precision and then underflows to 0, and from 2^53
    half-lives on its loop does not exit. *)
Theorem EffectiveWeight_piecewise_decay (e : evidence.Evidence)
    (now : styxtime.LogicalTimestamp) (hl : Z) :
  (0 < hl)%Z ->
  (styxtime.AgeSince (evidence.Timestamp e) now < 1022 * hl)%Z ->
  let age := styxtime.AgeSince (evidence.Timestamp e) now in
  age = Z.max 0 (now - evidence.Timestamp e) /\
  evidence.EffectiveWeight e now hl ==
    evidence.Weight e *
    (0.5 ^ (age / hl) * (1 - inject_Z (age mod hl) / (2 * inject_Z hl))) /\
  ((age mod hl = 0)%Z ->
     evidence.EffectiveWeight e now hl == evidence.Weight e * 0.5 ^ (age / hl)) /\
  ((2 * age = hl)%Z ->
     evidence.EffectiveWeight e now hl == evidence.Weight e * 0.75).
Proof.
  intros Hhl Hexits age.
  assert (Hage : (0 <= age)%Z) by apply AgeSince_nonneg.
  assert (Hmain : evidence.EffectiveWeight e now hl ==
    evidence.Weight e *
    (0.5 ^ (age / hl) * (1 - inject_Z (age mod hl) / (2 * inject_Z hl)))).
  { unfold evidence.EffectiveWeight. fold age.
    rewrite (pow_half_quotient age hl Hage Hhl). reflexivity. }
  assert (Hhq : 0 < inject_Z hl) by (rewrite <- (Zlt_Qlt 0); exact Hhl).
  split.
  { subst age. unfold styxtime.AgeSince.
    destruct (Z.ltb_spec now (evidence.Timestamp e)); lia. }
  split; [exact Hmain|]. split.
  - intros Hm. rewrite Hmain, Hm. change (inject_Z 0) with 0. field. lra.
  - intros Hm. rewrite Hmain.
    assert (Hq : (age / hl = 0)%Z) by (apply Z.div_small; lia).
    assert (Hr : (age mod hl = age)%Z) by (apply Z.mod_small; lia).
    rewrite Hq, Hr. change (0.5 ^ 0) with 1.
    rewrite <- Hm. rewrite inject_Z_mult. change (inject_Z 2) with 2.
    assert (Ha : 0 < inject_Z age) by (rewrite <- (Zlt_Qlt 0); lia).
    field. lra.
Qed.

Lemma EffectiveWeight_piecewise_decay_witness :
  evidence.EffectiveWeight
    (evidence.NewCausalEvent 10 7 (types.NewNodeID 1) (types.NewNodeID 2)) 60 100
  == 1.0 * 0.75.
Proof.
  apply (EffectiveWeight_piecewise_decay
           (evidence.NewCausalEvent 10 7 (types.NewNodeID 1) (types.NewNodeID 2))
           60 100); reflexivity.
Defined.

Lemma half_root_bound : (Rpower (1 / 2) (IZR 1 / IZR 2) < 71 / 100)%R.
Proof.
  replace (IZR 1 / IZR 2)%R with (/ 2)%R
    by (unfold Rdiv; rewrite Rmult_1_l; reflexivity).
  rewrite Rpower_sqrt by Lra.lra.
  rewrite <- (sqrt_square (71 / 100)) by Lra.lra.
  apply sqrt_lt_1_alt. Lra.lra.
Qed.

(** [C4, as stated] fails: one time unit after a record of weight 1, with
    half-life 2 (age = halfLife/2, within the range of the amended
    statement), the effective weight is 0.75, while
    [Weight * 0.5^(1/2)] is below 0.71: the two differ by more than
    0.04. *)
Lemma EffectiveWeight_not_real_power :
  let e := evidence.NewCausalEvent 0 7 (types.NewNodeID 1) (types.NewNodeID 2) in
  (0 < 2)%Z /\
  (styxtime.AgeSince (evidence.Timestamp e) 1 < 1022 * 2)%Z /\
  evidence.EffectiveWeight e 1 2 == 0.75 /\
  (evidence.realDecay e 1 2 < 71 / 100)%R /\
  (Q2R (evidence.EffectiveWeight e 1 2) - evidence.realDecay e 1 2 > 4 / 100)%R.
Proof.
  cbv zeta.
  assert (Hreal : (evidence.realDecay
            (evidence.NewCausalEvent 0 7 (types.NewNodeID 1) (types.NewNodeID 2))
            1 2 < 71 / 100)%R).
  { unfold evidence.realDecay.
    change (styxtime.AgeSince _ 1) with 1%Z.
    change (evidence.Weight _) with 1.0.
    replace (Q2R 1.0) with 1%R by (unfold Q2R; cbn; Lra.lra).
    rewrite Rmult_1_l. exact half_root_bound. }
  assert (Hcode : evidence.EffectiveWeight
            (evidence.NewCausalEvent 0 7 (types.NewNodeID 1) (types.NewNodeID 2))
            1 2 == 0.75) by reflexivity.
  split; [reflexivity|]. split; [reflexivity|]. split; [exact Hcode|].
  split; [exact Hreal|].
  rewrite (Qeq_eqR _ _ Hcode).
  replace (Q2R 0.75) with (3 / 4)%R by (unfold Q2R; cbn; Lra.lra).
  Lra.lra.
Qed.

(** ** Evidence: timeouts *)

(** [C10] [NewTimeout] is total: for all arguments, also for
    [expectedMS = 0] where the ratio is NaN or +Inf, the weight it assigns
    is one of 0.1, 0.2 and 0.3, hence never above 0.3. *)
Theorem NewTimeout_weight_total :
  (forall ts expectedMS waitedMS source target,
     let w := evidence.Weight
                (evidence.NewTimeout ts expectedMS waitedMS source target) in
     (w = 0.1 \/ w = 0.2 \/ w = 0.3) /\ w <= 0.3) /\
  (forall ts source target,
     PrimFloat.is_nan (evidence.timeoutRatio 0 0) = true /\
     evidence.Weight (evidence.NewTimeout ts 0 0 source target) = 0.1) /\
  (forall ts source target,
     PrimFloat.is_infinity (evidence.timeoutRatio 0 5000) = true /\
     evidence.Weight (evidence.NewTimeout ts 0 5000 source target) = 0.3).
Proof.
  split; [|split].
  - intros ts expectedMS waitedMS source target.
    unfold evidence.NewTimeout. cbn [evidence.Weight].
    destruct (PrimFloat.ltb 10.0 _); [split; [auto | lra]|].
    destruct (PrimFloat.ltb 3.0 _); split; auto; lra.
  - intros. split; reflexivity.
  - intros. split; reflexivity.
Qed.

(** ** Witness registry: trust dynamics *)

Section RegistryTrust.

Lemma trust_bounded_insert (r : witness.Registry) (id : types.NodeID)
    (w : witness.WitnessRecord) :
  witness.trust_bounded r ->
  witness.MinTrust <= witness.Trust w <= witness.MaxTrust ->
  witness.trust_bounded (<[id := w]> r).
Proof.
  intros Hr Hw id' w'. rewrite lookup_insert.
  case_decide; [intros [= <-]; exact Hw | apply Hr].
Qed.

Lemma getOrCreate_bounded (r : witness.Registry) (id : types.NodeID) :
  witness.trust_bounded r ->
  witness.trust_bounded (witness.getOrCreate r id).1 /\
  witness.MinTrust <= witness.Trust (witness.getOrCreate r id).2 <= witness.MaxTrust.
Proof.
  intros Hr. unfold witness.getOrCreate.
  destruct (r !! id) as [w|] eqn:Hl; cbn [fst snd].
  - split; [exact Hr | exact (Hr id w Hl)].
  - assert (Hd : witness.MinTrust <= witness.Trust (witness.newRecord id)
                 <= witness.MaxTrust).
    { cbn. unfold witness.MinTrust, witness.MaxTrust, witness.DefaultTrust. lra. }
    split; [apply trust_bounded_insert; assumption | exact Hd].
Qed.

Lemma applyOp_bounded (r : witness.Registry) (op : witness.RegistryOp) :
  witness.trust_bounded r -> witness.trust_bounded (witness.applyOp r op).
Proof.
  intros Hr. destruct op as [id|id|id|id belief|id|id|]; cbn [witness.applyOp];
    try exact Hr.
  - unfold witness.Register. destruct (r !! id) eqn:Hl; [exact Hr|].
    apply trust_bounded_insert; [exact Hr|].
    cbn. unfold witness.MinTrust, witness.MaxTrust, witness.DefaultTrust. lra.
  - unfold witness.RecordCorrect.
    destruct (getOrCreate_bounded r id Hr) as [Hr' Hw].
    destruct (witness.getOrCreate r id) as [r' w]. cbn [fst snd] in *.
    apply trust_bounded_insert; [exact Hr'|].
    unfold witness.MinTrust, witness.MaxTrust, witness.RecoveryRate in *.
    cbn [witness.setTrust witness.Trust]. case_Qltb; cbn [witness.setTrust witness.Trust]; lra.
  - unfold witness.RecordWrong.
    destruct (getOrCreate_bounded r id Hr) as [Hr' Hw].
    destruct (witness.getOrCreate r id) as [r' w]. cbn [fst snd] in *.
    apply trust_bounded_insert; [exact Hr'|].
    unfold witness.MinTrust, witness.MaxTrust, witness.DecayRate in *.
    cbn [witness.setTrust witness.Trust]. case_Qltb; cbn [witness.setTrust witness.Trust]; lra.
  - unfold witness.RecordReport.
    destruct (getOrCreate_bounded r id Hr) as [Hr' Hw].
    destruct (witness.getOrCreate r id) as [r' w]. cbn [fst snd] in *.
    apply trust_bounded_insert; [exact Hr' | exact Hw].
Qed.

Lemma run_bounded (ops : list witness.RegistryOp) :
  forall r, witness.trust_bounded r -> witness.trust_bounded (witness.run ops r).
Proof.
  unfold witness.run. induction ops as [|op ops IH]; intros r Hr; [exact Hr|].
  cbn [fold_left]. apply IH, applyOp_bounded, Hr.
Qed.

Lemma NewRegistry_bounded : witness.trust_bounded witness.NewRegistry.
Proof.
  intros id w. unfold witness.NewRegistry. rewrite lookup_empty. discriminate.
Qed.

Lemma GetTrust_bounded (r : witness.Registry) (id : types.NodeID) :
  witness.trust_bounded r -> 0.1 <= witness.GetTrust r id <= 1.0.
Proof.
  intros Hr. unfold witness.GetTrust. destruct (r !! id) as [w|] eqn:Hl.
  - apply (Hr id w Hl).
  - unfold witness.DefaultTrust. lra.
Qed.

(** [C9] Trust stays within [0.1, 1.0].  After any sequence of registry
    operations on a new registry, [GetTrust] of any witness id is within
    [0.1, 1.0].  Registration stores trust 0.8 for a new id (and leaves a
    known id untouched); [RecordCorrect] adds 0.05 and clamps to 1.0;
    [RecordWrong] subtracts 0.10 and clamps to 0.1. *)
Theorem trust_within_bounds :
  (forall ops id,
     0.1 <= witness.GetTrust (witness.run ops witness.NewRegistry) id <= 1.0) /\
  (forall r id,
     witness.Register r id !! id =
       Some (match r !! id with
             | Some w => w
             | None => witness.mkWitnessRecord id 0.8 0 0 types.zeroBelief
             end)) /\
  (forall r id,
     witness.GetTrust (witness.RecordCorrect r id) id ==
       Qmin (witness.GetTrust r id + 0.05) 1.0) /\
  (forall r id,
     witness.GetTrust (witness.RecordWrong r id) id ==
       Qmax (witness.GetTrust r id - 0.10) 0.1).
Proof.
  repeat split.
  - apply GetTrust_bounded, run_bounded, NewRegistry_bounded.
  - apply GetTrust_bounded, run_bounded, NewRegistry_bounded.
  - intros r id. unfold witness.Register.
    destruct (r !! id) eqn:Hl; [exact Hl | apply lookup_insert_eq].
  - intros r id. unfold witness.RecordCorrect, witness.GetTrust, witness.getOrCreate.
    destruct (r !! id) as [w|]; rewrite lookup_insert_eq;
      unfold witness.MaxTrust, witness.RecoveryRate, witness.DefaultTrust;
      cbn [witness.setTrust witness.Trust witness.newRecord]; case_Qltb;
      cbn [witness.setTrust witness.Trust]; unfold witness.DefaultTrust in *;
      solve [ exfalso; lra
            | rewrite Q.min_r by lra; reflexivity
            | rewrite Q.min_l by lra; reflexivity ].
  - intros r id. unfold witness.RecordWrong, witness.GetTrust, witness.getOrCreate.
    destruct (r !! id) as [w|]; rewrite lookup_insert_eq;
      unfold witness.MinTrust, witness.DecayRate, witness.DefaultTrust;
      cbn [witness.setTrust witness.Trust witness.newRecord]; case_Qltb;
      cbn [witness.setTrust witness.Trust]; unfold witness.DefaultTrust in *;
      solve [ exfalso; lra
            | rewrite Q.max_r by lra; lra
            | rewrite Q.max_l by lra; lra ].
Qed.

End RegistryTrust.

(** ** Finality engine *)

Section Finality.

Lemma DeclareDeath_keeps (e : finality.Engine) (nodeID : types.NodeID)
    (b : types.Belief) (rs : list witness.WitnessReport) (f : bool)
    (k : types.NodeID) (r : finality.DeathRecord) :
  finality.dead e !! k = Some r ->
  finality.dead (finality.DeclareDeath e nodeID b rs f).1 !! k = Some r.
Proof.
  intros Hk. unfold finality.DeclareDeath.
  destruct (finality.dead e !! nodeID) eqn:Hn; [exact Hk|].
  repeat match goal with
  | |- context [if ?c then _ else _] => destruct c; [exact Hk|]
  end.
  cbn [fst finality.dead]. rewrite lookup_insert_ne; [exact Hk|].
  intros ->. congruence.
Qed.

Lemma applyOp_keeps (e : finality.Engine) (op : finality.EngineOp)
    (k : types.NodeID) (r : finality.DeathRecord) :
  finality.dead e !! k = Some r ->
  finality.dead (finality.applyOp e op) !! k = Some r.
Proof.
  intros Hk. destruct op; cbn [finality.applyOp]; try exact Hk.
  apply DeclareDeath_keeps, Hk.
Qed.

Lemma run_keeps (ops : list finality.EngineOp) :
  forall (e : finality.Engine) (k : types.NodeID) (r : finality.DeathRecord),
  finality.dead e !! k = Some r ->
  finality.dead (finality.run ops e) !! k = Some r.
Proof.
  unfold finality.run. induction ops as [|op ops IH]; intros e k r Hk; [exact Hk|].
  cbn [fold_left]. apply IH, applyOp_keeps, Hk.
Qed.

Lemma DeclareDeath_success_records (e e1 : finality.Engine)
    (nodeID : types.NodeID) (b : types.Belief)
    (rs : list witness.WitnessReport) (f : bool) :
  finality.DeclareDeath e nodeID b rs f = (e1, None) ->
  finality.dead e1 !! nodeID =
    Some (finality.mkDeathRecord nodeID b (map witness.Witness rs)
            "overwhelming evidence from multiple witnesses").
Proof.
  unfold finality.DeclareDeath.
  destruct (finality.dead e !! nodeID); [discriminate|].
  repeat match goal with
  | |- context [if ?c then _ else _] => destruct c; [discriminate|]
  end.
  intros [= <-]. cbn [finality.dead]. apply lookup_insert_eq.
Qed.

(** [C1] Death is final.  Once [DeclareDeath] has succeeded for a node id,
    then after any further sequence of engine operations [IsDead] of that
    id is true, every [DeclareDeath] of that id returns [ErrAlreadyDead]
    and leaves the engine as it is, and the recorded entry is the one
    written by the successful declaration; no operation of the engine
    removes or overwrites an entry of the dead map. *)
Theorem death_is_final (e e1 : finality.Engine) (nodeID : types.NodeID)
    (b : types.Belief) (rs : list witness.WitnessReport) (f : bool) :
  finality.DeclareDeath e nodeID b rs f = (e1, None) ->
  forall ops : list finality.EngineOp,
    let e2 := finality.run ops e1 in
    finality.IsDead e2 nodeID = true /\
    (forall b' rs' f',
       finality.DeclareDeath e2 nodeID b' rs' f' =
         (e2, Some finality.ErrAlreadyDead)) /\
    finality.dead e2 !! nodeID = finality.dead e1 !! nodeID /\
    (forall (e0 : finality.Engine) (op : finality.EngineOp) k r,
       finality.dead e0 !! k = Some r ->
       finality.dead (finality.applyOp e0 op) !! k = Some r).
Proof.
  intros Hok ops e2.
  pose proof (DeclareDeath_success_records _ _ _ _ _ _ Hok) as Hrec.
  pose proof (run_keeps ops _ _ _ Hrec) as Hrec2. fold e2 in Hrec2.
  repeat split.
  - unfold finality.IsDead. rewrite Hrec2. reflexivity.
  - intros b' rs' f'. unfold finality.DeclareDeath. rewrite Hrec2. reflexivity.
  - rewrite Hrec, Hrec2. reflexivity.
  - intros e0 op k r. apply applyOp_keeps.
Qed.

End Finality.

Lemma death_is_final_witness :
  finality.IsDead
    (finality.run
       [finality.OpAttemptResurrection fixtures.target;
        finality.OpDeclareDeath fixtures.target fixtures.highBelief
          (fixtures.makeWitnesses 5) true;
        finality.OpAllDead]
       (finality.DeclareDeath finality.NewEngine fixtures.target
          fixtures.highBelief (fixtures.makeWitnesses 5) true).1)
    fixtures.target = true.
Proof.
  apply (death_is_final finality.NewEngine _ fixtures.target
           fixtures.highBelief (fixtures.makeWitnesses 5) true).
  vm_compute. reflexivity.
Defined.

(** *** The preconditions of a declaration *)

Lemma Qsum_map_ext {A : Type} (f g : A -> Q) (l : list A) :
  (forall x, f x == g x) -> Qsum (map f l) == Qsum (map g l).
Proof.
  intros Hfg. induction l as [|x l IH]; [reflexivity|].
  cbn [map Qsum]. rewrite IH, Hfg. reflexivity.
Qed.

Lemma fold_left_Qsum {A : Type} (g : A -> Q) (l : list A) :
  forall a, fold_left (fun acc r => acc + g r) l a == a + Qsum (map g l).
Proof.
  induction l as [|x l IH]; intros a; cbn [fold_left map Qsum].
  - ring.
  - rewrite IH. ring.
Qed.

(** With at least two reports [calculateDisagreement] is the variance of
    the reports' dead masses. *)
Lemma calculateDisagreement_variance (rs : list witness.WitnessReport) :
  (2 <= witness.len rs)%Z ->
  finality.calculateDisagreement rs == finality.variance (finality.deadMasses rs).
Proof.
  intros Hlen. unfold finality.calculateDisagreement.
  destruct (Z.ltb_spec (witness.len rs) 2) as [Hlt|_]; [lia|].
  unfold finality.variance, finality.deadMasses.
  rewrite length_map. fold (witness.len rs).
  set (n := inject_Z (witness.len rs)).
  set (dm := fun r => types.Value (types.Dead (witness.Belief r))).
  rewrite map_map.
  pose proof (fold_left_Qsum dm rs 0) as Hsum.
  set (sumDead := fold_left _ rs 0) in *.
  apply Qmult_comp; [|reflexivity].
  etransitivity;
    [exact (fold_left_Qsum
              (fun r => (dm r - sumDead / n) * (dm r - sumDead / n)) rs 0)|].
  rewrite Qplus_0_l. apply Qsum_map_ext. intros r.
  assert (Hm : sumDead / n == Qsum (map dm rs) / n).
  { rewrite Hsum, Qplus_0_l. reflexivity. }
  rewrite Hm. reflexivity.
Qed.

(** The six outcomes of [DeclareDeath], each with the condition under
    which the code reaches it. *)
Lemma DeclareDeath_cases (e : finality.Engine) (nodeID : types.NodeID)
    (b : types.Belief) (rs : list witness.WitnessReport) (f : bool) :
  let res := finality.DeclareDeath e nodeID b rs f in
  let known := finality.dead e !! nodeID in
  let mass := types.Value (types.Dead b) in
  let var := finality.variance (finality.deadMasses rs) in
  (is_Some known /\ res = (e, Some finality.ErrAlreadyDead)) \/
  (known = None /\ mass < 0.85 /\
   res = (e, Some finality.ErrInsufficientEvidence)) \/
  (known = None /\ 0.85 <= mass /\ (witness.len rs < 3)%Z /\
   res = (e, Some finality.ErrInsufficientEvidence)) \/
  (known = None /\ 0.85 <= mass /\ (3 <= witness.len rs)%Z /\ f = false /\
   res = (e, Some finality.ErrSilenceOnly)) \/
  (known = None /\ 0.85 <= mass /\ (3 <= witness.len rs)%Z /\ f = true /\
   0.2 < var /\ res = (e, Some finality.ErrInsufficientEvidence)) \/
  (known = None /\ 0.85 <= mass /\ (3 <= witness.len rs)%Z /\ f = true /\
   var <= 0.2 /\
   res = (finality.mkEngine
            (<[nodeID := finality.mkDeathRecord nodeID b (map witness.Witness rs)
                 "overwhelming evidence from multiple witnesses"]>
               (finality.dead e)), None)).
Proof.
  cbv zeta.
  unfold finality.DeclareDeath, finality.MinDeadConfidence,
    finality.MinWitnesses, finality.MaxDisagreement.
  destruct (finality.dead e !! nodeID) as [r|] eqn:Hk.
  { left. split; [eexists; reflexivity | reflexivity]. }
  right.
  destruct (types.Value (types.Dead b) <? 0.85) eqn:Hm;
    [apply Qltb_true in Hm | apply Qltb_false in Hm].
  { left. auto. }
  right.
  destruct (Z.ltb_spec (witness.len rs) 3) as [Hl|Hl].
  { left. auto. }
  right.
  destruct f; cbn [negb].
  2:{ left. auto. }
  right.
  pose proof (calculateDisagreement_variance rs ltac:(lia)) as Hv.
  destruct (finality.calculateDisagreement rs >? 0.2) eqn:Hd;
    [apply Qltb_true in Hd | apply Qltb_false in Hd].
  - left. repeat split; auto. lra.
  - right. repeat split; auto. lra.
Qed.

(** [C2] Preconditions and atomicity of [DeclareDeath].  A death record is
    created exactly when there is no record for the node, the belief's
    dead mass is at least 0.85, there are at least 3 reports, the
    non-timeout flag is set and the variance of the reports' dead masses
    is at most 0.2.  Otherwise the engine is unchanged and the error is
    [ErrAlreadyDead] for a known node, else [ErrInsufficientEvidence] for
    low dead mass or too few reports, else [ErrSilenceOnly] for a cleared
    flag, else [ErrInsufficientEvidence] for a variance above 0.2. *)
Theorem DeclareDeath_preconditions (e : finality.Engine) (nodeID : types.NodeID)
    (b : types.Belief) (rs : list witness.WitnessReport) (f : bool) :
  let res := finality.DeclareDeath e nodeID b rs f in
  let known := finality.dead e !! nodeID in
  let mass := types.Value (types.Dead b) in
  let var := finality.variance (finality.deadMasses rs) in
  (res = (finality.mkEngine
            (<[nodeID := finality.mkDeathRecord nodeID b (map witness.Witness rs)
                 "overwhelming evidence from multiple witnesses"]>
               (finality.dead e)), None)
   <-> known = None /\ 0.85 <= mass /\ (3 <= witness.len rs)%Z /\
       f = true /\ var <= 0.2) /\
  (res.2 = None \/ res.1 = e) /\
  (is_Some known -> res = (e, Some finality.ErrAlreadyDead)) /\
  (known = None -> mass < 0.85 \/ (witness.len rs < 3)%Z ->
     res = (e, Some finality.ErrInsufficientEvidence)) /\
  (known = None -> 0.85 <= mass -> (3 <= witness.len rs)%Z -> f = false ->
     res = (e, Some finality.ErrSilenceOnly)) /\
  (known = None -> 0.85 <= mass -> (3 <= witness.len rs)%Z -> f = true ->
     0.2 < var -> res = (e, Some finality.ErrInsufficientEvidence)).
Proof.
  pose proof (DeclareDeath_cases e nodeID b rs f) as Hcases.
  cbv zeta in *.
  set (res := finality.DeclareDeath e nodeID b rs f) in *.
  set (known := finality.dead e !! nodeID) in *.
  set (mass := types.Value (types.Dead b)) in *.
  set (var := finality.variance (finality.deadMasses rs)) in *.
  assert (Hknown : forall x, known = Some x -> known = None -> False)
    by (intros; congruence).
  destruct Hcases as
    [ [[x Hx] Hres]
    | [ (Hk & Hm & Hres)
    | [ (Hk & Hm & Hl & Hres)
    | [ (Hk & Hm & Hl & Hf & Hres)
    | [ (Hk & Hm & Hl & Hf & Hv & Hres)
      | (Hk & Hm & Hl & Hf & Hv & Hres) ]]]]];
    rewrite Hres; cbn [fst snd];
    (split; [split; [intros Heq; try discriminate Heq
                    | intros (H1 & H2 & H3 & H4 & H5) ] |]);
    try solve [exfalso; first [ lra | lia | congruence ] ];
    try solve [repeat split; auto].
  all: repeat split; auto; intros;
    try solve [ exfalso; first [ lra | lia | congruence
                               | match goal with H : is_Some _ |- _ =>
                                   destruct H; congruence end
                               | intuition (first [lra | lia]) ] ].
Qed.

Lemma DeclareDeath_preconditions_witness :
  finality.DeclareDeath finality.NewEngine fixtures.target fixtures.highBelief
    (fixtures.makeWitnesses 5) false
  = (finality.NewEngine, Some finality.ErrSilenceOnly).
Proof.
  apply (DeclareDeath_preconditions finality.NewEngine fixtures.target
           fixtures.highBelief (fixtures.makeWitnesses 5) false);
    vm_compute; solve [reflexivity | discriminate].
Defined.

(** ** Partition detector *)

Section Partition.

Lemma votes_cons (s : types.BeliefState) (r : witness.WitnessReport)
    (rs : list witness.WitnessReport) :
  partition.votes s (r :: rs) =
    ((if decide (types.Dominant (witness.Belief r) = s) then 1 else 0)
     + partition.votes s rs)%Z.
Proof.
  unfold partition.votes, witness.len. rewrite filter_cons.
  destruct (decide _); cbn [length]; lia.
Qed.

(** The counting loop computes the three vote counts. *)
Lemma fold_vote (rs : list witness.WitnessReport) :
  forall a d u : Z,
    fold_left partition.vote rs (a, d, u) =
      ((a + partition.votes types.StateAlive rs)%Z,
       (d + partition.votes types.StateDead rs)%Z,
       (u + partition.votes types.StateUnknown rs)%Z).
Proof.
  induction rs as [|r rs IH]; intros a d u.
  - change (partition.votes types.StateAlive []) with 0%Z.
    change (partition.votes types.StateDead []) with 0%Z.
    change (partition.votes types.StateUnknown []) with 0%Z.
    cbn [fold_left]. rewrite !Z.add_0_r. reflexivity.
  - cbn [fold_left]. rewrite !votes_cons. unfold partition.vote at 2.
    destruct (types.Dominant (witness.Belief r)); rewrite IH;
      repeat (destruct (decide _); try congruence);
      repeat match goal with |- (_, _) = (_, _) => f_equal end; lia.
Qed.

Lemma min_is_Zmin (a b : Z) : partition.min a b = Z.min a b.
Proof. unfold partition.min. destruct (Z.ltb_spec a b); lia. Qed.

(** The group-building loop collects, in report order, the witnesses of
    the alive-dominant and of the dead-dominant reports. *)
Lemma fold_assign_witnesses (target : types.NodeID)
    (rs : list witness.WitnessReport) :
  forall ga gd : partition.WitnessGroup,
    let res := fold_left (partition.assign target) rs (ga, gd) in
    partition.Witnesses res.1 =
      partition.Witnesses ga ++
      map witness.Witness
        (filter (fun r => types.Dominant (witness.Belief r) = types.StateAlive) rs) /\
    partition.Witnesses res.2 =
      partition.Witnesses gd ++
      map witness.Witness
        (filter (fun r => types.Dominant (witness.Belief r) = types.StateDead) rs).
Proof.
  induction rs as [|r rs IH]; intros ga gd.
  - cbn. rewrite !app_nil_r. auto.
  - cbn [fold_left]. rewrite !filter_cons. unfold partition.assign at 2 4.
    destruct (types.Dominant (witness.Belief r)) eqn:Hd;
      repeat (destruct (decide _); try congruence);
      destruct (IH
        (match types.Dominant (witness.Belief r) with
         | types.StateAlive =>
           partition.mkWitnessGroup
             (partition.Witnesses ga ++ [witness.Witness r])
             (<[target := witness.Belief r]> (partition.Beliefs ga))
         | _ => ga end)
        (match types.Dominant (witness.Belief r) with
         | types.StateDead =>
           partition.mkWitnessGroup
             (partition.Witnesses gd ++ [witness.Witness r])
             (<[target := witness.Belief r]> (partition.Beliefs gd))
         | _ => gd end)) as [H1 H2];
      rewrite Hd in H1, H2; cbv zeta in H1, H2; rewrite H1, H2;
      cbn [partition.Witnesses map]; rewrite <- ?app_assoc; auto.
Qed.

(** [C7] Classification by [Analyze].  For a detector with its threshold
    of 0.4: fewer than two reports give [NoPartition]; otherwise, with the
    reports counted by dominant state, alive and dead votes both present
    give [ConfirmedPartition] exactly when [min(alive, dead)/total > 0.4]
    and [SuspectedPartition] otherwise; else more than half unknown votes
    give [SuspectedPartition]; else [NoPartition].  The detector stores the
    classification.  A confirmed partition comes with a split reality of
    two witness groups (the alive side, then the dead side), which lists
    the target as ambiguous; no other outcome returns a split. *)
Theorem Analyze_classifies (d : partition.Detector)
    (rs : list witness.WitnessReport) (target : types.NodeID) :
  partition.disagreementThreshold d = 0.4 ->
  let out := partition.Analyze d rs target in
  out.2.1 = partition.classify rs /\
  partition.state out.1 = partition.classify rs /\
  partition.disagreementThreshold out.1 = 0.4 /\
  (partition.classify rs = partition.ConfirmedPartition ->
   exists aliveGroup deadGroup disagreement,
     out.2.2 = Some (partition.mkSplitReality [aliveGroup; deadGroup]
                       disagreement [target]) /\
     partition.lastSplit out.1 = out.2.2 /\
     disagreement ==
       inject_Z (Z.min (partition.votes types.StateAlive rs)
                       (partition.votes types.StateDead rs))
       / inject_Z (witness.len rs) /\
     partition.Witnesses aliveGroup =
       map witness.Witness
         (filter (fun r => types.Dominant (witness.Belief r) = types.StateAlive) rs) /\
     partition.Witnesses deadGroup =
       map witness.Witness
         (filter (fun r => types.Dominant (witness.Belief r) = types.StateDead) rs)) /\
  (partition.classify rs <> partition.ConfirmedPartition ->
   out.2.2 = None /\ partition.lastSplit out.1 = partition.lastSplit d).
Proof.
  intros Hth out. subst out.
  unfold partition.Analyze, partition.classify.
  destruct (witness.len rs <? 2)%Z.
  { cbn. repeat split; auto; intros; discriminate. }
  rewrite fold_vote, min_is_Zmin, Hth. rewrite !Z.add_0_l.
  destruct ((0 <? partition.votes types.StateAlive rs)%Z
            && (0 <? partition.votes types.StateDead rs)%Z).
  - destruct (_ >? 0.4).
    + pose proof (fold_assign_witnesses target rs
                    (partition.mkWitnessGroup [] ∅)
                    (partition.mkWitnessGroup [] ∅)) as [Ha Hd].
      destruct (fold_left (partition.assign target) rs _) as [ga gd].
      cbn [fst snd partition.state partition.disagreementThreshold
           partition.lastSplit partition.Witnesses app] in *.
      do 3 (split; [reflexivity|]). split; [|congruence].
      intros _. exists ga, gd. eexists.
      split; [reflexivity|]. split; [reflexivity|].
      split; [reflexivity|]. split; assumption.
    + cbn. repeat split; auto; intros; discriminate.
  - destruct (_ >? 0.5); cbn; repeat split; auto; intros; discriminate.
Qed.

Lemma Analyze_classifies_witness :
  (partition.Analyze partition.NewDetector
     [witness.mkWitnessReport (types.NewNodeID 1) fixtures.target
        (types.MustBelief 0.9 0.05 0.05) 0;
      witness.mkWitnessReport (types.NewNodeID 2) fixtures.target
        (types.MustBelief 0.05 0.9 0.05) 0;
      witness.mkWitnessReport (types.NewNodeID 3) fixtures.target
        (types.MustBelief 0.9 0.05 0.05) 0;
      witness.mkWitnessReport (types.NewNodeID 4) fixtures.target
        (types.MustBelief 0.05 0.9 0.05) 0]
     fixtures.target).2.1
  = partition.ConfirmedPartition.
Proof.
  etransitivity;
    [apply (Analyze_classifies partition.NewDetector); reflexivity|].
  vm_compute. reflexivity.
Defined.

End Partition.

(** ** Aggregator *)

Section Aggregator.

Variable reg : witness.Registry.
Hypothesis reg_bounded : witness.trust_bounded reg.

Local Abbreviation trust := (witness.trustOf reg).
Local Abbreviation aliveOf := witness.aliveOf.
Local Abbreviation deadOf := witness.deadOf.
Local Abbreviation unknownOf := witness.unknownOf.

(** The weighting loop computes the four trust-weighted sums. *)
Lemma fold_weigh (rs : list witness.WitnessReport) :
  forall t a d u : Q,
    let res := fold_left (witness.weigh reg) rs (t, a, d, u) in
    res.1.1.1 == t + Qsum (map trust rs) /\
    res.1.1.2 == a + Qsum (map (fun r => trust r * aliveOf r) rs) /\
    res.1.2 == d + Qsum (map (fun r => trust r * deadOf r) rs) /\
    res.2 == u + Qsum (map (fun r => trust r * unknownOf r) rs).
Proof.
  induction rs as [|r rs IH]; intros t a d u.
  - cbn. repeat split; ring.
  - cbn [fold_left map Qsum]. unfold witness.weigh at 2 4 6 8.
    destruct (IH (t + witness.GetTrust reg (witness.Witness r))
                 (a + types.Value (types.Alive (witness.Belief r))
                      * witness.GetTrust reg (witness.Witness r))
                 (d + types.Value (types.Dead (witness.Belief r))
                      * witness.GetTrust reg (witness.Witness r))
                 (u + types.Value (types.Unknown (witness.Belief r))
                      * witness.GetTrust reg (witness.Witness r)))
      as (Ht & Ha & Hd & Hu).
    cbv zeta in *. rewrite Ht, Ha, Hd, Hu.
    unfold witness.trustOf, witness.aliveOf, witness.deadOf, witness.unknownOf.
    repeat split; ring.
Qed.

(** Bounds on the sums for valid beliefs: total trust is at least 0.1 per
    report, and the alive and dead sums are non-negative and together at
    most the total trust, up to the tolerance of the belief sum. *)
Lemma weighted_sums_bounds (rs : list witness.WitnessReport) :
  Forall (fun r => types.valid (witness.Belief r)) rs ->
  0.1 * inject_Z (witness.len rs) <= Qsum (map trust rs) /\
  0 <= Qsum (map (fun r => trust r * aliveOf r) rs) /\
  0 <= Qsum (map (fun r => trust r * deadOf r) rs) /\
  Qsum (map (fun r => trust r * aliveOf r) rs)
  + Qsum (map (fun r => trust r * deadOf r) rs)
  <= (1 + types.BeliefSumEpsilon) * Qsum (map trust rs).
Proof.
  unfold types.BeliefSumEpsilon.
  induction 1 as [|r rs Hv _ IH].
  - change (inject_Z (witness.len [])) with 0. cbn [map Qsum].
    repeat split; lra.
  - destruct IH as (Ht & Ha & Hd & Hs).
    pose proof (GetTrust_bounded reg (witness.Witness r) reg_bounded) as Hr.
    change (witness.GetTrust reg (witness.Witness r)) with (trust r) in Hr.
    destruct Hv as (Hva & Hvd & Hvu & Hsum).
    apply Qabs_Qle_condition in Hsum. unfold types.BeliefSumEpsilon in Hsum.
    change (types.Value (types.alive (witness.Belief r))) with (aliveOf r) in *.
    change (types.Value (types.dead (witness.Belief r))) with (deadOf r) in *.
    cbn [map Qsum]. unfold witness.len in *. cbn [length].
    rewrite Nat2Z.inj_succ. unfold Z.succ. rewrite inject_Z_plus.
    change (inject_Z 1) with 1.
    assert (Hle : aliveOf r + deadOf r <= 1 + (1 # 1000000000)) by lra.
    clear Hsum Hvu.
    generalize dependent (aliveOf r). generalize dependent (deadOf r).
    generalize dependent (trust r). intros t Ht0 dd Hdd aa Haa Hle.
    repeat split; nra.
Qed.

Lemma Qsqrt_nonneg (x : Q) : 0 <= Qsqrt x.
Proof.
  unfold Qsqrt, Qle. cbn [Qnum Qden]. rewrite Z.mul_1_r.
  change (0 * _)%Z with 0%Z. apply Z.sqrt_nonneg.
Qed.

Lemma calculateDisagreement_range (rs : list witness.WitnessReport)
    (avgAlive avgDead : Q) :
  0 <= witness.calculateDisagreement rs avgAlive avgDead <= 1.
Proof.
  unfold witness.calculateDisagreement.
  destruct (witness.len rs <? 2)%Z; [lra|].
  split.
  - apply Q.min_glb; [apply Qsqrt_nonneg | lra].
  - apply Qle_trans with (y := 1.0); [apply Q.le_min_r | lra].
Qed.

(** The correlation score is [1 - min(2 * meanAbsDiffFromFirst, 1)]. *)
Lemma detectCorrelation_spec (rs : list witness.WitnessReport) :
  (2 <= witness.len rs)%Z ->
  witness.detectCorrelation rs ==
    1 - Qmin (2 * witness.meanAbsDiffFromFirst rs) 1.
Proof.
  intros Hlen. unfold witness.len in Hlen.
  destruct rs as [|r0 [|r1 rest]];
    [cbn [length] in Hlen; lia | cbn [length] in Hlen; lia |].
  unfold witness.detectCorrelation, witness.meanAbsDiffFromFirst.
  set (diff := fun r : witness.WitnessReport =>
         Qabs (types.Value (types.Alive (witness.Belief r0))
               - types.Value (types.Alive (witness.Belief r)))
         + Qabs (types.Value (types.Dead (witness.Belief r0))
                 - types.Value (types.Dead (witness.Belief r)))).
  assert (Hfold :
    fold_left (fun totalDiff r => totalDiff + diff r) (r1 :: rest) 0
    == Qsum (map diff (r1 :: rest))).
  { rewrite fold_left_Qsum. ring. }
  assert (Hn : inject_Z (witness.len (r0 :: r1 :: rest) - 1)
               = inject_Z (Z.of_nat (length (r1 :: rest)))).
  { f_equal. unfold witness.len. cbn [length]. lia. }
  rewrite Hn.
  change (fold_left _ (r1 :: rest) 0)
    with (fold_left (fun totalDiff r => totalDiff + diff r) (r1 :: rest) 0).
  rewrite Hfold.
  assert (Hc : Qsum (map diff (r1 :: rest))
               / inject_Z (Z.of_nat (length (r1 :: rest))) * 2
               == 2 * (Qsum (map diff (r1 :: rest))
                       / inject_Z (Z.of_nat (length (r1 :: rest))))) by ring.
  rewrite Hc. assert (H1 : 1.0 == 1) by reflexivity.
  rewrite H1. reflexivity.
Qed.

(** Under the correlation penalty the aggregate belief is the weighted
    average scaled by 0.7 and by the disagreement widening. *)
Lemma Aggregate_correlated (rs : list witness.WitnessReport) :
  Forall (fun r => types.valid (witness.Belief r)) rs ->
  (2 <= witness.len rs)%Z ->
  0.9 < witness.detectCorrelation rs ->
  let res := witness.Aggregate reg rs in
  let b := witness.ResultBelief res in
  let widen :=
    if witness.Disagreement res >? 0.3
    then 1 - witness.Disagreement res * 0.5 else 1 in
  types.Value (types.Alive b) ==
    witness.weightedAverage reg witness.aliveOf rs
    * 0.7 * widen /\
  types.Value (types.Dead b) ==
    witness.weightedAverage reg witness.deadOf rs
    * 0.7 * widen /\
  types.Value (types.Unknown b) ==
    1 - types.Value (types.Alive b) - types.Value (types.Dead b) /\
  0.05 <= types.Value (types.Unknown b).
Proof.
  intros Hvalid Hlen Hcorr.
  pose proof (weighted_sums_bounds rs Hvalid) as (HTn & HA0 & HD0 & HAD).
  pose proof (fold_weigh rs 0 0 0 0) as Hfold. cbv zeta in Hfold.
  assert (Hn : 2 <= inject_Z (witness.len rs))
    by (rewrite <- (Zle_Qle 2); exact Hlen).
  unfold witness.weightedAverage.
  set (ST := Qsum (map trust rs)) in *.
  set (SA := Qsum (map (fun r => trust r * aliveOf r) rs)) in *.
  set (SD := Qsum (map (fun r => trust r * deadOf r) rs)) in *.
  unfold witness.len in Hlen.
  destruct rs as [|r0 [|r1 rest]];
    [cbn [length] in Hlen; lia | cbn [length] in Hlen; lia |].
  unfold witness.Aggregate.
  set (rs := r0 :: r1 :: rest) in *.
  destruct (fold_left (witness.weigh reg) rs (0, 0, 0, 0)) as [[[T A] D] U].
  cbn [fst snd] in Hfold. destruct Hfold as (HT & HA & HD & _).
  assert (HT' : T == ST) by lra. assert (HA' : A == SA) by lra.
  assert (HD' : D == SD) by lra.
  assert (HTpos : 0.2 <= T) by lra.
  destruct (T <? 0.001) eqn:Hsmall; [apply Qltb_true in Hsmall; lra|].
  cbv zeta. rewrite (proj2 (Qltb_true _ _) Hcorr).
  set (avgAlive := A / T). set (avgDead := D / T).
  assert (HavgA : avgAlive == SA / ST) by (unfold avgAlive; rewrite HA', HT'; reflexivity).
  assert (HavgD : avgDead == SD / ST) by (unfold avgDead; rewrite HD', HT'; reflexivity).
  assert (HmA : avgAlive * T == A) by (unfold avgAlive; field; lra).
  assert (HmD : avgDead * T == D) by (unfold avgDead; field; lra).
  assert (HbA : 0 <= avgAlive) by (unfold avgAlive; apply Qle_shift_div_l; lra).
  assert (HbD : 0 <= avgDead) by (unfold avgDead; apply Qle_shift_div_l; lra).
  unfold types.BeliefSumEpsilon in HAD.
  assert (HbS : avgAlive + avgDead <= 1 + (1 # 1000000000)) by nra.
  pose proof (calculateDisagreement_range rs avgAlive avgDead) as Hdis.
  set (dis := witness.calculateDisagreement rs avgAlive avgDead) in *.
  rewrite <- HavgA, <- HavgD.
  destruct (dis >? 0.3) eqn:Hw; cbv beta iota zeta.
  - assert (Hu : 0.05 <= 1.0 - avgAlive * 0.7 * (1 - dis * 0.5)
                            - avgDead * 0.7 * (1 - dis * 0.5)) by nra.
    destruct (_ <? 0.05) eqn:Hf; [apply Qltb_true in Hf; lra|].
    rewrite NewBelief_exact; [| nra | nra | nra | ring].
    cbn [witness.ResultBelief witness.Disagreement types.Alive types.Dead
         types.Unknown types.alive types.dead types.unknown types.Value
         types.value].
    rewrite Hw. repeat split; try ring. exact Hu.
  - assert (Hu : 0.05 <= 1.0 - avgAlive * 0.7 - avgDead * 0.7) by nra.
    destruct (_ <? 0.05) eqn:Hf; [apply Qltb_true in Hf; lra|].
    rewrite NewBelief_exact; [| nra | nra | nra | ring].
    cbn [witness.ResultBelief witness.Disagreement types.Alive types.Dead
         types.Unknown types.alive types.dead types.unknown types.Value
         types.value].
    rewrite Hw. repeat split; try ring. exact Hu.
Qed.

End Aggregator.

(** [C8] Correlation penalty.  For at least two reports of valid beliefs
    and a registry with bounded trust, the correlation score is
    [1 - min(2 * meanAbsDiffFromFirst, 1)]; when it exceeds 0.9 the
    trust-weighted averages of alive and dead are multiplied by 0.7 (and
    by the disagreement widening, when that applies too) and unknown is
    [1 - alive - dead].  Consequently ten identical reports of
    (0.95, 0.03, 0.02) are answered with alive mass 0.665, below 0.85. *)
Theorem correlation_penalty :
  (forall (reg : witness.Registry) (rs : list witness.WitnessReport),
     witness.trust_bounded reg ->
     Forall (fun r => types.valid (witness.Belief r)) rs ->
     (2 <= witness.len rs)%Z ->
     witness.detectCorrelation rs ==
       1 - Qmin (2 * witness.meanAbsDiffFromFirst rs) 1 /\
     (0.9 < witness.detectCorrelation rs ->
      let res := witness.Aggregate reg rs in
      let b := witness.ResultBelief res in
      let widen :=
        if witness.Disagreement res >? 0.3
        then 1 - witness.Disagreement res * 0.5 else 1 in
      types.Value (types.Alive b) ==
        witness.weightedAverage reg witness.aliveOf rs
        * 0.7 * widen /\
      types.Value (types.Dead b) ==
        witness.weightedAverage reg witness.deadOf rs
        * 0.7 * widen /\
      types.Value (types.Unknown b) ==
        1 - types.Value (types.Alive b) - types.Value (types.Dead b))) /\
  (let res := (oracle.Query fixtures.correlatedOracle fixtures.target).2 in
   oracle.WitnessCount res = 10%Z /\
   oracle.Refused res = false /\
   types.Value (types.Alive (oracle.Belief res)) == 0.95 * 0.7 /\
   types.Value (types.Dead (oracle.Belief res)) == 0.03 * 0.7 /\
   types.Value (types.Alive (oracle.Belief res)) <= 0.85).
Proof.
  split.
  - intros reg rs Hreg Hvalid Hlen. split.
    + apply detectCorrelation_spec, Hlen.
    + intros Hcorr.
      pose proof (Aggregate_correlated reg Hreg rs Hvalid Hlen Hcorr) as H.
      cbv zeta in *. tauto.
  - vm_compute. repeat split; intros; discriminate.
Qed.

Lemma correlation_penalty_witness :
  witness.detectCorrelation (fixtures.makeWitnesses 3) ==
    1 - Qmin (2 * witness.meanAbsDiffFromFirst (fixtures.makeWitnesses 3)) 1.
Proof.
  apply (proj1 correlation_penalty witness.NewRegistry (fixtures.makeWitnesses 3)).
  - apply NewRegistry_bounded.
  - repeat constructor; vm_compute; discriminate.
  - vm_compute. discriminate.
Defined.

(** ** Oracle *)

(** [C3] at a failing input.  One witness reports (0.5, 0.2, 0.3) and the
    query requires [MinAlive = 0.7], [MinDead = 0], [MaxUnknown = 1].  The
    dominant state is alive with mass 0.5, positive and below 0.7, yet the
    oracle does not refuse: it answers with the aggregated belief. *)
Theorem QueryWithRequirement_ignores_MinAlive :
  let o := oracle.ReceiveReport (oracle.New (types.NewNodeID 1))
             (types.NewNodeID 10) fixtures.target
             (types.MustBelief 0.5 0.2 0.3) in
  let req := oracle.mkRequiredConfidence 0.7 0.0 1.0 in
  let res := (oracle.QueryWithRequirement o fixtures.target req).2 in
  types.Dominant (oracle.Belief res) = types.StateAlive /\
  0 < types.Value (types.Alive (oracle.Belief res)) /\
  types.Value (types.Alive (oracle.Belief res)) < oracle.MinAlive req /\
  oracle.Refused res = false /\
  oracle.RefusalReason res = ""%string /\
  oracle.Evidence res = ["aggregated 1 witness reports"%string].
Proof. vm_compute. repeat split. Qed.

(** * Further properties *)

(** ** Identities *)

(** [X1] Rebirth gives a new identity.  For a node id with a 64-bit
    generation, the reborn id keeps the base and is never [Equal] to the
    original; it is recognised as a rebirth of the original exactly when
    the generation counter did not wrap, and at the largest generation
    the counter wraps to 0.  [Equal] decides equality of ids. *)
Theorem Rebirth_new_identity (n : types.NodeID) :
  uint64 (types.Generation n) ->
  types.Base (types.Rebirth n) = types.Base n /\
  types.EqualNodeID n (types.Rebirth n) = false /\
  (types.IsRebirthOf (types.Rebirth n) n = true <->
   (types.Generation n < maxUint64)%Z) /\
  ((types.Generation n < maxUint64)%Z ->
   types.Generation (types.Rebirth n) = (types.Generation n + 1)%Z) /\
  (types.Generation n = maxUint64 ->
   types.Generation (types.Rebirth n) = 0%Z) /\
  (forall m : types.NodeID, types.EqualNodeID n m = true <-> n = m).
Proof.
  unfold uint64, maxUint64. intros Hg. destruct n as [b g]. cbn in Hg.
  unfold types.Rebirth, types.EqualNodeID, types.IsRebirthOf, wrap64.
  cbn [types.Base types.Generation].
  change (2 ^ 64)%Z with 18446744073709551616%Z in *.
  set (M := 18446744073709551616%Z) in *.
  assert (HM : M = 18446744073709551616%Z) by reflexivity.
  assert (Hcases : (g < M - 1 /\ (g + 1) mod M = g + 1 \/
                    g = M - 1 /\ (g + 1) mod M = 0)%Z).
  { destruct (Z.eq_dec g (M - 1)%Z) as [->|Hne].
    - right. split; reflexivity.
    - left. split; [lia|]. apply Z.mod_small. lia. }
  rewrite Z.eqb_refl. cbn [andb].
  repeat split.
  - destruct Hcases as [[? Hm]|[? Hm]]; rewrite Hm; apply Z.eqb_neq; lia.
  - intros H. apply Z.ltb_lt in H. destruct Hcases as [[? _]|[? Hm]]; [lia|].
    rewrite Hm in H. lia.
  - intros H. apply Z.ltb_lt. destruct Hcases as [[_ Hm]|[? _]]; [|lia].
    rewrite Hm. lia.
  - intros H. destruct Hcases as [[_ Hm]|[? _]]; [exact Hm | lia].
  - intros H. destruct Hcases as [[? _]|[_ Hm]]; [lia | exact Hm].
  - intros H. destruct m as [b' g']. cbn in H.
    apply andb_true_iff in H. destruct H as [H1 H2].
    apply Z.eqb_eq in H1, H2. congruence.
  - intros <-. cbn. rewrite !Z.eqb_refl. reflexivity.
Qed.

Lemma Rebirth_new_identity_witness :
  types.EqualNodeID (types.NewNodeID 42) (types.Rebirth (types.NewNodeID 42))
  = false.
Proof.
  apply (Rebirth_new_identity (types.NewNodeID 42)). vm_compute.
  split; discriminate.
Defined.

(** ** Logical time *)

(** [X2] Lamport update.  For 64-bit timestamps, [Update] yields
    [max(local, received) + 1], which is after both, unless the larger of
    the two is the largest timestamp: then the clock wraps to 0.
    [Increment] advances by one under the same condition. *)
Theorem Update_lamport (t received : Z) :
  uint64 t -> uint64 received ->
  ((Z.max t received < maxUint64)%Z ->
   styxtime.Update t received = (Z.max t received + 1)%Z /\
   styxtime.IsBefore t (styxtime.Update t received) = true /\
   styxtime.IsBefore received (styxtime.Update t received) = true) /\
  (Z.max t received = maxUint64 -> styxtime.Update t received = 0%Z) /\
  ((t < maxUint64)%Z -> styxtime.Increment t = (t + 1)%Z) /\
  uint64 (styxtime.Update t received).
Proof.
  unfold uint64, maxUint64, styxtime.Update, styxtime.Increment,
    styxtime.IsBefore, wrap64.
  change (2 ^ 64)%Z with 18446744073709551616%Z.
  intros Ht Hr.
  assert (Hm : (if (t <? received)%Z then received else t) = Z.max t received).
  { destruct (Z.ltb_spec t received); lia. }
  rewrite Hm. repeat split.
  - rewrite Z.mod_small by lia. reflexivity.
  - rewrite Z.mod_small by lia. apply Z.ltb_lt. lia.
  - rewrite Z.mod_small by lia. apply Z.ltb_lt. lia.
  - intros ->. reflexivity.
  - intros H. apply Z.mod_small. lia.
  - apply Z.mod_pos_bound. lia.
  - pose proof (Z.mod_pos_bound (Z.max t received + 1) 18446744073709551616
                  ltac:(lia)). lia.
Qed.

Lemma Update_lamport_witness : styxtime.Update 5 10 = 11%Z.
Proof.
  apply (Update_lamport 5 10); vm_compute; try split; try discriminate;
    reflexivity.
Defined.

(** ** Confidences and beliefs *)

(** [X3] Clamping and checked construction.  [ClampedConfidence] always
    yields a value within [0, 1]: it is 0 for NaN and below the range, 1
    above it, and otherwise the value itself, which is then exactly what
    [NewConfidence] accepts.  [NewConfidence] rejects NaN and the values
    below 0 and above 1, each with its own error, and whatever it accepts
    is what [ClampedConfidence] returns. *)
Theorem ClampedConfidence_agrees (v : Q) :
  0 <= types.Value (types.ClampedConfidence (Num v)) <= 1 /\
  (v < 0 ->
   types.ClampedConfidence (Num v) = types.ConfidenceZero /\
   types.NewConfidence (Num v) = Err types.ErrConfidenceBelowMinimum) /\
  (1 < v ->
   types.ClampedConfidence (Num v) = types.ConfidenceOne /\
   types.NewConfidence (Num v) = Err types.ErrConfidenceAboveMaximum) /\
  (0 <= v <= 1 ->
   types.NewConfidence (Num v) = Ok (types.ClampedConfidence (Num v)) /\
   types.Value (types.ClampedConfidence (Num v)) = v) /\
  (types.ClampedConfidence NaN = types.ConfidenceZero /\
   types.NewConfidence NaN = Err types.ErrConfidenceNaN) /\
  (forall (value : float64) (c : types.Confidence),
     types.NewConfidence value = Ok c -> c = types.ClampedConfidence value).
Proof.
  unfold types.ClampedConfidence, types.NewConfidence, types.ConfidenceZero,
    types.ConfidenceOne.
  split; [|split; [|split; [|split; [|split]]]].
  1-4: case_Qltb; cbn [types.Value types.value]; repeat split; intros;
    solve [lra | reflexivity | exfalso; lra].
  - split; reflexivity.
  - intros [|x] c; [discriminate|].
    case_Qltb; intros H; inversion H; reflexivity.
Qed.

Lemma Qabs_lt_iff (x e : Q) : Qabs x < e <-> - e < x /\ x < e.
Proof.
  split.
  - apply (Qabs_case x (fun a => a < e -> - e < x /\ x < e)); intros; split; lra.
  - intros [H1 H2]. apply Qabs_case; intros; lra.
Qed.

(** [X4] Comparison with tolerance.  Of [Less a b], [Equal a b] and
    [Less b a] exactly one holds; [Equal] is symmetric and [Less a b]
    implies that [a] is the smaller value.  Values that differ by at most
    0.99e-10 are [Equal]; values that differ by at least 1.01e-10 are
    not, and then [Less a b] holds exactly when [a] is the smaller.  The
    band of one percent around the tolerance 1e-10 is left open: there
    the rounding of the difference decides. *)
Theorem Confidence_trichotomy (a b : types.Confidence) :
  ((types.Less a b = true /\ types.EqualConfidence a b = false /\
    types.Less b a = false) \/
   (types.Less a b = false /\ types.EqualConfidence a b = true /\
    types.Less b a = false) \/
   (types.Less a b = false /\ types.EqualConfidence a b = false /\
    types.Less b a = true)) /\
  types.EqualConfidence a b = types.EqualConfidence b a /\
  (types.Less a b = true -> types.Value a < types.Value b) /\
  (Qabs (types.Value a - types.Value b) <= (99 # 100) * types.ConfidenceEpsilon ->
   types.EqualConfidence a b = true) /\
  ((101 # 100) * types.ConfidenceEpsilon <= Qabs (types.Value a - types.Value b) ->
   types.EqualConfidence a b = false /\
   (types.Less a b = true <-> types.Value a < types.Value b)).
Proof.
  unfold types.ConfidenceEpsilon, types.Value.
  set (e := 1 # 10000000000). set (x := types.value a - types.value b).
  assert (He : 0 < e) by (unfold e; lra).
  assert (HE1 : types.EqualConfidence a b = true <-> - e < x /\ x < e).
  { unfold types.EqualConfidence, types.ConfidenceEpsilon. fold e x.
    rewrite Qltb_true. apply Qabs_lt_iff. }
  assert (HE2 : types.EqualConfidence b a = true <-> - e < x /\ x < e).
  { unfold types.EqualConfidence, types.ConfidenceEpsilon. fold e.
    rewrite Qltb_true, Qabs_lt_iff. unfold x. split; intros [? ?]; split; lra. }
  assert (HL1 : types.Less a b = true <-> x <= - e).
  { unfold types.Less. case_eq (types.EqualConfidence a b); intros E.
    - apply HE1 in E. split; [discriminate | lra].
    - rewrite Qltb_true. split; intros H.
      + destruct (Qlt_le_dec (- e) x) as [Hx|Hx]; [|exact Hx].
        assert (Ht : types.EqualConfidence a b = true)
          by (apply HE1; unfold x in *; lra).
        congruence.
      + unfold x in H. lra. }
  assert (HL2 : types.Less b a = true <-> e <= x).
  { unfold types.Less. case_eq (types.EqualConfidence b a); intros E.
    - apply HE2 in E. split; [discriminate | lra].
    - rewrite Qltb_true. split; intros H.
      + destruct (Qlt_le_dec x e) as [Hx|Hx]; [|exact Hx].
        assert (Ht : types.EqualConfidence b a = true)
          by (apply HE2; unfold x in *; lra).
        congruence.
      + unfold x in H. lra. }
  assert (Hcase : x <= - e \/ (- e < x /\ x < e) \/ e <= x).
  { destruct (Qlt_le_dec (- e) x); [|tauto].
    destruct (Qlt_le_dec x e); tauto. }
  assert (Hnear : Qabs x <= (99 # 100) * e -> - e < x /\ x < e).
  { intros H. apply Qabs_lt_iff. lra. }
  assert (Hfar : (101 # 100) * e <= Qabs x -> ~ (- e < x /\ x < e)).
  { intros H Hx. apply Qabs_lt_iff in Hx. lra. }
  assert (Hless : types.Less a b = true -> types.value a < types.value b).
  { intros H. apply HL1 in H. unfold x in H. lra. }
  assert (Hlessfar : (101 # 100) * e <= Qabs x ->
            (types.Less a b = true <-> types.value a < types.value b)).
  { intros H. split; [exact Hless|]. intros Hlt. apply HL1.
    destruct Hcase as [Hc|[Hc|Hc]]; [exact Hc | | unfold x in Hc; lra].
    exfalso. apply (Hfar H), Hc. }
  destruct (types.Less a b) eqn:L1; destruct (types.EqualConfidence a b) eqn:E1;
    destruct (types.Less b a) eqn:L2; destruct (types.EqualConfidence b a) eqn:E2;
    repeat match goal with
    | H : true = true <-> _ |- _ => destruct H as [H _]; specialize (H eq_refl)
    | H : false = true <-> _ |- _ =>
      destruct H as [_ H];
      assert (~ _) by (intros Hc; specialize (H Hc); discriminate); clear H
    end;
    try solve [exfalso; destruct Hcase as [?|[?|?]]; tauto || lra];
    (split; [tauto|]); (split; [reflexivity|]); (split; [exact Hless|]);
    (split; [intros Hn; first [reflexivity | exfalso; specialize (Hnear Hn); tauto]|]);
    (intros Hf; split; [first [reflexivity | exfalso; apply (Hfar Hf); tauto]
                       | apply Hlessfar, Hf]).
Qed.


(** [X6] Dominant states of valid beliefs.  When a valid belief has a
    dominant state, that state's mass is the strictly largest of the three
    and exceeds 0.4 (up to the sum tolerance); a certain belief (mass at
    least 0.95) is dominant in its state, so a belief is never certain of
    both alive and dead. *)
Theorem Dominant_of_valid (b : types.Belief) :
  types.valid b ->
  (types.Dominant b = types.StateAlive ->
   types.Value (types.Dead b) < types.Value (types.Alive b) /\
   types.Value (types.Unknown b) < types.Value (types.Alive b) /\
   0.4 - types.BeliefSumEpsilon < types.Value (types.Alive b)) /\
  (types.Dominant b = types.StateDead ->
   types.Value (types.Alive b) < types.Value (types.Dead b) /\
   types.Value (types.Unknown b) < types.Value (types.Dead b) /\
   0.4 - types.BeliefSumEpsilon < types.Value (types.Dead b)) /\
  (types.IsCertainAlive b = true -> types.Dominant b = types.StateAlive) /\
  (types.IsCertainDead b = true -> types.Dominant b = types.StateDead) /\
  (types.IsCertainAlive b && types.IsCertainDead b = false).
Proof.
  intros (Ha & Hd & Hu & Hs). apply Qabs_Qle_condition in Hs.
  unfold types.Dominant, types.IsCertainAlive, types.IsCertainDead,
    types.CertaintyThreshold, types.DominantMargin, types.BeliefSumEpsilon,
    types.Alive, types.Dead, types.Unknown in *.
  set (x := types.Value (types.alive b)) in *.
  set (y := types.Value (types.dead b)) in *.
  set (z := types.Value (types.unknown b)) in *.
  case_Qltb; cbn [andb negb]; repeat split; intros;
    solve [lra | reflexivity | discriminate | exfalso; lra].
Qed.

Lemma Dominant_of_valid_witness :
  types.Dominant (types.MustBelief 0.96 0.02 0.02) = types.StateAlive.
Proof.
  apply (Dominant_of_valid (types.MustBelief 0.96 0.02 0.02)).
  - vm_compute. repeat split; discriminate.
  - reflexivity.
Defined.

(** ** Evidence sets *)

Lemma UnknownBelief_valid : types.valid types.UnknownBelief.
Proof. vm_compute. repeat split; discriminate. Qed.

(** [X7] Computed beliefs are valid.  For every evidence set, whatever its
    records and weights, and every logical time, the belief
    [ComputeBelief] returns has its three masses within [0, 1] and summing
    to 1 within 1e-9 (for a half-life of 0 see the note on the numeric
    model). *)
Theorem ComputeBelief_valid (es : evidence.EvidenceSet)
    (now : styxtime.LogicalTimestamp) :
  types.valid (evidence.ComputeBelief es now).
Proof.
  unfold evidence.ComputeBelief.
  destruct (evidence.IsEmpty es); [apply UnknownBelief_valid|].
  destruct (fold_left _ _ _) as [[aliveWeight deadWeight] totalWeight].
  destruct (totalWeight <? _); [apply UnknownBelief_valid|].
  match goal with
  | |- context [if ?c then _ else _] => destruct c
  end;
    (destruct (types.NewBelief _ _ _) as [b|] eqn:Hb;
     [exact (NewBelief_valid _ _ _ _ Hb) | apply UnknownBelief_valid]).
Qed.

(** [X8] Evidence never gives certainty.  For an evidence set whose
    weights are non-negative, and every logical time, the computed belief
    has alive mass and dead mass at most 0.90 and unknown mass at least
    0.10: with such weights the 0.05 floor is never reached. *)
Theorem ComputeBelief_never_certain (es : evidence.EvidenceSet)
    (now : styxtime.LogicalTimestamp) :
  Forall (fun e => 0 <= evidence.Weight e) (evidence.evidence es) ->
  types.Value (types.Alive (evidence.ComputeBelief es now)) <= 0.90 /\
  types.Value (types.Dead (evidence.ComputeBelief es now)) <= 0.90 /\
  0.10 <= types.Value (types.Unknown (evidence.ComputeBelief es now)).
Proof.
  intros Hall. unfold evidence.ComputeBelief.
  destruct (evidence.IsEmpty es); [cbn; repeat split; lra|].
  pose proof (accumulate_nonneg now (evidence.halfLife es) _ Hall 0 0 0
                ltac:(lra) ltac:(lra) ltac:(lra)) as Hacc. cbv zeta in Hacc.
  destruct (fold_left _ _ _) as [[a d] t]. cbn [fst snd] in Hacc.
  destruct Hacc as (Ha & Hd & Hadt).
  destruct (t <? _) eqn:Ht; [cbn; repeat split; lra|]. apply Qltb_false in Ht.
  assert (Htpos : 0 < t) by lra.
  set (maxCertainty := Qmin (t / (t + 1.0)) 0.90).
  assert (Hmax : 0 <= maxCertainty <= 0.90).
  { unfold maxCertainty. split; [|apply Q.le_min_r].
    apply Q.min_glb; [|lra]. apply Qle_shift_div_l; lra. }
  set (conflictFactor := if (a >? 0) && (d >? 0) then _ else _).
  assert (Hcf : 0 <= conflictFactor <= 1).
  { unfold conflictFactor.
    destruct (a >? 0) eqn:Hap; [apply Qltb_true in Hap | cbn [andb]; lra].
    destruct (d >? 0) eqn:Hdp; [apply Qltb_true in Hdp | cbn [andb]; lra].
    cbn [andb].
    assert (Hmx : 0 < Qmax a d).
    { apply Qlt_le_trans with (y := a); [exact Hap | apply Q.le_max_l]. }
    assert (Hmn : 0 <= Qmin a d) by (apply Q.min_glb; lra).
    assert (Hle : Qmin a d <= Qmax a d).
    { apply Qle_trans with (y := a); [apply Q.le_min_l | apply Q.le_max_l]. }
    assert (Hb0 : 0 <= Qmin a d / Qmax a d) by (apply Qle_shift_div_l; lra).
    assert (Hb1 : Qmin a d / Qmax a d <= 1) by (apply Qle_shift_div_r; lra).
    lra. }
  assert (Hra : 0 <= a / t) by (apply Qle_shift_div_l; lra).
  assert (Hrd : 0 <= d / t) by (apply Qle_shift_div_l; lra).
  assert (Hrs : a / t + d / t <= 1).
  { assert (E : a / t + d / t == (a + d) / t) by (field; lra).
    rewrite E. apply Qle_shift_div_r; lra. }
  set (ra := a / t) in *. set (rd := d / t) in *.
  assert (Hm : 0 <= maxCertainty * conflictFactor <= 0.90) by nra.
  assert (HA : ra * maxCertainty * conflictFactor
               == ra * (maxCertainty * conflictFactor)) by ring.
  assert (HD : rd * maxCertainty * conflictFactor
               == rd * (maxCertainty * conflictFactor)) by ring.
  set (m := maxCertainty * conflictFactor) in *.
  assert (Ha1 : 0 <= ra * m) by nra. assert (Hd1 : 0 <= rd * m) by nra.
  assert (Hs1 : ra * m + rd * m <= 0.90) by nra.
  set (aliveConf := ra * maxCertainty * conflictFactor) in *.
  set (deadConf := rd * maxCertainty * conflictFactor) in *.
  destruct (1.0 - aliveConf - deadConf <? 0.05) eqn:Hfloor.
  { apply Qltb_true in Hfloor. lra. }
  destruct (types.NewBelief _ _ _) as [b|] eqn:Hb; [|cbn; repeat split; lra].
  apply NewBelief_Ok in Hb. destruct Hb as [-> _]. cbn. repeat split; lra.
Qed.

Lemma ComputeBelief_never_certain_witness :
  types.Value (types.Alive (evidence.ComputeBelief
    (evidence.Add (evidence.Add evidence.NewEvidenceSet
       (evidence.NewDirectResponse 1 50 (types.NewNodeID 1) (types.NewNodeID 2)))
       (evidence.NewCausalEvent 2 7 (types.NewNodeID 1) (types.NewNodeID 2))) 2))
  <= 0.90.
Proof.
  refine (proj1 (ComputeBelief_never_certain _ 2 _)).
  repeat constructor; vm_compute; discriminate.
Defined.

(** ** Observer state *)

Lemma fold_left_snoc {A B : Type} (f : A -> B -> A) (l : list B) (x : B) (a : A) :
  fold_left f (l ++ [x]) a = f (fold_left f l a) x.
Proof. rewrite fold_left_app. reflexivity. Qed.

(** The appending loops are filters. *)
Lemma fold_left_collect {A B : Type} (keep : A -> bool) (f : A -> B)
    (l : list A) :
  forall acc : list B,
    fold_left (fun acc x => if keep x then acc ++ [f x] else acc) l acc
    = acc ++ map f (List.filter keep l).
Proof.
  induction l as [|x l IH]; intros acc; cbn [fold_left List.filter map].
  - rewrite app_nil_r. reflexivity.
  - rewrite IH. destruct (keep x); cbn [map]; [rewrite <- app_assoc|]; reflexivity.
Qed.

(** [X9] A local belief follows its evidence.  After recording any list of
    evidence on a new local belief, the evidence set holds exactly these
    records in order, [lastUpdated] is the latest timestamp of the set,
    the stored belief is the one the set computes at that time, and the
    reasoning counts add up: alive and dead evidence together never exceed
    the evidence count. *)
Theorem recordAll_follows_evidence (target : types.NodeID)
    (es : list evidence.Evidence) :
  let lb := state.recordAll (state.NewLocalBelief target) es in
  state.target lb = target /\
  evidence.evidence (state.evidenceSet lb) = es /\
  state.lastUpdated lb = evidence.LatestTimestamp (state.evidenceSet lb) /\
  state.belief lb = evidence.ComputeBeliefNow (state.evidenceSet lb) /\
  state.EvidenceCount (state.Reasoning lb) = Z.of_nat (length es) /\
  (state.AliveEvidenceCount (state.Reasoning lb)
   + state.DeadEvidenceCount (state.Reasoning lb)
   <= state.EvidenceCount (state.Reasoning lb))%Z.
Proof.
  cbv zeta.
  assert (Hinv :
    state.target (state.recordAll (state.NewLocalBelief target) es) = target /\
    state.evidenceSet (state.recordAll (state.NewLocalBelief target) es)
      = evidence.mkEvidenceSet es evidence.DefaultHalfLife /\
    state.lastUpdated (state.recordAll (state.NewLocalBelief target) es)
      = fold_left evidence.latest es 0%Z /\
    state.belief (state.recordAll (state.NewLocalBelief target) es)
      = evidence.ComputeBelief
          (evidence.mkEvidenceSet es evidence.DefaultHalfLife)
          (fold_left evidence.latest es 0%Z)).
  { induction es as [|e es IH] using rev_ind.
    - cbn. repeat split; reflexivity.
    - unfold state.recordAll in *. rewrite !fold_left_snoc.
      destruct IH as (Ht & Hes & Hl & Hb).
      unfold state.RecordEvidence at 1 3 5 7.
      cbn [fst state.target state.evidenceSet state.lastUpdated state.belief].
      rewrite Ht, Hes, Hl. unfold evidence.Add, evidence.latest.
      cbn [evidence.evidence evidence.halfLife]. repeat split; reflexivity. }
  destruct Hinv as (Ht & Hes & Hl & Hb).
  unfold state.Reasoning, evidence.LatestTimestamp, evidence.ComputeBeliefNow,
    evidence.Len, evidence.AliveEvidence, evidence.DeadEvidence.
  cbn [state.EvidenceCount state.AliveEvidenceCount state.DeadEvidenceCount].
  rewrite Hes. cbn [evidence.evidence].
  repeat split; try assumption; try reflexivity.
  rewrite !fold_left_collect. cbn [app]. rewrite !length_map.
  assert (Hcount : forall l : list evidence.Evidence,
    (length (List.filter evidence.SuggestsAlive l)
     + length (List.filter evidence.SuggestsDead l) <= length l)%nat).
  { induction l as [|x l IHl]; [reflexivity|]. cbn [List.filter].
    unfold evidence.SuggestsAlive at 1, evidence.SuggestsDead at 1.
    destruct (evidence.Kind x); repeat case_bool_decide; try congruence;
      cbn [orb length]; lia. }
  specialize (Hcount es). lia.
Qed.

Lemma elem_of_KnownNodes (os : state.ObserverState) (id : types.NodeID) :
  id ∈ state.KnownNodes os <-> is_Some (state.beliefs os !! id).
Proof.
  unfold state.KnownNodes.
  assert (H : forall (l : list (types.NodeID * state.LocalBelief)) acc,
    fold_left (fun nodes entry => nodes ++ [entry.1]) l acc = acc ++ l.*1).
  { induction l as [|x l IH]; intros acc; cbn [fold_left fmap list_fmap].
    - rewrite app_nil_r. reflexivity.
    - rewrite IH, <- app_assoc. reflexivity. }
  rewrite H. cbn [app]. rewrite list_elem_of_fmap. split.
  - intros [[k lb] [-> Hin]]. apply elem_of_map_to_list in Hin. eauto.
  - intros [lb Hlb]. exists (id, lb). split; [reflexivity|].
    apply elem_of_map_to_list. exact Hlb.
Qed.

Lemma elem_of_nodesWith (s : types.BeliefState) (os : state.ObserverState)
    (id : types.NodeID) :
  id ∈ state.nodesWith s os <->
  exists lb, state.beliefs os !! id = Some lb /\
             types.Dominant (state.belief lb) = s.
Proof.
  unfold state.nodesWith.
  assert (H : forall (l : list (types.NodeID * state.LocalBelief)) acc,
    id ∈ fold_left (fun nodes (entry : types.NodeID * state.LocalBelief) =>
                      if decide (types.Dominant (state.belief entry.2) = s)
                      then nodes ++ [entry.1] else nodes) l acc
    <-> id ∈ acc \/
        exists lb, (id, lb) ∈ l /\ types.Dominant (state.belief lb) = s).
  { induction l as [|[k lb] l IH]; intros acc; cbn [fold_left].
    - split; [auto|]. intros [H|(lb & Hin & _)]; [exact H|].
      apply elem_of_nil in Hin. contradiction.
    - rewrite IH. cbn [fst snd]. destruct (decide _) as [Hd|Hd].
      + rewrite elem_of_app, list_elem_of_singleton. split.
        * intros [[H| ->]|(lb' & Hin & Hs)]; [auto| |].
          -- right. exists lb. split; [apply elem_of_cons; auto | exact Hd].
          -- right. exists lb'. split; [apply elem_of_cons; auto | exact Hs].
        * intros [H|(lb' & Hin & Hs)]; [auto|].
          apply elem_of_cons in Hin. destruct Hin as [[= -> ->]|Hin]; [auto|].
          right. eauto.
      + split.
        * intros [H|(lb' & Hin & Hs)]; [auto|].
          right. exists lb'. split; [apply elem_of_cons; auto | exact Hs].
        * intros [H|(lb' & Hin & Hs)]; [auto|].
          apply elem_of_cons in Hin. destruct Hin as [[= -> ->]|Hin];
            [contradiction|]. right. eauto. }
  rewrite H. split.
  - intros [Hn|(lb & Hin & Hs)]; [apply elem_of_nil in Hn; contradiction|].
    apply elem_of_map_to_list in Hin. eauto.
  - intros (lb & Hlb & Hs). right. exists lb. split; [|exact Hs].
    apply elem_of_map_to_list. exact Hlb.
Qed.

(** [X10] The node lists partition the known nodes.  A node is listed by
    [KnownNodes] exactly when [Query] finds it; it is listed by
    [AliveNodes], [DeadNodes] or [UnknownNodes] exactly when it is known
    and the dominant state of its belief is alive, dead or unknown; so
    every known node is in exactly one of the three lists. *)
Theorem node_lists_partition (os : state.ObserverState) (id : types.NodeID) :
  (id ∈ state.KnownNodes os <-> is_Some (state.Query os id)) /\
  (forall s, id ∈ state.nodesWith s os <->
     exists q, state.Query os id = Some q /\
               types.Dominant (state.QueryBelief q) = s) /\
  (id ∈ state.KnownNodes os <->
   id ∈ state.AliveNodes os \/ id ∈ state.DeadNodes os \/
   id ∈ state.UnknownNodes os) /\
  ~ (id ∈ state.AliveNodes os /\ id ∈ state.DeadNodes os) /\
  ~ (id ∈ state.AliveNodes os /\ id ∈ state.UnknownNodes os) /\
  ~ (id ∈ state.DeadNodes os /\ id ∈ state.UnknownNodes os).
Proof.
  unfold state.AliveNodes, state.DeadNodes, state.UnknownNodes.
  rewrite elem_of_KnownNodes, !elem_of_nodesWith. unfold state.Query.
  destruct (state.beliefs os !! id) as [lb|] eqn:Hlb.
  - repeat split.
    + intros _. eauto.
    + intros _. eauto.
    + rewrite elem_of_nodesWith. intros (lb' & Hl & Hs). rewrite Hlb in Hl.
      injection Hl as <-. eexists. split; [reflexivity | exact Hs].
    + rewrite elem_of_nodesWith. intros (q & [= <-] & Hs). cbn in Hs.
      rewrite Hlb. eauto.
    + intros _. destruct (types.Dominant (state.belief lb)) eqn:Hd;
        [right; right | left | right; left]; eauto.
    + intros _. eauto.
    + intros [(l1 & [= <-] & H1) (l2 & [= <-] & H2)]. congruence.
    + intros [(l1 & [= <-] & H1) (l2 & [= <-] & H2)]. congruence.
    + intros [(l1 & [= <-] & H1) (l2 & [= <-] & H2)]. congruence.
  - repeat split.
    + intros [x Hx]. discriminate.
    + intros [x Hx]. discriminate.
    + rewrite elem_of_nodesWith. intros (lb' & Hl & _). congruence.
    + intros (q & Hq & _). discriminate.
    + intros [x Hx]. discriminate.
    + intros [(l & Hl & _)|[(l & Hl & _)|(l & Hl & _)]]; discriminate.
    + intros [(l & Hl & _) _]. discriminate.
    + intros [(l & Hl & _) _]. discriminate.
    + intros [(l & Hl & _) _]. discriminate.
Qed.

(** [X11] Recording evidence touches one target.  [RecordEvidence] on the
    observer state creates the target's local belief when it is missing,
    after which [Query] finds the target with the belief just returned;
    the beliefs of all other targets and the logical clock are unchanged.
    A new observer knows no node, and [QueryOrUnknown] then answers with
    the unknown belief. *)
Theorem ObserverRecordEvidence_frame (os : state.ObserverState)
    (target : types.NodeID) (e : evidence.Evidence) :
  let res := state.ObserverRecordEvidence os target e in
  (exists q, state.Query res.1 target = Some q /\
             state.QueryBelief q = res.2 /\ state.QueryTarget q = target) /\
  (forall other, other <> target ->
     state.beliefs res.1 !! other = state.beliefs os !! other) /\
  state.logicalClock res.1 = state.logicalClock os /\
  (state.beliefs os !! target = None ->
   res.2 = evidence.ComputeBelief
             (evidence.Add evidence.NewEvidenceSet e)
             (Z.max 0 (evidence.Timestamp e))) /\
  (forall self,
     state.Query (state.NewObserverState self) target = None /\
     state.QueryBelief (state.QueryOrUnknown (state.NewObserverState self) target)
       = types.UnknownBelief).
Proof.
  cbv zeta. unfold state.ObserverRecordEvidence.
  destruct (state.RecordEvidence _ e) as [lb b] eqn:Hrec.
  cbn [fst snd state.beliefs state.logicalClock].
  repeat split.
  - unfold state.Query. cbn [state.beliefs]. rewrite lookup_insert_eq.
    eexists. split; [reflexivity|]. cbn. split; [|reflexivity].
    unfold state.RecordEvidence in Hrec. injection Hrec as <- <-. reflexivity.
  - intros other Hne. rewrite lookup_insert_ne by congruence. reflexivity.
  - intros Hnone. rewrite Hnone in Hrec. unfold state.RecordEvidence in Hrec.
    injection Hrec as _ <-. cbn [state.evidenceSet state.lastUpdated
      state.NewLocalBelief]. f_equal.
    unfold styxtime.Zero. destruct (Z.ltb_spec 0 (evidence.Timestamp e)); lia.
Qed.

(** ** Witness registry: records *)

Lemma GetTrust_RecordWrong (r : witness.Registry) (id : types.NodeID) :
  witness.GetTrust (witness.RecordWrong r id) id ==
    Qmax (witness.GetTrust r id - 0.1) 0.1.
Proof.
  unfold witness.RecordWrong, witness.GetTrust, witness.getOrCreate.
  destruct (r !! id) as [w|]; rewrite lookup_insert_eq;
    unfold witness.MinTrust, witness.DecayRate, witness.DefaultTrust;
    cbn [witness.setTrust witness.Trust witness.newRecord]; case_Qltb;
    cbn [witness.setTrust witness.Trust]; unfold witness.DefaultTrust in *;
    solve [ exfalso; lra
          | rewrite Q.max_r by lra; lra
          | rewrite Q.max_l by lra; lra ].
Qed.

Lemma GetTrust_RecordCorrect (r : witness.Registry) (id : types.NodeID) :
  witness.GetTrust (witness.RecordCorrect r id) id ==
    Qmin (witness.GetTrust r id + 0.05) 1.
Proof.
  unfold witness.RecordCorrect, witness.GetTrust, witness.getOrCreate.
  destruct (r !! id) as [w|]; rewrite lookup_insert_eq;
    unfold witness.MaxTrust, witness.RecoveryRate, witness.DefaultTrust;
    cbn [witness.setTrust witness.Trust witness.newRecord]; case_Qltb;
    cbn [witness.setTrust witness.Trust]; unfold witness.DefaultTrust in *;
    solve [ exfalso; lra
          | rewrite Q.min_r by lra; lra
          | rewrite Q.min_l by lra; lra ].
Qed.

Lemma applyOp_other (r : witness.Registry) (op : witness.RegistryOp)
    (id : types.NodeID) :
  witness.opTarget op <> Some id -> witness.applyOp r op !! id = r !! id.
Proof.
  intros Hne.
  destruct op as [k|k|k|k belief|k|k|]; cbn [witness.applyOp witness.opTarget] in *;
    try reflexivity;
    assert (Hk : k <> id) by congruence.
  - unfold witness.Register. destruct (r !! k); [reflexivity|].
    apply lookup_insert_ne, Hk.
  - unfold witness.RecordCorrect, witness.getOrCreate.
    destruct (r !! k); rewrite ?lookup_insert_ne by exact Hk; reflexivity.
  - unfold witness.RecordWrong, witness.getOrCreate.
    destruct (r !! k); rewrite ?lookup_insert_ne by exact Hk; reflexivity.
  - unfold witness.RecordReport, witness.getOrCreate.
    destruct (r !! k); rewrite ?lookup_insert_ne by exact Hk; reflexivity.
Qed.

Lemma applyOp_keeps_record (r : witness.Registry) (op : witness.RegistryOp)
    (id : types.NodeID) :
  is_Some (r !! id) -> is_Some (witness.applyOp r op !! id).
Proof.
  intros Hs.
  destruct (decide (witness.opTarget op = Some id)) as [Ht|Ht];
    [|rewrite applyOp_other by exact Ht; exact Hs].
  destruct op as [k|k|k|k belief|k|k|]; cbn [witness.applyOp witness.opTarget] in *;
    try discriminate; injection Ht as ->.
  - unfold witness.Register. destruct Hs as [w Hw]. rewrite Hw, Hw. eauto.
  - unfold witness.RecordCorrect, witness.getOrCreate.
    destruct (r !! id); rewrite lookup_insert_eq; eauto.
  - unfold witness.RecordWrong, witness.getOrCreate.
    destruct (r !! id); rewrite lookup_insert_eq; eauto.
  - unfold witness.RecordReport, witness.getOrCreate.
    destruct (r !! id); rewrite lookup_insert_eq; eauto.
Qed.

(** [X12] Registry records.  Registering twice is registering once, and
    registering a known witness changes nothing.  An operation on one
    witness leaves the record of every other witness as it is, and no
    sequence of operations removes a record.  [RecordReport] stores the
    belief as the witness's last report without touching its trust. *)
Theorem registry_records :
  (forall r id,
     witness.Register (witness.Register r id) id = witness.Register r id) /\
  (forall r id w, r !! id = Some w -> witness.Register r id = r) /\
  (forall r op id,
     witness.opTarget op <> Some id -> witness.applyOp r op !! id = r !! id) /\
  (forall ops r id,
     is_Some (r !! id) -> is_Some (witness.run ops r !! id)) /\
  (forall r id belief,
     witness.GetTrust (witness.RecordReport r id belief) id
       = witness.GetTrust r id /\
     witness.LastReport <$> witness.GetRecord (witness.RecordReport r id belief) id
       = Some belief).
Proof.
  repeat split.
  - intros r id. unfold witness.Register.
    destruct (r !! id) eqn:Hl; [rewrite Hl; reflexivity|].
    rewrite lookup_insert_eq. reflexivity.
  - intros r id w Hw. unfold witness.Register. rewrite Hw. reflexivity.
  - intros r op id. apply applyOp_other.
  - intros ops. unfold witness.run.
    induction ops as [|op ops IH]; intros r id Hs; [exact Hs|].
    cbn [fold_left]. apply IH, applyOp_keeps_record, Hs.
  - unfold witness.RecordReport, witness.GetTrust, witness.getOrCreate.
    destruct (r !! id); rewrite lookup_insert_eq; reflexivity.
  - unfold witness.RecordReport, witness.GetRecord, witness.getOrCreate.
    destruct (r !! id); rewrite lookup_insert_eq; reflexivity.
Qed.

(** [X13] Trust after repeated reports.  From any trust within
    [0.1, 1.0], after [n] wrong reports in a row a witness has trust
    [max(trust - 0.1 * n, 0.1)], and after [n] correct reports in a row
    [min(trust + 0.05 * n, 1)]: a default witness is at the floor after
    seven wrong reports, and a correct report wins back half of what a
    wrong one costs. *)
Theorem trust_after_repeated_reports (r : witness.Registry)
    (id : types.NodeID) (n : nat) :
  witness.trust_bounded r ->
  witness.GetTrust (Nat.iter n (fun r => witness.RecordWrong r id) r) id ==
    Qmax (witness.GetTrust r id - 0.1 * inject_Z (Z.of_nat n)) 0.1 /\
  witness.GetTrust (Nat.iter n (fun r => witness.RecordCorrect r id) r) id ==
    Qmin (witness.GetTrust r id + 0.05 * inject_Z (Z.of_nat n)) 1.
Proof.
  intros Hb. pose proof (GetTrust_bounded r id Hb) as Ht.
  set (t := witness.GetTrust r id) in *.
  induction n as [|n [IHw IHc]].
  - change (inject_Z (Z.of_nat 0)) with 0. unfold Nat.iter. cbn [nat_rect].
    fold t. split.
    + rewrite Q.max_l by lra. lra.
    + rewrite Q.min_l by lra. lra.
  - assert (Hn : 0 <= inject_Z (Z.of_nat n))
      by (rewrite <- (Zle_Qle 0); lia).
    rewrite Nat2Z.inj_succ. unfold Z.succ. rewrite inject_Z_plus.
    change (inject_Z 1) with 1. rewrite !Nat.iter_succ. split.
    + rewrite GetTrust_RecordWrong, IHw.
      destruct (Q.max_spec (t - 0.1 * inject_Z (Z.of_nat n)) 0.1)
        as [[H1 ->]|[H1 ->]];
      destruct (Q.max_spec (t - 0.1 * (inject_Z (Z.of_nat n) + 1)) 0.1)
        as [[H2 ->]|[H2 ->]];
      first [ rewrite Q.max_l by lra; lra | rewrite Q.max_r by lra; lra ].
    + rewrite GetTrust_RecordCorrect, IHc.
      destruct (Q.min_spec (t + 0.05 * inject_Z (Z.of_nat n)) 1)
        as [[H1 ->]|[H1 ->]];
      destruct (Q.min_spec (t + 0.05 * (inject_Z (Z.of_nat n) + 1)) 1)
        as [[H2 ->]|[H2 ->]];
      first [ rewrite Q.min_l by lra; lra | rewrite Q.min_r by lra; lra ].
Qed.

Lemma trust_after_repeated_reports_witness :
  witness.GetTrust
    (Nat.iter 7 (fun r => witness.RecordWrong r (types.NewNodeID 1))
       witness.NewRegistry) (types.NewNodeID 1)
  == Qmax (witness.GetTrust witness.NewRegistry (types.NewNodeID 1)
           - 0.1 * inject_Z (Z.of_nat 7)) 0.1.
Proof.
  refine (proj1 (trust_after_repeated_reports witness.NewRegistry
                   (types.NewNodeID 1) 7 _)).
  exact NewRegistry_bounded.
Defined.

(** ** Aggregator: the result *)

(** An aggregate of no report or of several is a valid belief with the
    floor of 0.05 on its unknown mass, whatever the reports hold. *)
Lemma Aggregate_belief_valid (reg : witness.Registry)
    (reports : list witness.WitnessReport) :
  length reports <> 1%nat ->
  types.valid (witness.ResultBelief (witness.Aggregate reg reports)) /\
  0.05 <= types.Value (types.Unknown
                         (witness.ResultBelief (witness.Aggregate reg reports))).
Proof.
  intros Hlen. destruct reports as [|r0 [|r1 rest]].
  - split; [apply UnknownBelief_valid | vm_compute; discriminate].
  - cbn [length] in Hlen. congruence.
  - clear Hlen. unfold witness.Aggregate.
    set (rs := r0 :: r1 :: rest).
    destruct (fold_left (witness.weigh reg) rs (0, 0, 0, 0))
      as [[[totalWeight aliveSum] deadSum] unknownSum].
    destruct (totalWeight <? 0.001).
    { split; [apply UnknownBelief_valid | vm_compute; discriminate]. }
    set (dis := witness.calculateDisagreement rs _ _).
    cbv zeta.
    destruct (witness.detectCorrelation rs >? 0.9);
      destruct (dis >? 0.3).
    all: match goal with
         | |- context [if ?u <? 0.05 then _ else _] => destruct (u <? 0.05) eqn:Hu
         end.
    all: match goal with
         | |- context [types.NewBelief ?a ?d ?u] =>
             destruct (types.NewBelief a d u) as [b|e] eqn:Hb
         end.
    all: cbn [witness.ResultBelief].
    all: try (split; [apply UnknownBelief_valid | vm_compute; discriminate]).
    all: split; [exact (NewBelief_valid _ _ _ _ Hb)|].
    all: apply NewBelief_Ok in Hb; destruct Hb as (-> & _);
         cbn [types.Value types.Unknown types.unknown types.value];
         try apply Qltb_false in Hu; lra.
Qed.

(** [X14] Shape of an aggregate.  For every registry and every list of
    reports, valid or not: the result carries the reports and their
    number, its disagreement is within [0, 1], a single report's belief
    is returned as it is, and for any other number of reports the belief
    is a valid one whose unknown mass is at least 0.05. *)
Theorem Aggregate_result_wellformed (reg : witness.Registry)
    (reports : list witness.WitnessReport) :
  let res := witness.Aggregate reg reports in
  witness.WitnessCount res = witness.len reports /\
  witness.Reports res = reports /\
  0 <= witness.Disagreement res <= 1 /\
  (forall r, reports = [r] -> witness.ResultBelief res = witness.Belief r) /\
  (length reports <> 1%nat ->
   types.valid (witness.ResultBelief res) /\
   0.05 <= types.Value (types.Unknown (witness.ResultBelief res))).
Proof.
  cbv zeta.
  split; [|split; [|split; [|split; [|apply Aggregate_belief_valid]]]].
  all: destruct reports as [|r0 [|r1 rest]];
    try (cbn; first [reflexivity | lra | congruence | discriminate]).
  all: unfold witness.Aggregate; set (rs := r0 :: r1 :: rest);
    destruct (fold_left (witness.weigh reg) rs (0, 0, 0, 0))
      as [[[totalWeight aliveSum] deadSum] unknownSum];
    (destruct (totalWeight <? 0.001);
      [cbn; first [reflexivity | lra | discriminate]|]).
  all: try discriminate.
  all: pose proof (calculateDisagreement_range rs (aliveSum / totalWeight)
                     (deadSum / totalWeight)) as Hd.
  all: set (dis := witness.calculateDisagreement rs _ _) in *; cbv zeta.
  all: repeat match goal with
       | |- context [if ?c then _ else _] => destruct c
       end;
       cbn [witness.WitnessCount witness.Reports witness.Disagreement];
       first [reflexivity | exact Hd].
Qed.

(** ** Partition detector: order and shape *)

Lemma votes_Permutation (s : types.BeliefState)
    (rs rs' : list witness.WitnessReport) :
  Permutation rs rs' -> partition.votes s rs = partition.votes s rs'.
Proof.
  intros Hp. unfold partition.votes, witness.len. f_equal.
  apply Permutation_length. rewrite Hp. reflexivity.
Qed.

(** [X15] The classification does not depend on the order of the reports.
    For any detector, two lists holding the same reports in a different
    order are classified alike, leave the same state in the detector and
    give the same disagreement; the witness groups of a split hold the
    same witnesses, up to order. *)
Theorem Analyze_order_independent (d : partition.Detector)
    (rs rs' : list witness.WitnessReport) (target : types.NodeID) :
  Permutation rs rs' ->
  let out := partition.Analyze d rs target in
  let out' := partition.Analyze d rs' target in
  out.2.1 = out'.2.1 /\
  partition.state out.1 = partition.state out'.1 /\
  partition.Disagreement <$> out.2.2 = partition.Disagreement <$> out'.2.2 /\
  (forall sp sp', out.2.2 = Some sp -> out'.2.2 = Some sp' ->
     Forall2 (fun g g' =>
                Permutation (partition.Witnesses g) (partition.Witnesses g'))
       (partition.Groups sp) (partition.Groups sp')).
Proof.
  intros Hp. cbv zeta. unfold partition.Analyze.
  rewrite !fold_vote, !Z.add_0_l.
  rewrite <- !(votes_Permutation _ rs rs' Hp).
  assert (Hlen : witness.len rs' = witness.len rs)
    by (unfold witness.len; f_equal; symmetry; apply Permutation_length, Hp).
  rewrite Hlen.
  destruct (witness.len rs <? 2)%Z.
  { cbn. repeat split; intros; discriminate. }
  destruct ((0 <? partition.votes types.StateAlive rs)%Z
            && (0 <? partition.votes types.StateDead rs)%Z).
  - destruct (_ >? partition.disagreementThreshold d).
    + pose proof (fold_assign_witnesses target rs
                    (partition.mkWitnessGroup [] ∅)
                    (partition.mkWitnessGroup [] ∅)) as [Ha Hd].
      pose proof (fold_assign_witnesses target rs'
                    (partition.mkWitnessGroup [] ∅)
                    (partition.mkWitnessGroup [] ∅)) as [Ha' Hd'].
      destruct (fold_left (partition.assign target) rs _) as [ga gd].
      destruct (fold_left (partition.assign target) rs' _) as [ga' gd'].
      cbn [fst snd partition.state partition.Witnesses app fmap option_fmap
           option_map partition.Disagreement] in *.
      do 3 (split; [reflexivity|]).
      intros sp sp' [= <-] [= <-]. cbn [partition.Groups].
      repeat constructor.
      * rewrite Ha, Ha', Hp. reflexivity.
      * rewrite Hd, Hd', Hp. reflexivity.
    + cbn. repeat split; intros; discriminate.
  - destruct (_ >? 0.5); cbn; repeat split; intros; discriminate.
Qed.

Lemma Analyze_order_independent_witness :
  (partition.Analyze partition.NewDetector
     [witness.mkWitnessReport (types.NewNodeID 1) fixtures.target
        (types.MustBelief 0.9 0.05 0.05) 0;
      witness.mkWitnessReport (types.NewNodeID 2) fixtures.target
        (types.MustBelief 0.05 0.9 0.05) 0]
     fixtures.target).2.1
  = (partition.Analyze partition.NewDetector
       [witness.mkWitnessReport (types.NewNodeID 2) fixtures.target
          (types.MustBelief 0.05 0.9 0.05) 0;
        witness.mkWitnessReport (types.NewNodeID 1) fixtures.target
          (types.MustBelief 0.9 0.05 0.05) 0]
       fixtures.target).2.1.
Proof.
  refine (proj1 (Analyze_order_independent partition.NewDetector _ _
                   fixtures.target _)).
  apply perm_swap.
Defined.

Lemma votes_total (rs : list witness.WitnessReport) :
  (partition.votes types.StateAlive rs + partition.votes types.StateDead rs
   + partition.votes types.StateUnknown rs)%Z = witness.len rs.
Proof.
  induction rs as [|r rs IH]; [reflexivity|].
  rewrite !votes_cons.
  replace (witness.len (r :: rs)) with (1 + witness.len rs)%Z
    by (unfold witness.len; cbn [length]; lia).
  destruct (types.Dominant (witness.Belief r));
    repeat (destruct (decide _); try congruence); lia.
Qed.

Lemma votes_nonneg (s : types.BeliefState) (rs : list witness.WitnessReport) :
  (0 <= partition.votes s rs)%Z.
Proof. unfold partition.votes, witness.len. lia. Qed.

(** The group-building loop leaves in each group one belief, filed under
    the target: that of the last report of the group's side. *)
Lemma fold_assign_beliefs (target : types.NodeID)
    (rs : list witness.WitnessReport) :
  let res := fold_left (partition.assign target) rs
               (partition.mkWitnessGroup [] ∅, partition.mkWitnessGroup [] ∅) in
  partition.Beliefs res.1 =
    from_option (fun r => {[target := witness.Belief r]}) ∅
      (last (filter (fun r => types.Dominant (witness.Belief r) = types.StateAlive) rs)) /\
  partition.Beliefs res.2 =
    from_option (fun r => {[target := witness.Belief r]}) ∅
      (last (filter (fun r => types.Dominant (witness.Belief r) = types.StateDead) rs)).
Proof.
  induction rs as [|r rs IH] using rev_ind; [split; reflexivity|].
  cbv zeta in *. rewrite fold_left_app. cbn [fold_left].
  rewrite !filter_app, !filter_cons, !filter_nil.
  destruct (fold_left (partition.assign target) rs _) as [ga gd].
  cbn [fst snd] in IH. destruct IH as [Ha Hd].
  unfold partition.assign.
  destruct (types.Dominant (witness.Belief r)) eqn:Hdom;
    repeat (destruct (decide _); try congruence);
    cbn [fst snd partition.Beliefs]; rewrite ?app_nil_r, ?last_snoc;
    cbn [from_option]; split; try assumption.
  - rewrite Ha.
    match goal with |- context [last ?l] => destruct (last l) end;
      cbn [from_option]; [apply insert_singleton_eq | apply insert_empty].
  - rewrite Hd.
    match goal with |- context [last ?l] => destruct (last l) end;
      cbn [from_option]; [apply insert_singleton_eq | apply insert_empty].
Qed.

(** [X16] Shape of a split reality.  When [Analyze] confirms a partition,
    whatever the detector's threshold: both sides have at least one vote
    and each group lists as many witnesses as its side has votes; each
    group keeps a single belief, filed under the target, namely that of
    the last report of its side; and the disagreement is above the
    threshold and at most one half. *)
Theorem split_reality_shape (d : partition.Detector)
    (rs : list witness.WitnessReport) (target : types.NodeID) :
  (partition.Analyze d rs target).2.1 = partition.ConfirmedPartition ->
  exists aliveGroup deadGroup disagreement lastAlive lastDead,
    (partition.Analyze d rs target).2.2 =
      Some (partition.mkSplitReality [aliveGroup; deadGroup] disagreement
              [target]) /\
    (0 < partition.votes types.StateAlive rs)%Z /\
    (0 < partition.votes types.StateDead rs)%Z /\
    witness.len (partition.Witnesses aliveGroup) =
      partition.votes types.StateAlive rs /\
    witness.len (partition.Witnesses deadGroup) =
      partition.votes types.StateDead rs /\
    last (filter (fun r => types.Dominant (witness.Belief r) = types.StateAlive) rs)
      = Some lastAlive /\
    last (filter (fun r => types.Dominant (witness.Belief r) = types.StateDead) rs)
      = Some lastDead /\
    partition.Beliefs aliveGroup = {[target := witness.Belief lastAlive]} /\
    partition.Beliefs deadGroup = {[target := witness.Belief lastDead]} /\
    partition.disagreementThreshold d < disagreement /\
    disagreement <= 1 # 2.
Proof.
  unfold partition.Analyze.
  destruct (witness.len rs <? 2)%Z eqn:Hlen; [discriminate|].
  apply Z.ltb_ge in Hlen.
  rewrite fold_vote, min_is_Zmin, !Z.add_0_l.
  pose proof (votes_total rs) as Htot.
  pose proof (votes_nonneg types.StateUnknown rs) as Hu.
  destruct (0 <? partition.votes types.StateAlive rs)%Z eqn:Hva;
    [|cbn [andb]; destruct (_ >? 0.5); discriminate].
  destruct (0 <? partition.votes types.StateDead rs)%Z eqn:Hvd;
    [|cbn [andb]; destruct (_ >? 0.5); discriminate].
  apply Z.ltb_lt in Hva, Hvd. cbn [andb].
  destruct (_ >? partition.disagreementThreshold d) eqn:Hdis; [|discriminate].
  apply Qltb_true in Hdis.
  pose proof (fold_assign_witnesses target rs
                (partition.mkWitnessGroup [] ∅)
                (partition.mkWitnessGroup [] ∅)) as [Hwa Hwd].
  pose proof (fold_assign_beliefs target rs) as [Hba Hbd].
  destruct (fold_left (partition.assign target) rs _) as [ga gd].
  cbn [fst snd partition.Witnesses app] in *.
  intros _.
  assert (Hla : witness.len (partition.Witnesses ga)
                = partition.votes types.StateAlive rs).
  { rewrite Hwa. unfold partition.votes, witness.len.
    rewrite length_map. reflexivity. }
  assert (Hld : witness.len (partition.Witnesses gd)
                = partition.votes types.StateDead rs).
  { rewrite Hwd. unfold partition.votes, witness.len.
    rewrite length_map. reflexivity. }
  destruct (last (filter (fun r => types.Dominant (witness.Belief r)
                                   = types.StateAlive) rs))
    as [ra|] eqn:Era.
  2:{ apply last_None in Era. unfold partition.votes, witness.len in Hva.
      rewrite Era in Hva. cbn [length] in Hva. lia. }
  destruct (last (filter (fun r => types.Dominant (witness.Belief r)
                                   = types.StateDead) rs))
    as [rd|] eqn:Erd.
  2:{ apply last_None in Erd. unfold partition.votes, witness.len in Hvd.
      rewrite Erd in Hvd. cbn [length] in Hvd. lia. }
  cbn [from_option] in *.
  exists ga, gd. eexists. exists ra, rd.
  split; [reflexivity|].
  do 8 (split; [assumption || reflexivity|]).
  split; [exact Hdis|].
  apply Qle_shift_div_r.
  - rewrite <- (Zlt_Qlt 0). lia.
  - unfold Qle, Qmult, inject_Z. cbn [Qnum Qden]. lia.
Qed.

Lemma split_reality_shape_witness :
  exists aliveGroup deadGroup disagreement,
    (partition.Analyze partition.NewDetector
       (fixtures.makeWitnesses 2 ++
        [witness.mkWitnessReport (types.NewNodeID 7) fixtures.target
           (types.MustBelief 0.9 0.05 0.05) 0;
         witness.mkWitnessReport (types.NewNodeID 8) fixtures.target
           (types.MustBelief 0.8 0.1 0.1) 0])
       fixtures.target).2.2 =
      Some (partition.mkSplitReality [aliveGroup; deadGroup] disagreement
              [fixtures.target]) /\
    partition.Beliefs aliveGroup
      = {[fixtures.target := types.MustBelief 0.8 0.1 0.1]}.
Proof.
  destruct (split_reality_shape partition.NewDetector
              (fixtures.makeWitnesses 2 ++
               [witness.mkWitnessReport (types.NewNodeID 7) fixtures.target
                  (types.MustBelief 0.9 0.05 0.05) 0;
                witness.mkWitnessReport (types.NewNodeID 8) fixtures.target
                  (types.MustBelief 0.8 0.1 0.1) 0])
              fixtures.target)
    as (ga & gd & dis & ra & rd & Hsp & _ & _ & _ & _ & Hra & _ & Hba & _).
  - vm_compute. reflexivity.
  - exists ga, gd, dis. split; [exact Hsp|].
    rewrite Hba. vm_compute in Hra. injection Hra as <-. reflexivity.
Defined.

(** ** Finality engine: the dead map *)

Lemma DeclareDeath_other (e : finality.Engine) (nodeID : types.NodeID)
    (b : types.Belief) (rs : list witness.WitnessReport) (f : bool)
    (k : types.NodeID) :
  k <> nodeID ->
  finality.dead (finality.DeclareDeath e nodeID b rs f).1 !! k
    = finality.dead e !! k.
Proof.
  intros Hk. unfold finality.DeclareDeath.
  destruct (finality.dead e !! nodeID); [reflexivity|].
  repeat match goal with
  | |- context [if ?c then _ else _] => destruct c; [reflexivity|]
  end.
  cbn [fst finality.dead]. apply lookup_insert_ne. congruence.
Qed.

(** [X17] What a declaration touches.  [DeclareDeath] never changes the
    entry of another node, and a declaration that returns an error leaves
    the engine exactly as it was.  [AllDead] lists, without repetition,
    exactly the nodes for which [IsDead] answers true, and
    [AttemptResurrection] fails exactly for those. *)
Theorem DeclareDeath_frame :
  (forall e nodeID b rs f k,
     k <> nodeID ->
     finality.dead (finality.DeclareDeath e nodeID b rs f).1 !! k
       = finality.dead e !! k) /\
  (forall e nodeID b rs f err,
     (finality.DeclareDeath e nodeID b rs f).2 = Some err ->
     (finality.DeclareDeath e nodeID b rs f).1 = e) /\
  (forall e id, id ∈ finality.AllDead e <-> finality.IsDead e id = true) /\
  (forall e, NoDup (finality.AllDead e)) /\
  (forall e id,
     finality.AttemptResurrection e id = Some finality.ErrResurrection <->
     finality.IsDead e id = true).
Proof.
  split; [exact DeclareDeath_other|].
  split.
  { intros e nodeID b rs f err.
    destruct (DeclareDeath_cases e nodeID b rs f)
      as [[_ ->]|[(_ & _ & ->)|[(_ & _ & _ & ->)|[(_ & _ & _ & _ & ->)|
         [(_ & _ & _ & _ & _ & ->)|(_ & _ & _ & _ & _ & ->)]]]]];
      cbn [fst snd]; congruence. }
  split.
  { intros e id. unfold finality.AllDead, finality.IsDead.
    rewrite list_elem_of_fmap. split.
    - intros ([k r] & -> & Hin). apply elem_of_map_to_list in Hin.
      cbn [fst]. rewrite Hin. reflexivity.
    - destruct (finality.dead e !! id) as [r|] eqn:Hl; [|discriminate].
      intros _. exists (id, r). split; [reflexivity|].
      apply elem_of_map_to_list, Hl. }
  split.
  { intros e. apply NoDup_fst_map_to_list. }
  intros e id. unfold finality.AttemptResurrection, finality.IsDead.
  destruct (finality.dead e !! id); split; congruence.
Qed.

(** [X18] Every recorded death is justified.  In an engine reached from a
    new one by any sequence of operations, every death record is filed
    under its own node id, holds a belief whose dead mass is at least
    0.85, names at least three witnesses and bears the engine's one
    reason. *)
Theorem death_records_justified (ops : list finality.EngineOp)
    (k : types.NodeID) (r : finality.DeathRecord) :
  finality.dead (finality.run ops finality.NewEngine) !! k = Some r ->
  finality.justified k r.
Proof.
  assert (Hinv : forall ops e,
            (forall k r, finality.dead e !! k = Some r -> finality.justified k r) ->
            forall k r, finality.dead (finality.run ops e) !! k = Some r ->
                        finality.justified k r).
  { clear. unfold finality.run.
    induction ops as [|op ops IH]; intros e He; [exact He|].
    cbn [fold_left]. apply IH. clear IH.
    destruct op as [id|id|nodeID b rs f|id|]; cbn [finality.applyOp];
      try exact He.
    intros k r.
    destruct (DeclareDeath_cases e nodeID b rs f)
      as [[_ ->]|[(_ & _ & ->)|[(_ & _ & _ & ->)|[(_ & _ & _ & _ & ->)|
         [(_ & _ & _ & _ & _ & ->)|(_ & Hm & Hl & _ & _ & ->)]]]]];
      cbn [fst finality.dead]; try apply He.
    destruct (decide (k = nodeID)) as [->|Hne].
    - rewrite lookup_insert_eq. intros [= <-].
      unfold finality.justified, finality.MinDeadConfidence,
        finality.MinWitnesses.
      cbn [finality.NodeID finality.FinalBelief finality.Witnesses
           finality.Reason].
      repeat split; try assumption.
      unfold witness.len in *. rewrite length_map. exact Hl.
    - rewrite lookup_insert_ne by congruence. apply He. }
  apply Hinv. intros k' r' Hl. unfold finality.NewEngine in Hl.
  cbn [finality.dead] in Hl. rewrite lookup_empty in Hl. discriminate.
Qed.

Lemma death_records_justified_witness :
  finality.justified fixtures.target
    (finality.mkDeathRecord fixtures.target fixtures.highBelief
       (map witness.Witness (fixtures.makeWitnesses 5))
       "overwhelming evidence from multiple witnesses").
Proof.
  apply (death_records_justified
           [finality.OpDeclareDeath fixtures.target fixtures.highBelief
              (fixtures.makeWitnesses 5) true;
            finality.OpIsDead fixtures.target]).
  vm_compute. reflexivity.
Defined.

(** ** Oracle: traces of method calls *)

Lemma Analyze_threshold (d : partition.Detector)
    (rs : list witness.WitnessReport) (target : types.NodeID) :
  partition.disagreementThreshold (partition.Analyze d rs target).1
    = partition.disagreementThreshold d.
Proof.
  unfold partition.Analyze.
  destruct (witness.len rs <? 2)%Z; [reflexivity|].
  destruct (fold_left partition.vote rs _) as [[a dd] u].
  destruct (_ && _).
  - destruct (_ >? _); [|reflexivity].
    destruct (fold_left (partition.assign target) rs _). reflexivity.
  - destruct (_ >? _); reflexivity.
Qed.

(** The results of [Analyze] depend on the detector through its
    threshold only. *)
Lemma Analyze_result_threshold (d d' : partition.Detector)
    (rs : list witness.WitnessReport) (target : types.NodeID) :
  partition.disagreementThreshold d = partition.disagreementThreshold d' ->
  (partition.Analyze d rs target).2 = (partition.Analyze d' rs target).2.
Proof.
  intros H. unfold partition.Analyze. rewrite H.
  destruct (witness.len rs <? 2)%Z; [reflexivity|].
  destruct (fold_left partition.vote rs _) as [[a dd] u].
  destruct (_ && _).
  - destruct (_ >? _); [|reflexivity].
    destruct (fold_left (partition.assign target) rs _). reflexivity.
  - destruct (_ >? _); reflexivity.
Qed.

(** A query writes to the detector only, and not to its threshold. *)
Lemma QueryWithRequirement_fst (o : oracle.Oracle) (target : types.NodeID)
    (req : oracle.RequiredConfidence) :
  let o' := (oracle.QueryWithRequirement o target req).1 in
  oracle.selfID o' = oracle.selfID o /\
  oracle.registry o' = oracle.registry o /\
  oracle.finalityEngine o' = oracle.finalityEngine o /\
  oracle.reports o' = oracle.reports o /\
  partition.disagreementThreshold (oracle.detector o')
    = partition.disagreementThreshold (oracle.detector o).
Proof.
  cbv zeta. unfold oracle.QueryWithRequirement.
  destruct (finality.IsDead _ _); [auto|].
  destruct (_ =? 0)%Z; [auto|].
  pose proof (Analyze_threshold (oracle.detector o)
                (default [] (oracle.reports o !! target)) target) as Hth.
  destruct (partition.Analyze _ _ _) as [d [p sp]]. cbn [fst] in Hth.
  destruct p;
    repeat match goal with
    | |- context [if ?c then _ else _] => destruct c
    end; cbn; auto.
Qed.

(** The result of a query depends on the detector through its threshold
    only. *)
Lemma QueryWithRequirement_snd (o o' : oracle.Oracle) (target : types.NodeID)
    (req : oracle.RequiredConfidence) :
  oracle.registry o' = oracle.registry o ->
  oracle.finalityEngine o' = oracle.finalityEngine o ->
  oracle.reports o' = oracle.reports o ->
  partition.disagreementThreshold (oracle.detector o')
    = partition.disagreementThreshold (oracle.detector o) ->
  (oracle.QueryWithRequirement o' target req).2
    = (oracle.QueryWithRequirement o target req).2.
Proof.
  destruct o as [s reg fe det reps], o' as [s' reg' fe' det' reps'].
  cbn [oracle.registry oracle.finalityEngine oracle.reports oracle.detector].
  intros -> -> -> Hth.
  unfold oracle.QueryWithRequirement.
  cbn [oracle.registry oracle.finalityEngine oracle.reports oracle.detector
       oracle.selfID].
  destruct (finality.IsDead _ _); [reflexivity|].
  destruct (_ =? 0)%Z; [reflexivity|].
  pose proof (Analyze_result_threshold det' det
                (default [] (reps !! target)) target Hth) as Hres.
  destruct (partition.Analyze det' _ _) as [d1 [p1 sp1]].
  destruct (partition.Analyze det _ _) as [d2 [p2 sp2]].
  cbn [snd] in Hres. injection Hres as -> ->.
  destruct p2;
    repeat match goal with
    | |- context [if ?c then _ else _] => destruct c
    end; reflexivity.
Qed.

Lemma MustQuery_fst (o : oracle.Oracle) (target : types.NodeID) :
  (oracle.MustQuery o target).1 = (oracle.Query o target).1.
Proof.
  unfold oracle.MustQuery. destruct (oracle.Query o target) as [o' res].
  destruct (oracle.Refused res); [reflexivity|].
  destruct (oracle.Dead res); reflexivity.
Qed.

(** What one method call leaves as it is: the finality engine and the
    detector's threshold; and what it does to the reports about a node. *)
Lemma oracle_applyOp_keeps (o : oracle.Oracle) (op : oracle.OracleOp) :
  oracle.finalityEngine (oracle.applyOp o op) = oracle.finalityEngine o /\
  partition.disagreementThreshold (oracle.detector (oracle.applyOp o op))
    = partition.disagreementThreshold (oracle.detector o) /\
  (forall target,
     oracle.reportsAbout (oracle.applyOp o op) target
       = oracle.reportsAbout o target ++ oracle.received target [op]).
Proof.
  destruct op as [id|w t b|t|t req|t]; cbn [oracle.applyOp fst];
    rewrite ?MustQuery_fst; unfold oracle.Query.
  - cbn. repeat split. intros target. rewrite app_nil_r. reflexivity.
  - split; [reflexivity|]. split; [reflexivity|]. intros target.
    unfold oracle.reportsAbout, oracle.ReceiveReport, oracle.received.
    cbn [oracle.reports omap list_omap].
    destruct (decide (t = target)) as [->|Hne].
    + rewrite lookup_insert_eq. reflexivity.
    + rewrite lookup_insert_ne by exact Hne. rewrite app_nil_r. reflexivity.
  - destruct (QueryWithRequirement_fst o t oracle.DefaultRequirement)
      as (_ & _ & Hf & Hr & Hd).
    repeat split; try assumption. intros target.
    unfold oracle.reportsAbout. rewrite Hr, app_nil_r. reflexivity.
  - destruct (QueryWithRequirement_fst o t req) as (_ & _ & Hf & Hr & Hd).
    repeat split; try assumption. intros target.
    unfold oracle.reportsAbout. rewrite Hr, app_nil_r. reflexivity.
  - destruct (QueryWithRequirement_fst o t oracle.DefaultRequirement)
      as (_ & _ & Hf & Hr & Hd).
    repeat split; try assumption. intros target.
    unfold oracle.reportsAbout. rewrite Hr, app_nil_r. reflexivity.
Qed.

Lemma oracle_run_keeps (ops : list oracle.OracleOp) :
  forall o : oracle.Oracle,
  oracle.finalityEngine (oracle.run ops o) = oracle.finalityEngine o /\
  partition.disagreementThreshold (oracle.detector (oracle.run ops o))
    = partition.disagreementThreshold (oracle.detector o) /\
  (forall target,
     oracle.reportsAbout (oracle.run ops o) target
       = oracle.reportsAbout o target ++ oracle.received target ops).
Proof.
  unfold oracle.run. induction ops as [|op ops IH]; intros o.
  - cbn [fold_left]. repeat split. intros target.
    unfold oracle.received. cbn [omap list_omap]. rewrite app_nil_r.
    reflexivity.
  - cbn [fold_left].
    destruct (IH (oracle.applyOp o op)) as (Hf & Hd & Hr).
    destruct (oracle_applyOp_keeps o op) as (Hf1 & Hd1 & Hr1).
    split; [congruence|]. split; [congruence|].
    intros target. rewrite Hr, Hr1, <- app_assoc. f_equal.
    unfold oracle.received. cbn [omap list_omap].
    destruct op as [id|w t b|t|t req|t]; try reflexivity.
    destruct (decide (t = target)); reflexivity.
Qed.

(** [X19] A dead node stays dead to the oracle.  Once the finality engine
    of an oracle holds a node as dead, then after any further sequence of
    registrations, reports and queries, a query about that node, whatever
    its requirement, is answered with [Dead], the belief (0, 1, 0) and no
    refusal: reports received after the death are never consulted. *)
Theorem dead_node_stays_dead (o : oracle.Oracle) (target : types.NodeID)
    (ops : list oracle.OracleOp) (req : oracle.RequiredConfidence) :
  finality.IsDead (oracle.finalityEngine o) target = true ->
  let res := (oracle.QueryWithRequirement (oracle.run ops o) target req).2 in
  oracle.Dead res = true /\
  oracle.Refused res = false /\
  oracle.Belief res = types.MustBelief 0 1 0 /\
  types.Value (types.Dead (oracle.Belief res)) == 1 /\
  oracle.WitnessCount res = 0%Z /\
  oracle.Evidence res = ["finality: node declared dead"%string].
Proof.
  intros Hdead. cbv zeta. unfold oracle.QueryWithRequirement.
  destruct (oracle_run_keeps ops o) as (-> & _). rewrite Hdead.
  cbn [snd oracle.Dead oracle.Refused oracle.Belief oracle.WitnessCount
       oracle.Evidence].
  repeat split.
Qed.

Lemma dead_node_stays_dead_witness :
  oracle.Dead
    (oracle.QueryWithRequirement
       (oracle.run
          [oracle.OpReceiveReport (types.NewNodeID 1) fixtures.target
             (types.MustBelief 0.9 0.05 0.05)]
          (oracle.mkOracle (types.NewNodeID 1) witness.NewRegistry
             (finality.DeclareDeath finality.NewEngine fixtures.target
                fixtures.highBelief (fixtures.makeWitnesses 5) true).1
             partition.NewDetector ∅))
       fixtures.target oracle.StrictRequirement).2 = true.
Proof.
  refine (proj1 (dead_node_stays_dead _ fixtures.target _ _ _)).
  vm_compute. reflexivity.
Defined.

Lemma Register_default_trust (r : witness.Registry) (id : types.NodeID) :
  (forall k, witness.GetTrust r k = witness.DefaultTrust) ->
  forall k, witness.GetTrust (witness.Register r id) k = witness.DefaultTrust.
Proof.
  intros Hr k. unfold witness.Register.
  destruct (r !! id) eqn:Hid; [apply Hr|].
  unfold witness.GetTrust. destruct (decide (k = id)) as [->|Hne].
  - rewrite lookup_insert_eq. reflexivity.
  - rewrite lookup_insert_ne by congruence. apply Hr.
Qed.

Lemma oracle_run_default_trust (ops : list oracle.OracleOp) :
  forall o : oracle.Oracle,
  (forall k, witness.GetTrust (oracle.registry o) k = witness.DefaultTrust) ->
  forall k,
    witness.GetTrust (oracle.registry (oracle.run ops o)) k
      = witness.DefaultTrust.
Proof.
  unfold oracle.run. induction ops as [|op ops IH]; intros o Ho; [exact Ho|].
  cbn [fold_left]. apply IH. clear IH.
  destruct op as [id|w t b|t|t req|t]; cbn [oracle.applyOp fst];
    rewrite ?MustQuery_fst; unfold oracle.Query.
  - apply Register_default_trust, Ho.
  - apply Register_default_trust, Ho.
  - destruct (QueryWithRequirement_fst o t oracle.DefaultRequirement)
      as (_ & -> & _). exact Ho.
  - destruct (QueryWithRequirement_fst o t req) as (_ & -> & _). exact Ho.
  - destruct (QueryWithRequirement_fst o t oracle.DefaultRequirement)
      as (_ & -> & _). exact Ho.
Qed.

(** The witness count of a query about a node that is not dead is the
    number of reports held about it. *)
Lemma QueryWithRequirement_count (o : oracle.Oracle) (target : types.NodeID)
    (req : oracle.RequiredConfidence) :
  finality.IsDead (oracle.finalityEngine o) target = false ->
  let res := (oracle.QueryWithRequirement o target req).2 in
  oracle.Dead res = false /\
  oracle.WitnessCount res = witness.len (oracle.reportsAbout o target).
Proof.
  intros Hd. cbv zeta. unfold oracle.QueryWithRequirement, oracle.reportsAbout.
  rewrite Hd.
  destruct (_ =? 0)%Z; [split; reflexivity|].
  destruct (partition.Analyze _ _ _) as [d [p sp]].
  destruct p;
    repeat match goal with
    | |- context [if ?c then _ else _] => destruct c
    end; split; reflexivity.
Qed.

(** [X20] What the oracle's methods never do.  Starting from a new
    oracle, no sequence of calls of its exported methods declares a death
    or changes a trust score: the finality engine stays empty, so no
    query is ever answered with [Dead], and every witness, registered or
    not, weighs the default 0.8 in every aggregation; the detector keeps
    its threshold of 0.4. *)
Theorem oracle_never_declares_death (self : types.NodeID)
    (ops : list oracle.OracleOp) :
  let o := oracle.run ops (oracle.New self) in
  oracle.finalityEngine o = finality.NewEngine /\
  (forall target req,
     oracle.Dead (oracle.QueryWithRequirement o target req).2 = false) /\
  (forall id, witness.GetTrust (oracle.registry o) id = witness.DefaultTrust) /\
  partition.disagreementThreshold (oracle.detector o) = 0.4.
Proof.
  cbv zeta.
  destruct (oracle_run_keeps ops (oracle.New self)) as (Hf & Hd & _).
  split; [exact Hf|]. split; [|split].
  - intros target req.
    apply (QueryWithRequirement_count _ target req).
    rewrite Hf. reflexivity.
  - apply oracle_run_default_trust. intros k. reflexivity.
  - rewrite Hd. reflexivity.
Qed.

(** [X21] Reports accumulate.  An oracle reached from a new one by any
    sequence of calls holds, for every node, exactly the reports received
    about it, in the order received: no query consumes a report, no
    report about another node interferes, and a witness that reports
    twice is held twice.  The witness count of every query is the number
    of those reports. *)
Theorem oracle_holds_received_reports (self : types.NodeID)
    (ops : list oracle.OracleOp) (target : types.NodeID) :
  let o := oracle.run ops (oracle.New self) in
  oracle.reportsAbout o target = oracle.received target ops /\
  (forall req,
     oracle.WitnessCount (oracle.QueryWithRequirement o target req).2
       = witness.len (oracle.received target ops)) /\
  (forall witnessID belief,
     oracle.reportsAbout
       (oracle.ReceiveReport (oracle.ReceiveReport o witnessID target belief)
          witnessID target belief) target
     = oracle.received target ops
       ++ [witness.mkWitnessReport witnessID target belief 0;
           witness.mkWitnessReport witnessID target belief 0]).
Proof.
  cbv zeta.
  destruct (oracle_run_keeps ops (oracle.New self)) as (Hf & _ & Hr).
  assert (Hrep : oracle.reportsAbout (oracle.run ops (oracle.New self)) target
                 = oracle.received target ops) by (rewrite Hr; reflexivity).
  split; [exact Hrep|]. split.
  - intros req. rewrite <- Hrep.
    apply (QueryWithRequirement_count _ target req).
    rewrite Hf. reflexivity.
  - intros w b. unfold oracle.reportsAbout, oracle.ReceiveReport.
    cbn [oracle.reports]. rewrite !lookup_insert_eq. cbn [default].
    fold (oracle.reportsAbout (oracle.run ops (oracle.New self)) target).
    unfold id. rewrite Hrep, <- app_assoc. reflexivity.
Qed.

(** [X22] Queries do not interfere.  A query changes nothing in the
    oracle but the state the detector stores, and the answer to a query
    does not depend on the queries made before it. *)
Theorem queries_do_not_interfere (o : oracle.Oracle)
    (target target' : types.NodeID) (req req' : oracle.RequiredConfidence) :
  let o' := (oracle.QueryWithRequirement o target' req').1 in
  oracle.registry o' = oracle.registry o /\
  oracle.finalityEngine o' = oracle.finalityEngine o /\
  oracle.reports o' = oracle.reports o /\
  (oracle.QueryWithRequirement o' target req).2
    = (oracle.QueryWithRequirement o target req).2.
Proof.
  cbv zeta.
  destruct (QueryWithRequirement_fst o target' req') as (_ & Hr & Hf & Hp & Hd).
  repeat split; try assumption.
  apply QueryWithRequirement_snd; assumption.
Qed.

Lemma Aggregate_valid_of_valid (reg : witness.Registry)
    (rs : list witness.WitnessReport) :
  Forall (fun r => types.valid (witness.Belief r)) rs ->
  types.valid (witness.ResultBelief (witness.Aggregate reg rs)).
Proof.
  intros Hv. destruct (decide (length rs = 1%nat)) as [H1|H1].
  - destruct rs as [|r [|r' rs]]; try discriminate.
    cbn. inversion Hv; assumption.
  - apply Aggregate_belief_valid, H1.
Qed.

Lemma MustBelief_dead_valid : types.valid (types.MustBelief 0 1 0).
Proof. vm_compute. repeat split; discriminate. Qed.

(** [X23] Answers of the oracle.  When the reports held about a node are
    valid beliefs, every query about it, whatever its requirement, is
    answered with a valid belief.  Under the default requirement the
    oracle refuses exactly when the detector confirms a partition, and
    then answers the unknown belief with the partition as the reason. *)
Theorem Query_refuses_only_on_partition (o : oracle.Oracle)
    (target : types.NodeID) :
  Forall (fun r => types.valid (witness.Belief r))
    (oracle.reportsAbout o target) ->
  (forall req,
     types.valid (oracle.Belief (oracle.QueryWithRequirement o target req).2)) /\
  (oracle.Refused (oracle.Query o target).2 = true <->
   oracle.PartitionState (oracle.Query o target).2
     = partition.ConfirmedPartition) /\
  (oracle.Refused (oracle.Query o target).2 = true ->
   oracle.Belief (oracle.Query o target).2 = types.UnknownBelief /\
   oracle.RefusalReason (oracle.Query o target).2
     = "network partition detected - witnesses disagree"%string).
Proof.
  intros Hv. unfold oracle.reportsAbout in Hv.
  pose proof (Aggregate_valid_of_valid (oracle.registry o) _ Hv) as Hb.
  unfold oracle.Query, oracle.QueryWithRequirement.
  destruct (finality.IsDead _ _).
  { cbn. split; [intros _; apply MustBelief_dead_valid|].
    split; [split|]; discriminate. }
  destruct (_ =? 0)%Z.
  { cbn. split; [intros _; apply UnknownBelief_valid|].
    split; [split|]; discriminate. }
  destruct (partition.Analyze _ _ _) as [d [p sp]].
  cbn [oracle.registry] in *.
  set (b := witness.ResultBelief _) in *.
  destruct Hb as (Ha & Hd & Hu & Hs).
  assert (Hvb : types.valid b) by (unfold types.valid; tauto).
  unfold oracle.DefaultRequirement. cbn [oracle.MinAlive oracle.MinDead oracle.MaxUnknown].
  assert (E1 : (types.Value (types.Alive b) >? 0)
               && (types.Value (types.Alive b) <? 0.0) = false)
    by (unfold types.Alive; do 2 case_Qltb; cbn [andb]; try reflexivity; lra).
  assert (E2 : (types.Value (types.Unknown b) >? 1.0) = false)
    by (unfold types.Unknown; case_Qltb; try reflexivity; lra).
  destruct p;
    (split;
     [intros req;
      repeat match goal with
      | |- context [if ?c then _ else _] => destruct c
      end; first [exact Hvb | apply UnknownBelief_valid]
     |]);
    rewrite ?E1, ?E2; try destruct (_ >? 0.1); cbn;
    (split; [split|]); solve [discriminate | auto].
Qed.

Lemma Query_refuses_only_on_partition_witness :
  types.valid
    (oracle.Belief
       (oracle.QueryWithRequirement fixtures.correlatedOracle fixtures.target
          oracle.StrictRequirement).2).
Proof.
  refine (proj1 (Query_refuses_only_on_partition fixtures.correlatedOracle
                   fixtures.target _) oracle.StrictRequirement).
  vm_compute. repeat constructor; discriminate.
Defined.

(** ** Oracle: the witness count in the evidence line *)

Lemma itoa_digit (n : Z) :
  (0 <= n)%Z ->
  nat_of_ascii (ascii_of_nat (48 + Z.to_nat (n mod 10)))
    = (48 + Z.to_nat (n mod 10))%nat /\
  (Z.to_nat (n mod 10) <= 9)%nat.
Proof.
  intros Hn. pose proof (Z.mod_pos_bound n 10 ltac:(lia)) as Hm.
  split; [apply nat_ascii_embedding|]; lia.
Qed.

Lemma itoa_loop_decimal (fuel : nat) :
  forall (n : Z) (res : string),
    (0 <= n)%Z -> (Z.to_nat n <= fuel)%nat ->
    oracle.decimal (oracle.itoa_loop fuel n res) 0 = oracle.decimal res n.
Proof.
  induction fuel as [|fuel IH]; intros n res Hn Hf.
  - cbn [oracle.itoa_loop]. f_equal. lia.
  - cbn [oracle.itoa_loop]. destruct (Z.ltb_spec 0 n) as [Hpos|Hz].
    + pose proof (Z.div_lt n 10 ltac:(lia) ltac:(lia)) as Hlt.
      pose proof (Z.div_pos n 10 ltac:(lia) ltac:(lia)) as Hge.
      rewrite IH by lia. cbn [oracle.decimal].
      destruct (itoa_digit n Hn) as [-> Hd]. f_equal.
      pose proof (Z.div_mod n 10 ltac:(lia)) as Hdm.
      pose proof (Z.mod_pos_bound n 10 ltac:(lia)) as Hm. lia.
    + f_equal. lia.
Qed.

Lemma itoa_loop_allDigits (fuel : nat) :
  forall (n : Z) (res : string),
    (0 <= n)%Z -> oracle.allDigits res = true ->
    oracle.allDigits (oracle.itoa_loop fuel n res) = true.
Proof.
  induction fuel as [|fuel IH]; intros n res Hn Hres; [exact Hres|].
  cbn [oracle.itoa_loop]. destruct (Z.ltb_spec 0 n) as [Hpos|Hz]; [|exact Hres].
  apply IH; [apply Z.div_pos; lia|].
  cbn [oracle.allDigits]. destruct (itoa_digit n Hn) as [-> Hd].
  rewrite Hres, andb_true_r. apply andb_true_intro.
  split; apply Nat.leb_le; lia.
Qed.

(** [X24] The witness count is printed in decimal.  For every
    non-negative [n], [itoa n] consists of decimal digits only and, read
    as a decimal numeral, gives [n] back; so distinct counts are printed
    differently. *)
Theorem itoa_round_trip (n : Z) :
  (0 <= n)%Z ->
  oracle.allDigits (oracle.itoa n) = true /\
  oracle.decimal (oracle.itoa n) 0 = n /\
  (forall m, (0 <= m)%Z -> oracle.itoa m = oracle.itoa n -> m = n).
Proof.
  assert (Hrt : forall k, (0 <= k)%Z -> oracle.decimal (oracle.itoa k) 0 = k).
  { intros k Hk. unfold oracle.itoa. destruct (Z.eqb_spec k 0) as [->|Hne].
    - reflexivity.
    - rewrite itoa_loop_decimal by lia. reflexivity. }
  intros Hn. split; [|split].
  - unfold oracle.itoa. destruct (Z.eqb_spec n 0) as [->|Hne]; [reflexivity|].
    apply itoa_loop_allDigits; [exact Hn | reflexivity].
  - apply Hrt, Hn.
  - intros m Hm E. rewrite <- (Hrt m Hm), E. apply Hrt, Hn.
Qed.

Lemma itoa_round_trip_witness :
  oracle.decimal (oracle.itoa 1000) 0 = 1000%Z.
Proof.
  refine (proj1 (proj2 (itoa_round_trip 1000 _))). lia.
Defined.

(** ** Observer: local jitter *)

Lemma lastn_snoc_full {A : Type} (n : nat) (l rest : list A) (x y : A) :
  observer.lastn n l = y :: rest -> length (y :: rest) = n ->
  observer.lastn n (l ++ [x]) = rest ++ [x].
Proof.
  unfold observer.lastn. intros Hl Hn.
  assert (Hlen : length (drop (length l - n) l) = n) by (rewrite Hl; exact Hn).
  rewrite length_drop in Hlen. cbn [length] in Hn.
  rewrite length_app. cbn [length].
  replace (length l + 1 - n)%nat with (length l - n + 1)%nat by lia.
  rewrite drop_app_le by lia.
  rewrite <- drop_drop, Hl. reflexivity.
Qed.

Lemma lastn_snoc_short {A : Type} (n : nat) (l : list A) (x : A) :
  (length (observer.lastn n l) < n)%nat ->
  observer.lastn n (l ++ [x]) = observer.lastn n l ++ [x].
Proof.
  unfold observer.lastn. rewrite length_drop, length_app. cbn [length].
  intros Hlt.
  replace (length l + 1 - n)%nat with 0%nat by lia.
  replace (length l - n)%nat with 0%nat by lia.
  reflexivity.
Qed.

Lemma sampleRatio_nonneg (p : Z * Z) : 0 <= observer.sampleRatio p.
Proof. unfold observer.sampleRatio. cbv zeta. case_Qltb; lra. Qed.

(** [X25] The jitter window.  A tracker made by [NewJitterTracker], with
    any requested size, never panics when it records samples; after any
    sequence of them it holds the ratios of the samples with a positive
    expected duration, the last [windowSize] of them in the order
    recorded, where a requested size below 1 stands for 100; every ratio
    it holds is non-negative. *)
Theorem JitterTracker_window (w : Z) (l : list (Z * Z)) :
  let W := observer.effectiveWindow w in
  let ratios := map observer.sampleRatio (filter (fun p => (0 < p.1)%Z) l) in
  exists jt,
    observer.recordSamples (observer.NewJitterTracker w) l = Some jt /\
    observer.windowSize jt = W /\
    observer.samples jt = observer.lastn (Z.to_nat W) ratios /\
    (witness.len (observer.samples jt) <= W)%Z /\
    Forall (fun s => 0 <= s) (observer.samples jt).
Proof.
  cbv zeta.
  assert (HW : (1 <= observer.effectiveWindow w)%Z).
  { unfold observer.effectiveWindow. destruct (Z.ltb_spec w 1); lia. }
  induction l as [|[e a] l IH] using rev_ind.
  - exists (observer.NewJitterTracker w).
    repeat split; [unfold witness.len; cbn; lia | constructor].
  - destruct IH as (jt & Hrun & Hw & Hs & Hl & Hnn).
    unfold observer.recordSamples in *. rewrite fold_left_app, Hrun.
    cbn [fold_left fst snd]. rewrite filter_app, map_app.
    rewrite filter_cons, filter_nil. cbn [fst].
    unfold observer.RecordSample. rewrite Hw.
    destruct (Z.leb_spec e 0) as [He|He].
    { destruct (decide (0 < e)%Z); [lia|]. cbn [map]. rewrite app_nil_r.
      exists jt. auto. }
    destruct (decide (0 < e)%Z); [|lia]. cbn [map].
    fold (observer.sampleRatio (e, a)).
    pose proof (sampleRatio_nonneg (e, a)) as Hr.
    destruct (Z.leb_spec (observer.effectiveWindow w)
                (witness.len (observer.samples jt))) as [Hfull|Hroom].
    + destruct (observer.samples jt) as [|s0 rest] eqn:Es.
      { unfold witness.len in Hfull. cbn [length] in Hfull. lia. }
      eexists. split; [reflexivity|].
      cbn [observer.windowSize observer.samples].
      split; [reflexivity|]. split; [|split].
      * symmetry. apply (lastn_snoc_full _ _ rest _ s0); [congruence|].
        unfold witness.len in *. lia.
      * unfold witness.len in *. rewrite length_app. cbn [length] in *. lia.
      * inversion Hnn; subst. apply Forall_app. split; [assumption|].
        repeat constructor. exact Hr.
    + eexists. split; [reflexivity|].
      cbn [observer.windowSize observer.samples].
      split; [reflexivity|]. split; [|split].
      * rewrite lastn_snoc_short; [rewrite Hs; reflexivity|].
        rewrite <- Hs. unfold witness.len in *. lia.
      * unfold witness.len in *. rewrite length_app. cbn [length]. lia.
      * apply Forall_app. split; [assumption|]. repeat constructor. exact Hr.
Qed.

Lemma fold_scan (l : list Q) :
  forall sum mx : Q,
    0 <= sum -> Forall (fun s => 0 <= s) l ->
    let res := fold_left observer.scan l (sum, mx) in
    0 <= res.1 /\ mx <= res.2 /\ Forall (fun s => s <= res.2) l.
Proof.
  induction l as [|s l IH]; intros sum mx Hsum Hl.
  - cbn. repeat split; [exact Hsum | lra | constructor].
  - inversion Hl as [|? ? Hs Hl']; subst. cbn [fold_left observer.scan].
    destruct (IH (sum + s) (if s >? mx then s else mx) ltac:(lra) Hl')
      as (H1 & H2 & H3).
    cbv zeta in *. split; [exact H1|].
    destruct (s >? mx) eqn:Hc;
      [apply Qltb_true in Hc | apply Qltb_false in Hc];
      (split; [lra|]); constructor; solve [assumption | lra].
Qed.

Lemma GetJitterFactor_bounds (jt : observer.JitterTracker) :
  Forall (fun s => 0 <= s) (observer.samples jt) ->
  0.1 <= observer.GetJitterFactor jt <= 1.
Proof.
  intros Hnn. unfold observer.GetJitterFactor.
  destruct (Z.eqb_spec (witness.len (observer.samples jt)) 0) as [|Hne]; [lra|].
  destruct (fold_scan _ 0 0 ltac:(lra) Hnn) as (Hsum & _).
  destruct (fold_left observer.scan _ _) as [sum mx]. cbn [fst] in Hsum.
  assert (Hlen : 0 < inject_Z (witness.len (observer.samples jt))).
  { rewrite <- (Zlt_Qlt 0). unfold witness.len in *. lia. }
  assert (Hmean : 0 <= sum / inject_Z (witness.len (observer.samples jt))).
  { apply Qle_shift_div_l; [exact Hlen | lra]. }
  repeat case_Qltb; lra.
Qed.

(** [X26] The jitter factor.  For a tracker whose samples are
    non-negative, as every recorded sample is, the factor lies within
    [0.1, 1]: it never reaches the 0 its comment mentions.  One sample in
    the window with a ratio above 2 is enough to bring it down to 0.1,
    and [IsJittery] holds exactly when the factor is below 0.8. *)
Theorem GetJitterFactor_range (jt : observer.JitterTracker) :
  Forall (fun s => 0 <= s) (observer.samples jt) ->
  0.1 <= observer.GetJitterFactor jt <= 1 /\
  (forall s, s ∈ observer.samples jt -> 2 < s ->
             observer.GetJitterFactor jt = 0.1) /\
  (observer.IsJittery jt = true <-> observer.GetJitterFactor jt < 0.8).
Proof.
  intros Hnn. split; [apply GetJitterFactor_bounds, Hnn|]. split.
  - intros s Hin Hs. unfold observer.GetJitterFactor.
    destruct (Z.eqb_spec (witness.len (observer.samples jt)) 0) as [He|Hne].
    { destruct (observer.samples jt); [inversion Hin|].
      unfold witness.len in He. cbn [length] in He. lia. }
    destruct (fold_scan _ 0 0 ltac:(lra) Hnn) as (_ & _ & Hmax).
    destruct (fold_left observer.scan _ _) as [sum mx]. cbn [snd] in Hmax.
    rewrite Forall_forall in Hmax. specialize (Hmax s Hin).
    destruct (mx >? 2.0) eqn:Hc; [reflexivity|].
    apply Qltb_false in Hc. lra.
  - unfold observer.IsJittery. split.
    + apply Qltb_true.
    + intros H. case_Qltb; [reflexivity | lra].
Qed.

Lemma GetJitterFactor_range_witness :
  0.1 <= observer.GetJitterFactor
           (observer.mkJitterTracker [0.1; 0; 0.3] 100) <= 1.
Proof.
  refine (proj1 (GetJitterFactor_range _ _)).
  repeat constructor; cbn; discriminate.
Defined.

(** [X27] Jitter-aware timeouts.  The evidence is that of [NewTimeout]
    but for its weight, which is that weight times the jitter factor,
    capped at 0.3: it never exceeds 0.3 whatever the factor, it is
    non-negative for a non-negative factor, and for the factor of a
    tracker with non-negative samples it lies between 0.01 and the weight
    of the plain timeout. *)
Theorem NewJitterAwareTimeout_weight (ts : styxtime.LogicalTimestamp)
    (expectedMS waitedMS : Z) (jitterFactor : Q)
    (source target : types.NodeID) :
  let ev := observer.NewJitterAwareTimeout ts expectedMS waitedMS
              jitterFactor source target in
  let base := evidence.NewTimeout ts expectedMS waitedMS source target in
  evidence.Kind ev = evidence.KindTimeout /\
  evidence.Timestamp ev = ts /\
  evidence.Source ev = source /\ evidence.Target ev = target /\
  evidence.Details ev = evidence.Details base /\
  evidence.Weight ev <= 0.3 /\
  (0 <= jitterFactor -> 0 <= evidence.Weight ev) /\
  (forall jt,
     Forall (fun s => 0 <= s) (observer.samples jt) ->
     jitterFactor = observer.GetJitterFactor jt ->
     0.01 <= evidence.Weight ev <= evidence.Weight base).
Proof.
  cbv zeta. unfold observer.NewJitterAwareTimeout.
  cbn [evidence.Kind evidence.Timestamp evidence.Source evidence.Target
       evidence.Details evidence.Weight].
  do 5 (split; [reflexivity|]).
  assert (Hb : 0.1 <= evidence.Weight
                        (evidence.NewTimeout ts expectedMS waitedMS source target)
               <= 0.3).
  { unfold evidence.NewTimeout. cbn [evidence.Weight].
    destruct (PrimFloat.ltb 10.0 _); [lra|].
    destruct (PrimFloat.ltb 3.0 _); lra. }
  set (w := evidence.Weight _) in *.
  split; [case_Qltb; lra|]. split.
  - intros Hj. case_Qltb; [lra|]. apply Qmult_le_0_compat; lra.
  - intros jt Hnn ->. pose proof (GetJitterFactor_bounds jt Hnn) as Hf.
    case_Qltb; nra.
Qed.

(** ** Observer: response entropy *)

Lemma fold_latency_sum (l : list Z) :
  forall sum : Q,
    0 <= sum -> Forall (fun lat => (0 <= lat)%Z) l ->
    0 <= fold_left (fun sum lat => sum + inject_Z lat) l sum.
Proof.
  induction l as [|lat l IH]; intros sum Hsum Hl; [exact Hsum|].
  inversion Hl as [|? ? Hlat Hl']; subst. cbn [fold_left]. apply IH; [|exact Hl'].
  assert (0 <= inject_Z lat) by (rewrite <- (Zle_Qle 0); exact Hlat). lra.
Qed.

Lemma Entropy_range (re : observer.ResponseEntropy) :
  Forall (fun lat => (0 <= lat)%Z) (observer.latencies re) ->
  0 <= observer.Entropy re <= 1.
Proof.
  intros Hnn. unfold observer.Entropy. cbv zeta.
  destruct (Z.ltb_spec (witness.len (observer.latencies re)) 2) as [|Hlen];
    [lra|].
  pose proof (fold_latency_sum _ 0 ltac:(lra) Hnn) as Hsum.
  set (sum := fold_left (fun sum lat => sum + inject_Z lat) _ 0) in *.
  assert (Hn : 0 < inject_Z (witness.len (observer.latencies re)))
    by (rewrite <- (Zlt_Qlt 0); lia).
  destruct (Qeq_bool (sum / _) 0) eqn:Hz; [lra|].
  apply Qeq_bool_neq in Hz.
  assert (Hmean : 0 <= sum / inject_Z (witness.len (observer.latencies re)))
    by (apply Qle_shift_div_l; [exact Hn | lra]).
  split.
  - apply Q.min_glb; [|lra].
    apply Qle_shift_div_l; [lra|].
    rewrite Qmult_0_l. apply Qsqrt_nonneg.
  - apply Qle_trans with (y := 1.0); [apply Q.le_min_r | lra].
Qed.

(** [X28] The entropy factor.  For a window of non-negative latencies
    the entropy lies within [0, 1] and the confidence factor within
    [0.5, 1]: a response is never discounted by more than half.  With
    fewer than two latencies the factor is 0.75, and the responses count
    as erratic exactly when the factor is below 0.75. *)
Theorem ConfidenceFactor_range (re : observer.ResponseEntropy) :
  Forall (fun lat => (0 <= lat)%Z) (observer.latencies re) ->
  0 <= observer.Entropy re <= 1 /\
  0.5 <= observer.ConfidenceFactor re <= 1 /\
  ((witness.len (observer.latencies re) < 2)%Z ->
   observer.ConfidenceFactor re == 0.75) /\
  (observer.IsErratic re = true <-> observer.ConfidenceFactor re < 0.75).
Proof.
  intros Hnn. pose proof (Entropy_range re Hnn) as He.
  split; [exact He|]. unfold observer.ConfidenceFactor, observer.IsErratic.
  cbv zeta. split; [lra|]. split.
  - intros Hlen. unfold observer.Entropy. cbv zeta.
    destruct (Z.ltb_spec (witness.len (observer.latencies re)) 2); [lra | lia].
  - split.
    + intros H. apply Qltb_true in H. lra.
    + intros H. case_Qltb; [reflexivity | lra].
Qed.

Lemma ConfidenceFactor_range_witness :
  0.5 <= observer.ConfidenceFactor
           (observer.mkResponseEntropy [10; 30; 20]%Z 50) <= 1.
Proof.
  refine (proj1 (proj2 (ConfidenceFactor_range _ _))).
  repeat constructor; discriminate.
Defined.

(** ** Evidence: decay over time *)

(** In exact arithmetic one more unit of age lowers the value of
    [pow 0.5]; the rounding of the source keeps the order, not the
    strictness. *)
Lemma pow_half_step (a h : Z) :
  (0 <= a)%Z -> (0 < h)%Z ->
  evidence.pow 0.5 (inject_Z (a + 1) / inject_Z h)
    < evidence.pow 0.5 (inject_Z a / inject_Z h).
Proof.
  intros Ha Hh. rewrite !pow_half_quotient by lia.
  pose proof (Z.div_mod a h ltac:(lia)) as Hdm.
  pose proof (Z.mod_pos_bound a h Hh) as Hm.
  set (q := (a / h)%Z) in *. set (r := (a mod h)%Z) in *.
  assert (HH : 0 < inject_Z h) by (rewrite <- (Zlt_Qlt 0); exact Hh).
  assert (Hi : 0 < / (2 * inject_Z h)) by (apply Qinv_lt_0_compat; lra).
  assert (Hone : 2 * inject_Z h * / (2 * inject_Z h) == 1)
    by (apply Qmult_inv_r; lra).
  assert (HP : 0 < 0.5 ^ q) by (apply Qpower_0_lt; lra).
  unfold Qdiv. set (i := / (2 * inject_Z h)) in *. set (P := 0.5 ^ q) in *.
  destruct (Z_lt_le_dec (r + 1) h) as [Hlt|Hge].
  - rewrite <- (Z.div_unique_pos (a + 1) h q (r + 1)) by lia.
    rewrite <- (Z.mod_unique_pos (a + 1) h q (r + 1)) by lia.
    fold P. rewrite inject_Z_plus. change (inject_Z 1) with 1.
    assert (0 < P * i) by (apply Qmult_lt_0_compat; assumption).
    setoid_replace (P * (1 - (inject_Z r + 1) * i))
      with (P * (1 - inject_Z r * i) - P * i) using relation Qeq by ring.
    lra.
  - assert (Hr : r = (h - 1)%Z) by lia.
    rewrite <- (Z.div_unique_pos (a + 1) h (q + 1) 0) by lia.
    rewrite <- (Z.mod_unique_pos (a + 1) h (q + 1) 0) by lia.
    rewrite Qpower_plus by lra. fold P. change (0.5 ^ 1) with 0.5.
    rewrite Hr. unfold Z.sub. rewrite inject_Z_plus.
    change (inject_Z (-1)) with (-1). change (inject_Z 0) with 0.
    assert (0 < P * i) by (apply Qmult_lt_0_compat; assumption).
    setoid_replace (P * (1 - (inject_Z h + -1) * i))
      with (P * 0.5 + P * i + P * (0.5 - 0.5 * (2 * inject_Z h * i)))
      using relation Qeq by ring.
    rewrite Hone.
    setoid_replace (P * 0.5 * (1 - 0 * i))
      with (P * 0.5) using relation Qeq by ring.
    setoid_replace (P * 0.5 + P * i + P * (0.5 - 0.5 * 1))
      with (P * 0.5 + P * i) using relation Qeq by ring.
    lra.
Qed.

Lemma pow_half_mono (h : Z) (k : nat) :
  forall a : Z,
    (0 <= a)%Z -> (0 < h)%Z ->
    evidence.pow 0.5 (inject_Z (a + Z.of_nat k) / inject_Z h)
      <= evidence.pow 0.5 (inject_Z a / inject_Z h).
Proof.
  induction k as [|k IH]; intros a Ha Hh.
  - rewrite Z.add_0_r. lra.
  - rewrite Nat2Z.inj_succ. unfold Z.succ. rewrite Z.add_assoc.
    apply Qle_trans with
      (y := evidence.pow 0.5 (inject_Z (a + Z.of_nat k) / inject_Z h)).
    + apply Qlt_le_weak, pow_half_step; lia.
    + apply IH; assumption.
Qed.

(** [X29] Evidence does not gain weight with time.  For a positive
    half-life and a non-negative weight, the effective weight never
    exceeds the weight, equals it until the evidence's own timestamp is
    passed, and does not grow as the clock advances.  The statement is
    made for ages below [2^53 * halfLife], the range in which the loop of
    [pow] exits. *)
Theorem EffectiveWeight_decreases (e : evidence.Evidence)
    (now now' : styxtime.LogicalTimestamp) (hl : Z) :
  (0 < hl)%Z -> 0 <= evidence.Weight e -> (now <= now')%Z ->
  (styxtime.AgeSince (evidence.Timestamp e) now' < 2 ^ 53 * hl)%Z ->
  evidence.EffectiveWeight e now' hl <= evidence.EffectiveWeight e now hl /\
  evidence.EffectiveWeight e now hl <= evidence.Weight e /\
  ((now <= evidence.Timestamp e)%Z ->
   evidence.EffectiveWeight e now hl == evidence.Weight e).
Proof.
  intros Hh Hw Hle Hexits. unfold evidence.EffectiveWeight. cbv zeta.
  pose proof (AgeSince_nonneg (evidence.Timestamp e) now) as Hage.
  assert (Hzero : evidence.pow 0.5 (inject_Z 0 / inject_Z hl) == 1).
  { unfold evidence.pow. destruct (Qeq_dec _ 0) as [|Hne]; [reflexivity|].
    exfalso. apply Hne. unfold Qdiv. change (inject_Z 0) with 0. ring. }
  assert (Hone : evidence.pow 0.5
                   (inject_Z (styxtime.AgeSince (evidence.Timestamp e) now)
                    / inject_Z hl) <= 1).
  { rewrite <- Hzero.
    replace (styxtime.AgeSince (evidence.Timestamp e) now)
      with (0 + Z.of_nat (Z.to_nat
              (styxtime.AgeSince (evidence.Timestamp e) now)))%Z by lia.
    apply pow_half_mono; lia. }
  split; [|split].
  - rewrite !(Qmult_comm (evidence.Weight e)).
    apply Qmult_le_compat_r; [|exact Hw].
    replace (styxtime.AgeSince (evidence.Timestamp e) now')
      with (styxtime.AgeSince (evidence.Timestamp e) now
            + Z.of_nat (Z.to_nat
                (styxtime.AgeSince (evidence.Timestamp e) now'
                 - styxtime.AgeSince (evidence.Timestamp e) now)))%Z.
    + apply pow_half_mono; lia.
    + unfold styxtime.AgeSince in *.
      destruct (Z.ltb_spec now (evidence.Timestamp e));
        destruct (Z.ltb_spec now' (evidence.Timestamp e)); lia.
  - apply Qle_trans with (y := 1 * evidence.Weight e); [|lra].
    rewrite (Qmult_comm (evidence.Weight e)).
    apply Qmult_le_compat_r; [exact Hone | exact Hw].
  - intros Hfut.
    replace (styxtime.AgeSince (evidence.Timestamp e) now) with 0%Z.
    + rewrite Hzero. ring.
    + unfold styxtime.AgeSince.
      destruct (Z.ltb_spec now (evidence.Timestamp e)); lia.
Qed.

Lemma EffectiveWeight_decreases_witness :
  evidence.EffectiveWeight
    (evidence.NewCausalEvent 0 7 (types.NewNodeID 1) (types.NewNodeID 2)) 250 100
  <= evidence.EffectiveWeight
       (evidence.NewCausalEvent 0 7 (types.NewNodeID 1) (types.NewNodeID 2)) 30 100.
Proof.
  refine (proj1 (EffectiveWeight_decreases _ 30 250 100 _ _ _ _));
    [lia | cbn; discriminate | lia | reflexivity].
Defined.

(** ** Aggregator: the first report *)

Lemma Qsum_replicate (f : witness.WitnessReport -> Q)
    (b : witness.WitnessReport) (n : nat) :
  Qsum (map f (replicate n b)) == inject_Z (Z.of_nat n) * f b.
Proof.
  induction n as [|n IH].
  - change (inject_Z (Z.of_nat 0)) with 0. cbn. ring.
  - cbn [replicate map Qsum]. rewrite IH, Nat2Z.inj_succ. unfold Z.succ.
    rewrite inject_Z_plus. change (inject_Z 1) with 1. ring.
Qed.

(** [X30] The correlation score hangs on the first report.  Every report
    is compared with the first one only.  With one report [a] and [n + 1]
    copies of a report [b] that differs from it by [delta] (in alive plus
    dead mass), the score is [1 - min(2 * delta, 1)] when [a] comes
    first, but [1 - min(2 * delta / (n + 1), 1)] when a copy of [b] does.
    So the aggregate depends on the order of the reports: of (0.80, 0.10,
    0.10) and two reports of (0.84, 0.06, 0.10), only the order that
    starts with the latter draws the correlation penalty. *)
Theorem detectCorrelation_first_report :
  (forall (a b : witness.WitnessReport) (n : nat),
     let delta :=
       Qabs (witness.aliveOf a - witness.aliveOf b)
       + Qabs (witness.deadOf a - witness.deadOf b) in
     witness.detectCorrelation (a :: replicate (S n) b)
       == 1 - Qmin (2 * delta) 1 /\
     witness.detectCorrelation (b :: a :: replicate n b)
       == 1 - Qmin (2 * (delta / inject_Z (Z.of_nat (S n)))) 1) /\
  (let a := witness.mkWitnessReport (types.NewNodeID 1) fixtures.target
              (types.MustBelief 0.80 0.10 0.10) 0 in
   let b := witness.mkWitnessReport (types.NewNodeID 2) fixtures.target
              (types.MustBelief 0.84 0.06 0.10) 0 in
   Permutation [a; b; b] [b; a; b] /\
   types.Value (types.Alive (witness.ResultBelief
      (witness.Aggregate witness.NewRegistry [a; b; b]))) == 62 # 75 /\
   types.Value (types.Alive (witness.ResultBelief
      (witness.Aggregate witness.NewRegistry [b; a; b]))) == (62 # 75) * 0.7).
Proof.
  split.
  - intros a b n delta.
    assert (Hn : 0 < inject_Z (Z.of_nat (S n)))
      by (rewrite <- (Zlt_Qlt 0); lia).
    split.
    + etransitivity;
        [apply detectCorrelation_spec; unfold witness.len;
         cbn [length replicate]; lia|].
      unfold witness.meanAbsDiffFromFirst.
      rewrite Qsum_replicate, length_replicate.
      fold (witness.aliveOf a) (witness.aliveOf b)
           (witness.deadOf a) (witness.deadOf b). fold delta.
      assert (E : inject_Z (Z.of_nat (S n)) * delta / inject_Z (Z.of_nat (S n))
                  == delta) by (field; lra).
      rewrite E. reflexivity.
    + etransitivity;
        [apply detectCorrelation_spec; unfold witness.len;
         cbn [length replicate]; lia|].
      unfold witness.meanAbsDiffFromFirst. cbn [map Qsum].
      rewrite Qsum_replicate. cbn [length]. rewrite length_replicate.
      fold (witness.aliveOf a) (witness.aliveOf b)
           (witness.deadOf a) (witness.deadOf b).
      assert (E0 : Qabs (witness.aliveOf b - witness.aliveOf b)
                   + Qabs (witness.deadOf b - witness.deadOf b) == 0).
      { assert (Ea : witness.aliveOf b - witness.aliveOf b == 0) by ring.
        assert (Ed : witness.deadOf b - witness.deadOf b == 0) by ring.
        rewrite Ea, Ed. reflexivity. }
      rewrite E0.
      rewrite (Qabs_Qminus (witness.aliveOf b)),
              (Qabs_Qminus (witness.deadOf b)). fold delta.
      assert (E : (delta + inject_Z (Z.of_nat n) * 0) / inject_Z (Z.of_nat (S n))
                  == delta / inject_Z (Z.of_nat (S n))) by (field; lra).
      rewrite E. reflexivity.
  - cbv zeta. split; [apply perm_swap|]. split; vm_compute; reflexivity.
Qed.
